(** * Simplest-Agent: the state-machine engine of [agent.py]

    A shallow embedding of [AIAgent] ([__init__], [register_action],
    [_call_llm], [run]) and of the actions of [run_agent.py], and the
    properties of the control loop.

    - Python values (what [json.loads] and the registered callables hand
      back) are the inductive type [value]; the operations the engine
      applies to them ([.get], truth value, [==] against a string
      literal, [in] on a dict) are written out with the exceptions
      Python raises.
    - The configuration is the parsed TOML document with the types the
      engine expects: [states] is a table of tables, prompts and model
      names are strings, [transitions] is an array of strings. A key
      may be absent wherever the source reads it with [.get] or [[]].
    - [self] is the record [agent]; the loop threads it together with
      the standard input still to be read and the list of effects
      performed so far ([run_state]) through a state-and-exception
      monad that keeps the state reached when an exception is raised.
    - The chat-completion endpoint, [json.loads] and [str()] are
      parameters of the development. A registered callable is a function
      of the parameters it is called with, returning a value or raising.
    - The audit log file and the diagnostics guarded by [dev_mode] are
      write-only and nothing the engine decides reads them; runs are
      modelled with [dev_mode] off and logging is taken to succeed. The
      search-history lines that [_call_llm] prints whatever [dev_mode]
      says are part of the model.
    - The two actions of [run_agent.py], [search_function] and
      [calculate_function], and the agent its main block builds are
      embedded in the module [RunAgent]. What [requests.post] and [eval]
      give, [str.strip] and the text of an exception are parameters; a
      function returns what it did (a request, a print) next to its
      result. The prompts of the main block for the API key and the
      development mode come before the agent exists and are left out. *)

From Stdlib Require Import ZArith QArith String Ascii List.
From stdpp Require Import base option list gmap strings pretty.

Local Open Scope string_scope.
Local Open Scope list_scope.

(** ** Python values *)

#[local] Set Warnings "-register-all".

Inductive value : Type :=
| VNone
| VBool (b : bool)
| VInt (n : Z)
| VFloat (m e : Z)                       (* the finite float m * 2^e *)
| VStr (s : string)
| VList (l : list value)
| VDict (d : list (string * value)).     (* insertion-ordered, string keys *)

(** [bool(v)]: the truth value Python gives [v] in [if v:] / [not v]. *)
Definition truthy (v : value) : bool :=
  match v with
  | VNone => false
  | VBool b => b
  | VInt n => negb (n =? 0)%Z
  | VFloat m _ => negb (m =? 0)%Z
  | VStr s => negb (String.eqb s "")
  | VList l => match l with [] => false | _ => true end
  | VDict d => match d with [] => false | _ => true end
  end.

(** [v == "lit"] for a string literal: only a [str] equal to the literal. *)
Definition py_eq_str (v : value) (lit : string) : bool :=
  match v with
  | VStr s => String.eqb s lit
  | _ => false
  end.

(** Lists and dicts are unhashable; every other value hashes. *)
Definition hashable (v : value) : bool :=
  match v with
  | VList _ | VDict _ => false
  | _ => true
  end.

(** [d.get(key, dflt)] on the entries of a dict. *)
Fixpoint dict_get (d : list (string * value)) (key : string) (dflt : value) : value :=
  match d with
  | [] => dflt
  | (k, v) :: d' => if String.eqb k key then v else dict_get d' key dflt
  end.

(** ** Exceptions, results *)

Inductive exn : Type :=
| KeyError (key : string)
| AttributeError (attr : string)
| TypeError (msg : string)
| EOFError
| ActionError (e : string).              (* raised by a registered callable *)

Inductive result (A : Type) : Type :=
| Ok (a : A)
| Raise (e : exn).
Arguments Ok {A} a.
Arguments Raise {A} e.

(** ** Configuration (the parsed TOML document) *)

Record description := Description {
  role : option string;
  state_machine_logic : option string;
  work_principles : option string;
}.

Record state_config := StateConfig {
  prompt : option string;
  temperature : option Q;
  model : option string;
  transitions : option (list string);
  other_keys : list string;              (* keys the engine never reads *)
}.

Record configuration := Configuration {
  initial_state : option string;
  cfg_description : option description;
  states : gmap string state_config;
}.

(** A TOML table is a dict: it is false in [if not state_config] exactly
    when it has no key. *)
Definition table_truthy (sc : state_config) : bool :=
  match prompt sc, temperature sc, model sc, transitions sc, other_keys sc with
  | None, None, None, None, [] => false
  | _, _, _, _, _ => true
  end.

(** [state_config.get("temperature", 0.7)] and
    [state_config.get("model", "llama3-70b-8192")] *)
Definition temperature_of (sc : state_config) : Q := default (7 # 10)%Q (temperature sc).
Definition model_of (sc : state_config) : string := default "llama3-70b-8192" (model sc).

(** ** Histories, actions, agent *)

Record turn := Turn {
  turn_role : string;
  content : value;
}.

Inductive action_outcome : Type :=
| Returns (action_result : value)
| Raises (e : string).

(** A registered callable, applied to the action parameters. *)
Abbreviation action_func := (value -> action_outcome).

Record agent := Agent {
  config : configuration;
  current_state : string;
  conversation_history : list turn;
  search_history : list value;
  available_actions : gmap string action_func;
}.

(** ** The outside world *)

Record request := Request {
  req_model : string;
  req_temperature : Q;
  req_messages : list turn;
  req_max_tokens : Z;
  req_response_format : string;
}.

(** What [client.chat.completions.create(...)] followed by
    [completion.choices[0].message.content] yields: an exception, or
    the content (which the API may leave null). *)
Inductive completion : Type :=
| ApiError (e : string)
| ApiContent (response_text : option string).

(** A call of [print]. *)
Inductive printed : Type :=
| P_agent (message : value)              (* print(f"Agent: {message}") *)
| P_error (error_msg : string)           (* print(error_msg) *)
| P_dev (text : string)                  (* the "[DEV] ..." lines of _call_llm *)
| P_raw (v : value).                     (* print(search_result) *)

Inductive event : Type :=
| Ev_print (p : printed)
| Ev_create (rq : request)               (* the chat-completion call *)
| Ev_call (action : string) (action_params : value)
| Ev_set_state (s : string)              (* self.current_state = s *)
| Ev_input (ask : string) (line : string).

Record run_state := RunState {
  self : agent;
  stdin : list string;
  events : list event;
}.

(** ** State and exception monad *)

Definition M (A : Type) : Type := run_state -> run_state * result A.

Definition ret {A} (a : A) : M A := fun st => (st, Ok a).
Definition raise {A} (e : exn) : M A := fun st => (st, Raise e).
Definition bind {A B} (m : M A) (k : A -> M B) : M B :=
  fun st =>
    match m st with
    | (st', Ok a) => k a st'
    | (st', Raise e) => (st', Raise e)
    end.

Declare Scope agent_scope.
Delimit Scope agent_scope with agent.
Notation "'let*' x ':=' m 'in' k" := (bind m (fun x => k))
  (at level 20, x name, m at level 100, k at level 200, only parsing) : agent_scope.
Local Open Scope agent_scope.

Definition get_self : M agent := fun st => (st, Ok (self st)).
Definition emit (ev : event) : M unit :=
  fun st => (RunState (self st) (stdin st) (events st ++ [ev]), Ok tt).
Definition print (p : printed) : M unit := emit (Ev_print p).

Definition set_current_state (s : string) : M unit :=
  fun st =>
    let a := self st in
    (RunState (Agent (config a) s (conversation_history a) (search_history a)
                     (available_actions a))
              (stdin st) (events st ++ [Ev_set_state s]), Ok tt).

(** [self.conversation_history.append({"role": r, "content": c})] *)
Definition append_turn (r : string) (c : value) : M unit :=
  fun st =>
    let a := self st in
    (RunState (Agent (config a) (current_state a)
                     (conversation_history a ++ [Turn r c]) (search_history a)
                     (available_actions a))
              (stdin st) (events st), Ok tt).

(** [self.search_history.append(v)] *)
Definition append_search (v : value) : M unit :=
  fun st =>
    let a := self st in
    (RunState (Agent (config a) (current_state a) (conversation_history a)
                     (search_history a ++ [v]) (available_actions a))
              (stdin st) (events st), Ok tt).

(** [input(ask)]: the next line of standard input, [EOFError] at its end. *)
Definition input (ask : string) : M string :=
  fun st =>
    match stdin st with
    | [] => (st, Raise EOFError)
    | line :: rest => (RunState (self st) rest (events st ++ [Ev_input ask line]), Ok line)
    end.

(** [response.get(key, dflt)]: only a dict has [get]. *)
Definition py_get (response : value) (key : string) (dflt : value) : M value :=
  match response with
  | VDict d => ret (dict_get d key dflt)
  | _ => raise (AttributeError "get")
  end.

(** [for i, x in enumerate(l): body] with [i] counted from [start]. *)
Fixpoint for_enumerate {A} (start : nat) (l : list A) (body : nat -> A -> M unit) : M unit :=
  match l with
  | [] => ret tt
  | x :: l' => let* _ := body start x in for_enumerate (S start) l' body
  end.

Definition nl : string := String (ascii_of_nat 10) EmptyString.
Definition indent : string := "            ".
Definition dashes : string := "----------------------------------------".

(** ** The agent *)

Module AIAgent.

(** [AIAgent.__init__], once the API key and the configuration file have
    been read. *)
Definition init (cfg : configuration) : agent :=
  Agent cfg (default "start" (initial_state cfg)) [] [] ∅.

(** [AIAgent.register_action] *)
Definition register_action (action_name : string) (f : action_func) (a : agent) : agent :=
  Agent (config a) (current_state a) (conversation_history a) (search_history a)
        (<[action_name := f]> (available_actions a)).

(** The loop body leaves the loop ([break]) or goes round again. *)
Inductive status : Type := Continue | Break.

(** How a call of [run] ends. *)
Inductive outcome : Type :=
| Returned                               (* the loop was left by [break] *)
| Raised (e : exn)                       (* an exception left [run] *)
| Running.                               (* still looping when the fuel ran out *)

Section Engine.

(** [str(v)], as f-strings and [print] apply it. *)
Variable py_str : value -> string.
(** [json.loads]; [None] stands for [json.JSONDecodeError]. *)
Variable json_loads : string -> option value.
(** The chat-completion endpoint: its answer to a request, given
    everything that has happened so far. *)
Variable create : list event -> request -> completion.

(** The two canned decisions of [_call_llm]. *)
Definition apology : string :=
  "I apologize, but I encountered an error processing your request.".

Definition invalid_json_decision : value :=
  VDict [("action", VStr "error");
         ("message", VStr apology);
         ("next_state", VStr "error");
         ("require_input", VStr "1")].

Definition api_error_decision (e : string) : value :=
  VDict [("action", VStr "error");
         ("message", VStr ("Error occurred: " +:+ e));
         ("next_state", VStr "error");
         ("require_input", VStr "1")].

(** [str(e)] of the [TypeError] that [json.loads(None)] raises. *)
Definition loads_none_error : string :=
  "the JSON object must be str, bytes or bytearray, not NoneType".

Definition search_history_block (history : list value) : string :=
  match history with
  | [] => ""
  | _ =>
      nl +:+ nl +:+ "SEARCH HISTORY:" +:+ nl +:+
      String.concat ""
        (imap (fun idx search_result =>
                 "Search #" +:+ pretty (S idx) +:+ ": " +:+ py_str search_result +:+ nl +:+ nl)
              history)
  end.

Definition complete_system_prompt (a : agent) (state_prompt : string) : string :=
  let d := default (Description None None None) (cfg_description (config a)) in
  nl +:+ indent +:+ default "" (role d) +:+ nl +:+
  nl +:+ indent +:+ default "" (state_machine_logic d) +:+ nl +:+
  nl +:+ indent +:+ default "" (work_principles d) +:+ nl +:+
  nl +:+ indent +:+ "CURRENT STATE: " +:+ current_state a +:+
  nl +:+ indent +:+ search_history_block (search_history a) +:+
  nl +:+ indent +:+ state_prompt +:+
  nl +:+ indent.

(** Lines 176-180: the search results are printed whenever there are
    any, whatever [dev_mode] says. *)
Definition print_search_history (history : list value) : M unit :=
  match history with
  | [] => ret tt
  | _ =>
      let* _ := print (P_dev "[DEV] SEARCH HISTORY:") in
      for_enumerate 0 history (fun i search_result =>
        let* _ := print (P_dev ("[DEV] Search Result #" +:+ pretty (S i) +:+ ":")) in
        let* _ := print (P_raw search_result) in
        print (P_dev dashes))
  end.

(** Lines 247-283: what the [try] block returns for an answer of the
    endpoint. [json.JSONDecodeError] has its own handler; every other
    exception, [json.loads(None)] included, reaches [except Exception]. *)
Definition response_of (answer : completion) : value :=
  match answer with
  | ApiError e => api_error_decision e
  | ApiContent None => api_error_decision loads_none_error
  | ApiContent (Some response_text) =>
      match json_loads response_text with
      | Some response => response
      | None => invalid_json_decision
      end
  end.

(** Lines 196-200 and 239-245: the messages and the arguments of the
    chat-completion call. *)
Definition request_of (a : agent) (state_prompt : string) (temp : Q) (mdl : string)
  : request :=
  let messages :=
    Turn "system" (VStr (complete_system_prompt a state_prompt))
      :: conversation_history a in
  Request mdl temp messages 5000 "json_object".

(** [AIAgent._call_llm] *)
Definition _call_llm (state_prompt : string) (temp : Q) (mdl : string) : M value :=
  let* a := get_self in
  let* _ := print_search_history (search_history a) in
  let rq := request_of a state_prompt temp mdl in
  fun st =>
    let answer := create (events st) rq in
    (RunState (self st) (stdin st) (events st ++ [Ev_create rq]), Ok (response_of answer)).

(** *** The body of [while True:] in [run], in the order of the source *)

(** Lines 352-359: record the reply and show it. *)
Definition record_reply (message : value) : M unit :=
  let* _ := append_turn "assistant" message in
  print (P_agent message).

(** [action in self.available_actions]: hashes [action] first. *)
Definition in_available_actions (action : value) : M bool :=
  let* a := get_self in
  match action with
  | VStr name => ret (bool_decide (is_Some (available_actions a !! name)))
  | VList _ => raise (TypeError "unhashable type: 'list'")
  | VDict _ => raise (TypeError "unhashable type: 'dict'")
  | _ => ret false
  end.

(** [self.available_actions[action](action_params)], [action] being a
    registered name. *)
Definition call_action (action : value) (action_params : value) : M value :=
  let* a := get_self in
  match action with
  | VStr name =>
      match available_actions a !! name with
      | Some f =>
          let* _ := emit (Ev_call name action_params) in
          match f action_params with
          | Returns action_result => ret action_result
          | Raises e => raise (ActionError e)
          end
      | None => raise (KeyError name)
      end
  | _ => raise (KeyError (py_str action))
  end.

(** Lines 361-394: dispatch and routing of the result. *)
Definition execute_action (response action : value) : M unit :=
  let* registered :=
    (if truthy action then in_available_actions action else ret false) in
  if registered : bool then
    let* action_params := py_get response "action_params" (VDict []) in
    let* action_result := call_action action action_params in
    if truthy action_result then
      if py_eq_str action "search" then
        append_search action_result
      else
        append_turn "system" (VStr ("Action result: " +:+ py_str action_result))
    else ret tt
  else ret tt.

(** [next_state in allowed_transitions] on a list of strings. *)
Definition in_transitions (next_state : value) (allowed_transitions : list string) : bool :=
  existsb (py_eq_str next_state) allowed_transitions.

Definition invalid_transition_msg (from : string) (next_state : value) : string :=
  "Error: Invalid transition from '" +:+ from +:+ "' to '" +:+ py_str next_state +:+ "'".

Definition reject_transition (next_state : value) : M unit :=
  let* a := get_self in
  let* _ := print (P_error (invalid_transition_msg (current_state a) next_state)) in
  set_current_state "error".

(** Line 398, for a [next_state] that is a string:
    [next_state in self.config["states"] and
     (not allowed_transitions or next_state in allowed_transitions)]. *)
Definition transition_ok (cfg : configuration) (sc : state_config) (s : string) : bool :=
  let allowed_transitions := default [] (transitions sc) in
  bool_decide (is_Some (states cfg !! s))
  && (match allowed_transitions with [] => true | _ => false end
      || in_transitions (VStr s) allowed_transitions).

(** Lines 396-410: validate and apply the transition.
    [next_state in self.config["states"]] hashes [next_state]; the keys
    are strings, so no other hashable value is among them. *)
Definition transition (sc : state_config) (next_state : value) : M unit :=
  let* a := get_self in
  match next_state with
  | VStr s =>
      if transition_ok (config a) sc s then set_current_state s
      else reject_transition next_state
  | VList _ => raise (TypeError "unhashable type: 'list'")
  | VDict _ => raise (TypeError "unhashable type: 'dict'")
  | _ => reject_transition next_state
  end.

(** Line 413: [next_state == "exit" or next_state == ""]. *)
Definition is_terminal (next_state : value) : bool :=
  py_eq_str next_state "exit" || py_eq_str next_state "".

(** Lines 419-431: ask for a line when [require_input == "1"]. *)
Definition handle_input (require_input : value) : M unit :=
  if py_eq_str require_input "1" then
    let* user_input := input "You: " in
    append_turn "user" (VStr user_input)
  else ret tt.

Definition state_not_found_msg (current : string) : string :=
  "Error: State '" +:+ current +:+ "' not found in configuration".

(** Lines 336-431, after the reply of [_call_llm]. *)
Definition process_response (sc : state_config) (response : value) : M status :=
  let* action := py_get response "action" (VStr "") in
  let* message := py_get response "message" (VStr "") in
  let* next_state := py_get response "next_state" (VStr "") in
  let* require_input := py_get response "require_input" (VStr "1") in
  let* _ := record_reply message in
  let* _ := execute_action response action in
  let* _ := transition sc next_state in
  if is_terminal next_state then ret Break
  else
    let* _ := handle_input require_input in
    ret Continue.

(** One pass through the body of [while True:]. *)
Definition loop_body : M status :=
  let* a := get_self in
  match states (config a) !! current_state a with
  | None =>
      let* _ := print (P_error (state_not_found_msg (current_state a))) in
      ret Break
  | Some sc =>
      if table_truthy sc then
        match prompt sc with
        | None => raise (KeyError "prompt")
        | Some state_prompt =>
            let* response :=
              _call_llm state_prompt (temperature_of sc) (model_of sc) in
            process_response sc response
        end
      else
        let* _ := print (P_error (state_not_found_msg (current_state a))) in
        ret Break
  end.

(** [while True:], for at most [fuel] passes. *)
Fixpoint main_loop (fuel : nat) (st : run_state) : run_state * outcome :=
  match fuel with
  | O => (st, Running)
  | S fuel' =>
      match loop_body st with
      | (st', Ok Continue) => main_loop fuel' st'
      | (st', Ok Break) => (st', Returned)
      | (st', Raise e) => (st', Raised e)
      end
  end.

(** [AIAgent.run]: [if user_input:] is false for [None] and for [""]. *)
Definition run (user_input : option string) (fuel : nat) (st : run_state)
  : run_state * outcome :=
  match user_input with
  | Some text =>
      if negb (String.eqb text "") then
        main_loop fuel (fst (append_turn "user" (VStr text) st))
      else main_loop fuel st
  | None => main_loop fuel st
  end.

End Engine.

End AIAgent.
Import AIAgent.

(** ** Observing a run *)

Definition is_create (ev : event) : bool :=
  match ev with Ev_create _ => true | _ => false end.
Definition is_agent_print (ev : event) : bool :=
  match ev with Ev_print (P_agent _) => true | _ => false end.
Definition is_call (ev : event) : bool :=
  match ev with Ev_call _ _ => true | _ => false end.
Definition is_set_state (ev : event) : bool :=
  match ev with Ev_set_state _ => true | _ => false end.
Definition is_input (ev : event) : bool :=
  match ev with Ev_input _ _ => true | _ => false end.

Definition count (p : event -> bool) (evs : list event) : nat :=
  length (List.filter p evs).

Definition has_role (r : string) (t : turn) : bool := String.eqb (turn_role t) r.

(** The [print] events of [print_search_history], results numbered from
    [S start]. *)
Fixpoint search_prints (start : nat) (history : list value) : list event :=
  match history with
  | [] => []
  | search_result :: rest =>
      Ev_print (P_dev ("[DEV] Search Result #" +:+ pretty (S start) +:+ ":"))
        :: Ev_print (P_raw search_result)
        :: Ev_print (P_dev dashes)
        :: search_prints (S start) rest
  end.

Definition search_history_events (history : list value) : list event :=
  match history with
  | [] => []
  | _ => Ev_print (P_dev "[DEV] SEARCH HISTORY:") :: search_prints 0 history
  end.

(** One state extends another: same configuration and registry, both
    histories and the list of effects only grown at the end. *)
Definition extends (st st' : run_state) : Prop :=
  config (self st') = config (self st)
  /\ available_actions (self st') = available_actions (self st)
  /\ conversation_history (self st) `prefix_of` conversation_history (self st')
  /\ search_history (self st) `prefix_of` search_history (self st')
  /\ events st `prefix_of` events st'.

(** The acceptance rule in the words of the specification: the proposed
    next state names a configured state, and the current state's
    transitions list is absent, empty, or has it as a member. *)
Definition spec_accepts (cfg : configuration) (sc : state_config) (next_state : value) : Prop :=
  exists s,
    next_state = VStr s
    /\ is_Some (states cfg !! s)
    /\ (transitions sc = None \/ transitions sc = Some []
        \/ exists allowed, transitions sc = Some allowed /\ s ∈ allowed).

(** An operation only ever extends the state it starts from, also when
    it raises. *)
Definition M_extends {A} (m : M A) : Prop := forall st, extends st (fst (m st)).

(** The diagnostic prints of [_call_llm]. *)
Definition is_diagnostic (ev : event) : bool :=
  match ev with
  | Ev_print (P_dev _) | Ev_print (P_raw _) => true
  | _ => false
  end.

(** The text a [print] writes. *)
Definition render (py_str : value -> string) (p : printed) : string :=
  match p with
  | P_agent message => "Agent: " +:+ py_str message
  | P_error error_msg => error_msg
  | P_dev text => text
  | P_raw v => py_str v
  end.

(** ** A concrete world for the examples *)

Module Sample.

(** [str()] on the scalars the examples print. *)
Definition str (v : value) : string :=
  match v with
  | VNone => "None"
  | VBool true => "True"
  | VBool false => "False"
  | VInt n => pretty n
  | VStr s => s
  | _ => "<container>"
  end.

Definition quote : string := String (ascii_of_nat 34) EmptyString.

(** The JSON text of an object with string members. *)
Fixpoint members (fields : list (string * string)) : string :=
  match fields with
  | [] => ""
  | [(k, v)] => quote +:+ k +:+ quote +:+ ": " +:+ quote +:+ v +:+ quote
  | (k, v) :: rest =>
      quote +:+ k +:+ quote +:+ ": " +:+ quote +:+ v +:+ quote +:+ ", " +:+ members rest
  end.
Definition object_text (fields : list (string * string)) : string :=
  "{" +:+ members fields +:+ "}".
Definition object_value (fields : list (string * string)) : value :=
  VDict (map (fun kv => (fst kv, VStr (snd kv))) fields).

(** [json.loads] on the texts of [known] objects; any other text is
    taken to be malformed. *)
Fixpoint loads (known : list (list (string * string))) (text : string) : option value :=
  match known with
  | [] => None
  | fields :: rest =>
      if String.eqb text (object_text fields) then Some (object_value fields)
      else loads rest text
  end.

(** An endpoint that plays back a script, one answer per call. *)
Definition scripted (script : list completion) (evs : list event) (rq : request)
  : completion :=
  nth (count is_create evs) script (ApiError "Connection error.").

(** The configuration of the scenarios: [start] may only go to
    [middle]; [middle] and [error] are unrestricted. *)
Definition spec_of (state_prompt : string) (allowed : list string) : state_config :=
  StateConfig (Some state_prompt) None None (Some allowed) [].

Definition cfg : configuration :=
  Configuration (Some "start") None
    (<["start" := spec_of "Greet the user." ["middle"]]>
     (<["middle" := spec_of "Work on the request." []]>
      (<["error" := spec_of "Recover from the error." []]> ∅))).

(** Stand-ins for registered callables. *)
Definition answers (action_result : value) : action_func := fun _ => Returns action_result.
Definition fails (e : string) : action_func := fun _ => Raises e.

Definition bot : agent :=
  register_action "broken" (fails "boom")
    (register_action "silent" (answers VNone)
      (register_action "calculate" (answers (VStr "Result: 4"))
        (register_action "search" (answers (VStr "No results found for query: rocq"))
          (init cfg)))).

Definition start_of (a : agent) (lines : list string) : run_state :=
  RunState a lines [].

Definition at_state (s : string) (a : agent) : agent :=
  Agent (config a) s (conversation_history a) (search_history a) (available_actions a).

Definition start_spec : state_config := spec_of "Greet the user." ["middle"].
Definition middle_spec : state_config := spec_of "Work on the request." [].

(** The agent before its first pass, in [middle], and in a state that
    is not configured; [lines] is what standard input holds. *)
Definition fresh (lines : list string) : run_state := start_of bot lines.
Definition in_middle (lines : list string) : run_state :=
  start_of (at_state "middle" bot) lines.
Definition lost : run_state := start_of (at_state "nowhere" bot) [].

(** Decisions the scripted endpoint hands out. *)
Definition exit_reply : list (string * string) :=
  [("action", ""); ("message", "m1"); ("next_state", "exit"); ("require_input", "0")].
Definition calculate_reply : list (string * string) :=
  [("action", "calculate"); ("message", "m2"); ("next_state", "middle");
   ("require_input", "1")].
Definition silent_reply : list (string * string) :=
  [("action", "silent"); ("message", "m3"); ("next_state", "other");
   ("require_input", "0")].
Definition broken_reply : list (string * string) :=
  [("action", "broken"); ("message", "m4"); ("next_state", "middle");
   ("require_input", "1")].

Definition known : list (list (string * string)) :=
  [exit_reply; calculate_reply; silent_reply; broken_reply].

(** The endpoint answers its first call with the text of [fields]. *)
Definition says (fields : list (string * string)) : list event -> request -> completion :=
  scripted [ApiContent (Some (object_text fields))].

(** The decision [run] reads from that answer. *)
Definition decision (fields : list (string * string)) : list (string * value) :=
  map (fun kv => (fst kv, VStr (snd kv))) fields.

(** The state in which [_call_llm] returns, called from [st]. *)
Definition replied (st : run_state) (fields : list (string * string)) (sc : state_config)
                   (state_prompt : string) : run_state :=
  fst (_call_llm str (loads known) (says fields) state_prompt
         (temperature_of sc) (model_of sc) st).

End Sample.

(** * The actions of [run_agent.py] *)

Module RunAgent.

(** What can go wrong inside the [try] block of [search_function], by
    kind. Python's wording of these errors names the type of the value,
    not the value. *)
Inductive failure : Type :=
| NoAttribute (type_name attr : string)  (* AttributeError: v.attr *)
| NotContainer (type_name : string)      (* TypeError: 'results' in v *)
| NotSubscriptable (type_name : string)  (* TypeError: v['results'], v[:5] *)
| MissingKey (key : string)              (* KeyError: d['results'] *)
| NoLength (type_name : string)          (* TypeError: len(v) *)
| RequestFailed (e : string)             (* requests.post raised e *)
| NotJson (e : string).                  (* response.json() raised e *)

(** What [requests.post] gives: an exception, or a response with its
    status code and what [response.json()] would give ([inl e]: it
    raises [e]). *)
Inductive fetched : Type :=
| PostRaises (e : string)
| Responded (status_code : Z) (json : string + value).

(** What [eval(expression)] followed by the formatting of its result
    gives: the text of the result, an [Exception], or an exception that
    is no [Exception] ([SystemExit], [KeyboardInterrupt]). *)
Inductive evaluated : Type :=
| Evaluated (text : string)
| EvalRaises (e : string)
| EvalExits (e : string).

(** What an action does besides returning. *)
Inductive effect : Type :=
| Printed (text : string)
| Posted (url : string) (data : list (string * value)).

Definition type_name (v : value) : string :=
  match v with
  | VNone => "NoneType"
  | VBool _ => "bool"
  | VInt _ => "int"
  | VFloat _ _ => "float"
  | VStr _ => "str"
  | VList _ => "list"
  | VDict _ => "dict"
  end.

Definition try_bind {A B} (m : failure + A) (k : A -> failure + B) : failure + B :=
  match m with
  | inl e => inl e
  | inr a => k a
  end.

Notation "'let?' x ':=' m 'in' k" := (try_bind m (fun x => k))
  (at level 20, x name, m at level 100, k at level 200, only parsing).

(** [key in d] and [d[key]] on the entries of a dict. *)
Fixpoint dict_lookup (d : list (string * value)) (key : string) : option value :=
  match d with
  | [] => None
  | (k, v) :: d' => if String.eqb k key then Some v else dict_lookup d' key
  end.

(** [needle in text] on two strings. *)
Fixpoint substring_of (needle text : string) : bool :=
  String.prefix needle text
  || match text with
     | EmptyString => false
     | String _ rest => substring_of needle rest
     end.

(** ['results' in search_results] *)
Definition contains_results (search_results : value) : failure + bool :=
  match search_results with
  | VDict d => inr (bool_decide (is_Some (dict_lookup d "results")))
  | VList l => inr (existsb (fun v => py_eq_str v "results") l)
  | VStr text => inr (substring_of "results" text)
  | _ => inl (NotContainer (type_name search_results))
  end.

(** [search_results['results']] *)
Definition subscript_results (search_results : value) : failure + value :=
  match search_results with
  | VDict d =>
      match dict_lookup d "results" with
      | Some v => inr v
      | None => inl (MissingKey "results")
      end
  | _ => inl (NotSubscriptable (type_name search_results))
  end.

(** [results[:5]], as the sequence the [for] loop walks. *)
Definition top_five (results : value) : failure + list value :=
  match results with
  | VList l => inr (take 5 l)
  | VStr text =>
      inr (map (fun c => VStr (String c EmptyString)) (take 5 (list_ascii_of_string text)))
  | _ => inl (NotSubscriptable (type_name results))
  end.

(** [len(results)] *)
Definition py_len (results : value) : failure + nat :=
  match results with
  | VList l => inr (length l)
  | VStr text => inr (String.length text)
  | VDict d => inr (length d)
  | _ => inl (NoLength (type_name results))
  end.

Definition base_url : string := "https://search.bostonlistener-career.org/search".

Section Actions.

Variable py_str : value -> string.
(** [str.strip] *)
Variable py_strip : string -> string.
(** [str(e)] of the exception raised for a failure. *)
Variable exception_text : failure -> string.
(** The SearxNG instance, and [eval]. *)
Variable post : string -> list (string * value) -> fetched.
Variable eval : value -> evaluated.

(** Lines 73-79: one round of the [for] loop, on the text built so far. *)
Definition format_entry (i : nat) (result : value) (formatted_results : string)
  : failure + string :=
  match result with
  | VDict r =>
      let title := dict_get r "title" (VStr "No Title") in
      let url := dict_get r "url" (VStr "No URL") in
      match dict_get r "content" (VStr "No Description") with
      | VStr text =>
          let content := py_strip text in
          inr (((formatted_results
                 +:+ (pretty i +:+ ". " +:+ py_str title +:+ nl))
                 +:+ ("   URL: " +:+ py_str url +:+ nl))
                 +:+ ("   Description: " +:+ content +:+ nl +:+ nl))
      | other => inl (NoAttribute (type_name other) "strip")
      end
  | other => inl (NoAttribute (type_name other) "get")
  end.

(** Line 72: [for i, result in enumerate(..., 1)], [i] counted from [i]. *)
Fixpoint format_results (i : nat) (results : list value) (formatted_results : string)
  : failure + string :=
  match results with
  | [] => inr formatted_results
  | result :: rest =>
      let? formatted_results := format_entry i result formatted_results in
      format_results (S i) rest formatted_results
  end.

(** Lines 59-87: the [try] block, given what [requests.post] gave. *)
Definition search_body (query : value) (response : fetched) : failure + string :=
  match response with
  | PostRaises e => inl (RequestFailed e)
  | Responded status_code json =>
      if (status_code =? 200)%Z then
        match json with
        | inl e => inl (NotJson e)
        | inr search_results =>
            let? found := contains_results search_results in
            let? nonempty :=
              (if found : bool then
                 let? results := subscript_results search_results in
                 inr (truthy results)
               else inr false) in
            if nonempty : bool then
              let? results := subscript_results search_results in
              let? top := top_five results in
              let? formatted_results :=
                format_results 1 top ("Search Results:" +:+ nl +:+ nl) in
              let? results := subscript_results search_results in
              let? total := py_len results in
              inr (formatted_results +:+ ("Total results found: " +:+ pretty total))
            else inr ("No results found for query: " +:+ py_str query)
        end
      else inr ("Error: Could not complete search. Status code: " +:+ pretty status_code)
  end.

(** [search_function] *)
Definition search_function (params : value) : list effect * action_outcome :=
  match params with
  | VDict p =>
      let query := dict_get p "query" (VStr "") in
      if negb (truthy query) then ([], Returns (VStr "Error: No search query provided."))
      else
        let post_data := [("q", query); ("format", VStr "json")] in
        ([Posted base_url post_data],
         match search_body query (post base_url post_data) with
         | inr formatted_results => Returns (VStr formatted_results)
         | inl e => Returns (VStr ("Error performing search: " +:+ exception_text e))
         end)
  | _ => ([], Raises (exception_text (NoAttribute (type_name params) "get")))
  end.

(** [calculate_function] *)
Definition calculate_function (params : value) : list effect * action_outcome :=
  match params with
  | VDict p =>
      let expression := dict_get p "expression" (VStr "") in
      ([Printed ("Calculating: " +:+ py_str expression)],
       match eval expression with
       | Evaluated text => Returns (VStr ("Result: " +:+ text))
       | EvalRaises e => Returns (VStr ("Could not calculate expression: " +:+ e))
       | EvalExits e => Raises e
       end)
  | _ => ([], Raises (exception_text (NoAttribute (type_name params) "get")))
  end.

(** A function of [run_agent.py] as the engine sees it once registered. *)
Definition as_action (f : value -> list effect * action_outcome) : action_func :=
  fun params => snd (f params).

(** Lines 136-140: the agent of the main block, for the configuration
    read from [agent_config.toml]. *)
Definition main_agent (cfg : configuration) : agent :=
  register_action "calculate" (as_action calculate_function)
    (register_action "search" (as_action search_function) (init cfg)).

Variable json_loads : string -> option value.
Variable create : list event -> request -> completion.

(** Line 143: [agent.run("Hello, I need some help.")], with [lines] on
    standard input. *)
Definition main (cfg : configuration) (lines : list string) (fuel : nat)
  : run_state * outcome :=
  run py_str json_loads create (Some "Hello, I need some help.") fuel
      (RunState (main_agent cfg) lines []).

End Actions.

End RunAgent.

(** ** A concrete world for the edge cases *)

Module Corner.

(** A configuration with two unusable states: [draft] has a setting but
    no prompt, [blank] is an empty table. It names no initial state, and
    "start" is not among its states. *)
Definition draft_spec : state_config := StateConfig None (Some (1 # 5)%Q) None None [].
Definition blank_spec : state_config := StateConfig None None None None [].

Definition cfg : configuration :=
  Configuration None None (<["draft" := draft_spec]> (<["blank" := blank_spec]> ∅)).

Definition in_draft : run_state := RunState (Sample.at_state "draft" (init cfg)) [] [].
Definition in_blank : run_state := RunState (Sample.at_state "blank" (init cfg)) [] [].

(** Replies that are JSON without being decisions made of strings. *)
Definition key (k : string) : string := Sample.quote +:+ k +:+ Sample.quote.

Definition list_action_text : string :=
  "{" +:+ key "action" +:+ ": [" +:+ key "search" +:+ "], "
      +:+ key "message" +:+ ": " +:+ key "m5" +:+ "}".
Definition list_action : list (string * value) :=
  [("action", VList [VStr "search"]); ("message", VStr "m5")].

Definition list_state_text : string :=
  "{" +:+ key "message" +:+ ": " +:+ key "m6" +:+ ", "
      +:+ key "next_state" +:+ ": [" +:+ key "middle" +:+ "]}".
Definition list_state : list (string * value) :=
  [("message", VStr "m6"); ("next_state", VList [VStr "middle"])].

Definition dance_reply : list (string * string) :=
  [("action", "dance"); ("message", "m7"); ("next_state", "middle");
   ("require_input", "0")].

Definition loads (text : string) : option value :=
  if String.eqb text "[]" then Some (VList [])
  else if String.eqb text list_action_text then Some (VDict list_action)
  else if String.eqb text list_state_text then Some (VDict list_state)
  else Sample.loads (dance_reply :: Sample.known) text.

(** The endpoint answers its first call with [text]. *)
Definition says_text (text : string) : list event -> request -> completion :=
  Sample.scripted [ApiContent (Some text)].

(** An endpoint that cannot be reached. *)
Definition down : list event -> request -> completion := Sample.scripted [].

(** The state in which [_call_llm] returns, called from [st]. *)
Definition replied (create : list event -> request -> completion) (st : run_state)
    (sc : state_config) (state_prompt : string) : run_state :=
  fst (_call_llm Sample.str loads create state_prompt (temperature_of sc) (model_of sc) st).

(** [str.strip] for blanks. *)
Fixpoint lstrip (text : string) : string :=
  match text with
  | String c rest => if Ascii.eqb c " " then lstrip rest else text
  | EmptyString => EmptyString
  end.
Definition reversed (text : string) : string :=
  string_of_list_ascii (rev (list_ascii_of_string text)).
Definition strip (text : string) : string := reversed (lstrip (reversed (lstrip text))).

Definition exception_text (e : RunAgent.failure) : string :=
  match e with
  | RunAgent.NoAttribute type_name attr =>
      "'" +:+ type_name +:+ "' object has no attribute '" +:+ attr +:+ "'"
  | RunAgent.NotContainer type_name =>
      "argument of type '" +:+ type_name +:+ "' is not iterable"
  | RunAgent.NotSubscriptable type_name =>
      "'" +:+ type_name +:+ "' object is not subscriptable"
  | RunAgent.MissingKey k => "'" +:+ k +:+ "'"
  | RunAgent.NoLength type_name => "object of type '" +:+ type_name +:+ "' has no len()"
  | RunAgent.RequestFailed text => text
  | RunAgent.NotJson text => text
  end.

(** Seven results, the sixth of them null. *)
Definition hit (n : string) : value :=
  VDict [("title", VStr ("Title " +:+ n));
         ("url", VStr ("https://example.org/" +:+ n));
         ("content", VStr (" About " +:+ n +:+ " "))].
Definition hits : list value :=
  [hit "1"; hit "2"; hit "3"; hit "4"; hit "5"; VNone; hit "7"].
Definition found : list (string * value) :=
  [("query", VStr "rocq"); ("results", VList hits)].

(** The search instance knows "rocq", is out of order for "down", and
    cannot be reached for anything else. *)
Definition post (url : string) (data : list (string * value)) : RunAgent.fetched :=
  if py_eq_str (dict_get data "q" VNone) "rocq" then RunAgent.Responded 200 (inr (VDict found))
  else if py_eq_str (dict_get data "q" VNone) "down" then
    RunAgent.Responded 503 (inl "Expecting value")
  else RunAgent.PostRaises "Connection refused".

Definition eval (expression : value) : RunAgent.evaluated :=
  if py_eq_str expression "2+2" then RunAgent.Evaluated "4"
  else if py_eq_str expression "exit()" then RunAgent.EvalExits "SystemExit"
  else RunAgent.EvalRaises "invalid syntax".

Definition search_function : value -> list RunAgent.effect * action_outcome :=
  RunAgent.search_function Sample.str strip exception_text post.
Definition calculate_function : value -> list RunAgent.effect * action_outcome :=
  RunAgent.calculate_function Sample.str exception_text eval.

(** The agent of the main block on the configuration of the scenarios. *)
Definition helper : run_state :=
  RunState (RunAgent.main_agent Sample.str strip exception_text post eval Sample.cfg) [] [].

Definition search_rocq : list (string * value) :=
  [("action", VStr "search"); ("action_params", VDict [("query", VStr "rocq")])].
Definition search_text : list (string * value) :=
  [("action", VStr "search"); ("action_params", VStr "rocq")].

End Corner.

(** ** What a run keeps true *)

(** An operation keeps [P]: from a state with [P] it ends, normally or
    by an exception, in a state with [P]. *)
Definition M_keeps {A} (P : run_state -> Prop) (m : M A) : Prop :=
  forall st, P st -> P (fst (m st)).

(** The roles the engine gives a turn. *)
Definition valid_role (t : turn) : bool :=
  has_role "user" t || has_role "assistant" t || has_role "system" t.

Definition user_turns (lines : list string) : list turn :=
  map (fun line => Turn "user" (VStr line)) lines.
Definition input_events (lines : list string) : list event :=
  map (Ev_input "You: ") lines.

(** [if user_input:] of [run]: the turn recorded before the loop. *)
Definition initial_turns (user_input : option string) : list turn :=
  match user_input with
  | Some text => if negb (String.eqb text "") then [Turn "user" (VStr text)] else []
  | None => []
  end.

(** What has happened between the state [st0] and the state [st] of one
    run that recorded [initial] before its loop: the effects [new], the
    turns [added] and the lines read, [lines]. *)
Definition run_log (initial : list turn) (st0 st : run_state) : Prop :=
  exists new added lines,
    events st = events st0 ++ new
    /\ conversation_history (self st) = conversation_history (self st0) ++ added
    /\ stdin st0 = lines ++ stdin st
    /\ forallb valid_role added = true
    /\ count is_agent_print new = length (List.filter (has_role "assistant") added)
    /\ List.filter (has_role "user") added = initial ++ user_turns lines
    /\ List.filter is_input new = input_events lines
    /\ config (self st) = config (self st0)
    /\ available_actions (self st) = available_actions (self st0)
    /\ (current_state (self st) = current_state (self st0)
        \/ current_state (self st) = "error"
        \/ is_Some (states (config (self st0)) !! current_state (self st))).

(** What a call of an action in the registry [reg] leaves to be
    recorded: its result, when it returns one that is truthy. *)
Definition recorded_result (reg : gmap string action_func) (ev : event)
  : option (string * value) :=
  match ev with
  | Ev_call name action_params =>
      match reg !! name with
      | Some f =>
          match f action_params with
          | Returns action_result =>
              if truthy action_result then Some (name, action_result) else None
          | Raises _ => None
          end
      | None => None
      end
  | _ => None
  end.

Definition registered_call (reg : gmap string action_func) (ev : event) : bool :=
  match ev with
  | Ev_call name _ => bool_decide (is_Some (reg !! name))
  | _ => true
  end.

(** The results of the calls of "search" among the effects [new], and
    the system turns for the results of the other calls. *)
Definition search_results (reg : gmap string action_func) (new : list event) : list value :=
  omap (fun ev =>
          match recorded_result reg ev with
          | Some (name, action_result) =>
              if String.eqb name "search" then Some action_result else None
          | None => None
          end) new.

Definition result_turns (py_str : value -> string) (reg : gmap string action_func)
    (new : list event) : list turn :=
  omap (fun ev =>
          match recorded_result reg ev with
          | Some (name, action_result) =>
              if String.eqb name "search" then None
              else Some (Turn "system" (VStr ("Action result: " +:+ py_str action_result)))
          | None => None
          end) new.

(** What the calls made between [st0] and [st] account for. *)
Definition call_log (py_str : value -> string) (st0 st : run_state) : Prop :=
  exists new added found,
    events st = events st0 ++ new
    /\ conversation_history (self st) = conversation_history (self st0) ++ added
    /\ search_history (self st) = search_history (self st0) ++ found
    /\ available_actions (self st) = available_actions (self st0)
    /\ forallb (registered_call (available_actions (self st0))) new = true
    /\ found = search_results (available_actions (self st0)) new
    /\ List.filter (has_role "system") added
       = result_turns py_str (available_actions (self st0)) new.

(** * Properties *)

Section Properties.

Variable py_str : value -> string.
Variable json_loads : string -> option value.
Variable create : list event -> request -> completion.

Abbreviation _call_llm := (_call_llm py_str json_loads create).
Abbreviation response_of := (response_of json_loads).
Abbreviation execute_action := (execute_action py_str).
Abbreviation transition := (transition py_str).
Abbreviation process_response := (process_response py_str).
Abbreviation loop_body := (loop_body py_str json_loads create).
Abbreviation main_loop := (main_loop py_str json_loads create).
Abbreviation run := (run py_str json_loads create).
Abbreviation request_of := (request_of py_str).


(** ** [_call_llm] *)

Lemma for_enumerate_prints history start st :
  for_enumerate start history (fun i search_result =>
    let* _ := print (P_dev ("[DEV] Search Result #" +:+ pretty (S i) +:+ ":")) in
    let* _ := print (P_raw search_result) in
    print (P_dev dashes)) st
  = (RunState (self st) (stdin st) (events st ++ search_prints start history), Ok tt).
Proof.
  revert start st. induction history as [|r rest IH]; intros start st; simpl.
  - unfold ret. rewrite app_nil_r. by destruct st.
  - unfold bind at 1. unfold bind at 1. unfold print at 1, emit at 1. simpl.
    unfold bind at 1. unfold print at 1, emit at 1. simpl.
    unfold print at 1, emit at 1. simpl.
    rewrite IH. simpl. repeat rewrite <- app_assoc. reflexivity.
Qed.

Lemma print_search_history_eq history st :
  print_search_history history st
  = (RunState (self st) (stdin st) (events st ++ search_history_events history), Ok tt).
Proof.
  destruct history as [|r rest].
  - simpl. unfold ret. rewrite app_nil_r. by destruct st.
  - unfold print_search_history, search_history_events.
    unfold bind, print at 1, emit at 1. rewrite for_enumerate_prints. simpl.
    repeat rewrite <- app_assoc. reflexivity.
Qed.

Lemma call_llm_eq state_prompt temp mdl st :
  let evs := events st ++ search_history_events (search_history (self st)) in
  let rq := request_of (self st) state_prompt temp mdl in
  _call_llm state_prompt temp mdl st
  = (RunState (self st) (stdin st) (evs ++ [Ev_create rq]), Ok (response_of (create evs rq))).
Proof.
  unfold AIAgent._call_llm, bind, get_self. rewrite print_search_history_eq. reflexivity.
Qed.

(** C3, as the code has it. [_call_llm] never raises: it always returns a
    value, leaves the agent as it was and makes one chat-completion call.
    Whenever the call fails or its text is not valid JSON the value is a
    canned decision with action "error", next_state "error" and
    require_input "1" (the value for which [run] asks for input). Its
    message is the fixed apology only when the text was not valid JSON;
    for a failed call, or a null content, it is "Error occurred: "
    followed by the text of the exception. Text that parses is returned
    as parsed. *)
Theorem C3_call_llm_never_raises state_prompt temp mdl st :
  exists st' response evs,
    let rq := request_of (self st) state_prompt temp mdl in
    let answer := create evs rq in
    _call_llm state_prompt temp mdl st = (st', Ok response)
    /\ self st' = self st
    /\ events st' = evs ++ [Ev_create rq]
    /\ (forall text v,
          answer = ApiContent (Some text) -> json_loads text = Some v -> response = v)
    /\ (((exists e, answer = ApiError e) \/ answer = ApiContent None
         \/ (exists text, answer = ApiContent (Some text) /\ json_loads text = None)) ->
        exists d,
          response = VDict d
          /\ dict_get d "action" (VStr "") = VStr "error"
          /\ dict_get d "next_state" (VStr "") = VStr "error"
          /\ py_eq_str (dict_get d "require_input" (VStr "1")) "1" = true
          /\ (forall text, answer = ApiContent (Some text) ->
                dict_get d "message" (VStr "") = VStr apology)
          /\ (forall e, answer = ApiError e ->
                dict_get d "message" (VStr "") = VStr ("Error occurred: " +:+ e))
          /\ (answer = ApiContent None ->
                dict_get d "message" (VStr "")
                = VStr ("Error occurred: " +:+ loads_none_error))).
Proof.
  eexists _, _, _. cbv zeta. split; [apply call_llm_eq|]. simpl.
  split; [reflexivity|]. split; [reflexivity|].
  set (answer := create _ _). split.
  - intros text v Ha Hl. unfold AIAgent.response_of. rewrite Ha, Hl. reflexivity.
  - intros [[e Ha]|[Ha|[text [Ha Hl]]]]; unfold AIAgent.response_of; rewrite Ha;
      [|simpl|rewrite Hl]; eexists; (split; [reflexivity|]); simpl;
      repeat split; intros; congruence.
Qed.

(** ** A state that is not configured *)

Lemma loop_body_not_found st :
  states (config (self st)) !! current_state (self st) = None ->
  loop_body st
  = (RunState (self st) (stdin st)
       (events st ++ [Ev_print (P_error (state_not_found_msg (current_state (self st))))]),
     Ok Break).
Proof.
  intros Hnone. unfold AIAgent.loop_body, bind, get_self. rewrite Hnone. reflexivity.
Qed.

(** C8. If the current state has no entry in the states map when a pass
    begins, the run halts at once: the error line is printed and nothing
    else happens (no chat-completion call, the agent and its current
    state are untouched, in particular not routed to "error"), and [run]
    returns after this pass however many passes it is allowed. *)
Theorem C8_missing_state_halts st :
  states (config (self st)) !! current_state (self st) = None ->
  exists st',
    loop_body st = (st', Ok Break)
    /\ (forall fuel, main_loop (S fuel) st = (st', Returned))
    /\ events st'
       = events st ++ [Ev_print (P_error (state_not_found_msg (current_state (self st))))]
    /\ count is_create (events st') = count is_create (events st)
    /\ self st' = self st
    /\ current_state (self st') = current_state (self st).
Proof.
  intros Hnone. eexists. split; [apply loop_body_not_found, Hnone|].
  split.
  - intros fuel. simpl. rewrite loop_body_not_found; [reflexivity|exact Hnone].
  - simpl. repeat split. unfold count. rewrite List.filter_app. simpl.
    rewrite length_app. simpl. lia.
Qed.

(** ** The phases of a pass *)

(** The fields [run] reads off a decision (lines 337-340 and 364). *)
Abbreviation action_of d := (dict_get d "action" (VStr "")).
Abbreviation message_of d := (dict_get d "message" (VStr "")).
Abbreviation next_state_of d := (dict_get d "next_state" (VStr "")).
Abbreviation require_input_of d := (dict_get d "require_input" (VStr "1")).
Abbreviation action_params_of d := (dict_get d "action_params" (VDict [])).

Ltac step :=
  unfold bind, ret, raise, get_self, print, emit, set_current_state, append_turn,
    append_search, input, py_get; simpl.

Lemma record_reply_eq message st :
  record_reply message st
  = (RunState
       (Agent (config (self st)) (current_state (self st))
              (conversation_history (self st) ++ [Turn "assistant" message])
              (search_history (self st)) (available_actions (self st)))
       (stdin st) (events st ++ [Ev_print (P_agent message)]),
     Ok tt).
Proof. reflexivity. Qed.

Lemma truthy_str name : truthy (VStr name) = true <-> name <> "".
Proof.
  simpl. destruct (String.eqb_spec name ""); simpl; split; congruence.
Qed.

(** No dispatch: the action is empty, not a registered name, or not a
    name at all. *)
Lemma execute_action_skip response action st :
  truthy action = false
  \/ (exists name, action = VStr name /\ available_actions (self st) !! name = None)
  \/ (hashable action = true /\ forall name, action <> VStr name) ->
  execute_action response action st = (st, Ok tt).
Proof.
  intros [Hf|[[name [-> Hn]]|[Hh Hs]]]; unfold AIAgent.execute_action.
  - rewrite Hf. reflexivity.
  - destruct (truthy (VStr name)); [|reflexivity].
    unfold in_available_actions, bind, get_self, ret. rewrite Hn.
    rewrite bool_decide_eq_false_2; [reflexivity|]. by intros [? ?].
  - destruct (truthy action); [|reflexivity].
    destruct action; try discriminate Hh; try reflexivity. by destruct (Hs s).
Qed.

Lemma execute_action_unhashable response action st :
  truthy action = true -> hashable action = false ->
  exists msg, execute_action response action st = (st, Raise (TypeError msg)).
Proof.
  intros Ht Hh. unfold AIAgent.execute_action. rewrite Ht.
  destruct action; try discriminate Hh; eexists; reflexivity.
Qed.

(** Dispatch of a registered action, and where its result goes. *)
Lemma execute_action_call d name f st :
  name <> "" ->
  available_actions (self st) !! name = Some f ->
  let called := RunState (self st) (stdin st) (events st ++ [Ev_call name (action_params_of d)]) in
  execute_action (VDict d) (VStr name) st
  = match f (action_params_of d) with
    | Raises e => (called, Raise (ActionError e))
    | Returns action_result =>
        if truthy action_result then
          if String.eqb name "search" then append_search action_result called
          else append_turn "system" (VStr ("Action result: " +:+ py_str action_result)) called
        else (called, Ok tt)
    end.
Proof.
  intros Hne Hf. unfold AIAgent.execute_action.
  apply truthy_str in Hne. rewrite Hne.
  unfold in_available_actions, call_action. step.
  rewrite bool_decide_eq_true_2 by (rewrite Hf; eauto). simpl. rewrite Hf.
  destruct (f _) as [r|e]; [|reflexivity]. simpl.
  destruct (truthy r); [|reflexivity]. destruct (String.eqb name "search"); reflexivity.
Qed.

Lemma reject_transition_eq next_state st :
  reject_transition py_str next_state st
  = (RunState
       (Agent (config (self st)) "error" (conversation_history (self st))
              (search_history (self st)) (available_actions (self st)))
       (stdin st)
       (events st
          ++ [Ev_print (P_error (invalid_transition_msg py_str (current_state (self st)) next_state));
              Ev_set_state "error"]),
     Ok tt).
Proof. unfold reject_transition. step. rewrite <- app_assoc. reflexivity. Qed.

Lemma set_current_state_eq s st :
  set_current_state s st
  = (RunState
       (Agent (config (self st)) s (conversation_history (self st))
              (search_history (self st)) (available_actions (self st)))
       (stdin st) (events st ++ [Ev_set_state s]),
     Ok tt).
Proof. reflexivity. Qed.

Lemma transition_hashable sc next_state st :
  hashable next_state = true ->
  transition sc next_state st
  = match next_state with
    | VStr s =>
        if transition_ok (config (self st)) sc s then set_current_state s st
        else reject_transition py_str next_state st
    | _ => reject_transition py_str next_state st
    end.
Proof.
  intros Hh. destruct next_state; try discriminate Hh; try reflexivity.
  unfold AIAgent.transition, bind, get_self. by destruct (transition_ok _ _ _).
Qed.

Lemma is_terminal_str next_state :
  is_terminal next_state = true -> next_state = VStr "exit" \/ next_state = VStr "".
Proof.
  unfold is_terminal. destruct next_state; simpl; try discriminate.
  intros H. apply orb_true_iff in H as [H|H]; apply String.eqb_eq in H; subst; auto.
Qed.

Lemma loop_body_reply st sc state_prompt st1 response :
  states (config (self st)) !! current_state (self st) = Some sc ->
  prompt sc = Some state_prompt ->
  _call_llm state_prompt (temperature_of sc) (model_of sc) st = (st1, Ok response) ->
  loop_body st = process_response sc response st1.
Proof.
  intros Hsc Hp Hr. unfold AIAgent.loop_body, bind at 1, get_self. rewrite Hsc.
  assert (table_truthy sc = true) as -> by (unfold table_truthy; rewrite Hp; reflexivity).
  rewrite Hp. unfold bind. rewrite Hr. reflexivity.
Qed.

Lemma process_response_dict sc d st :
  process_response sc (VDict d) st
  = (let* _ := record_reply (message_of d) in
     let* _ := execute_action (VDict d) (action_of d) in
     let* _ := transition sc (next_state_of d) in
     if is_terminal (next_state_of d) then ret Break
     else let* _ := handle_input (require_input_of d) in ret Continue) st.
Proof. reflexivity. Qed.

Lemma process_response_not_dict sc response st :
  (forall d, response <> VDict d) ->
  process_response sc response st = (st, Raise (AttributeError "get")).
Proof. intros Hd. destruct response; try reflexivity. by destruct (Hd d). Qed.

(** Case analysis on the innermost scrutinee, until none is left. *)
Ltac case_split :=
  repeat (simpl;
          match goal with
          | |- context [match ?x with _ => _ end] =>
              lazymatch x with
              | context [match _ with _ => _ end] => fail
              | _ => destruct x eqn:?
              end
          end).

(** What the dispatch never touches. *)
Lemma execute_action_frame response action st :
  let st' := fst (execute_action response action st) in
  config (self st') = config (self st)
  /\ current_state (self st') = current_state (self st)
  /\ available_actions (self st') = available_actions (self st)
  /\ stdin st' = stdin st.
Proof.
  unfold AIAgent.execute_action, in_available_actions, call_action. step.
  case_split; simpl; auto.
Qed.

Lemma in_transitions_elem s allowed :
  in_transitions (VStr s) allowed = true <-> s ∈ allowed.
Proof.
  unfold in_transitions. rewrite existsb_exists. rewrite list_elem_of_In. split.
  - intros [x [Hin Heq]]. simpl in Heq. apply String.eqb_eq in Heq. by subst.
  - intros Hin. exists s. split; [done|]. simpl. apply String.eqb_refl.
Qed.

(** The condition of the source and the rule of the specification agree. *)
Lemma transition_ok_spec cfg sc s :
  transition_ok cfg sc s = true <-> spec_accepts cfg sc (VStr s).
Proof.
  unfold transition_ok, spec_accepts. rewrite andb_true_iff, bool_decide_eq_true. split.
  - intros [Hs Hl]. exists s. do 2 (split; [done|]).
    destruct (transitions sc) as [[|x l]|]; simpl in Hl; auto.
    right. right. eexists. split; [done|]. by apply in_transitions_elem.
  - intros [s' [Heq [Hs Hl]]]. injection Heq as <-. split; [done|].
    destruct Hl as [->|[->|[l [-> Hin]]]]; try reflexivity. simpl.
    destruct l; [done|]. by apply in_transitions_elem.
Qed.

Lemma spec_accepts_str cfg sc next_state :
  spec_accepts cfg sc next_state -> exists s, next_state = VStr s.
Proof. intros [s [-> _]]. eauto. Qed.

Lemma handle_input_eq require_input st :
  handle_input require_input st
  = if py_eq_str require_input "1" then
      match stdin st with
      | [] => (st, Raise EOFError)
      | line :: rest =>
          (RunState
             (Agent (config (self st)) (current_state (self st))
                    (conversation_history (self st) ++ [Turn "user" (VStr line)])
                    (search_history (self st)) (available_actions (self st)))
             rest (events st ++ [Ev_input "You: " line]),
           Ok tt)
      end
    else (st, Ok tt).
Proof.
  unfold handle_input. destruct (py_eq_str _ _); [|reflexivity].
  step. by destruct (stdin st).
Qed.

(** Validation never raises on a hashable proposal, and touches only the
    current state and the list of effects. *)
Lemma transition_cases sc next_state st :
  hashable next_state = true ->
  exists st',
    transition sc next_state st = (st', Ok tt)
    /\ config (self st') = config (self st)
    /\ conversation_history (self st') = conversation_history (self st)
    /\ search_history (self st') = search_history (self st)
    /\ available_actions (self st') = available_actions (self st)
    /\ stdin st' = stdin st
    /\ ((exists s, next_state = VStr s /\ transition_ok (config (self st)) sc s = true
                   /\ current_state (self st') = s
                   /\ events st' = events st ++ [Ev_set_state s])
        \/ ((forall s, next_state = VStr s -> transition_ok (config (self st)) sc s = false)
            /\ current_state (self st') = "error"
            /\ events st'
               = events st
                   ++ [Ev_print (P_error (invalid_transition_msg py_str
                                            (current_state (self st)) next_state));
                       Ev_set_state "error"])).
Proof.
  intros Hh. rewrite (transition_hashable _ _ _ Hh).
  destruct next_state; try discriminate Hh;
    try (rewrite reject_transition_eq; eexists; repeat split; right; repeat split;
         intros; discriminate).
  destruct (transition_ok _ _ _) eqn:Hok.
  - rewrite set_current_state_eq. eexists. repeat split. left. eauto.
  - rewrite reject_transition_eq. eexists. repeat split. right. repeat split.
    by intros s' [= <-].
Qed.

(** Everything the dispatch can add: at most one call, at most one
    system turn, at most one search result. *)
Lemma execute_action_delta d action st :
  exists st' r sys srch calls,
    execute_action (VDict d) action st = (st', r)
    /\ conversation_history (self st') = conversation_history (self st) ++ sys
    /\ search_history (self st') = search_history (self st) ++ srch
    /\ events st' = events st ++ calls
    /\ (sys = [] \/ exists c, sys = [Turn "system" c])
    /\ (srch = [] \/ exists v, srch = [v])
    /\ (calls = [] \/ exists name params, calls = [Ev_call name params]).
Proof.
  assert (forall r : result unit, exists st' r' sys srch calls,
             (st, r) = (st', r')
             /\ conversation_history (self st') = conversation_history (self st) ++ sys
             /\ search_history (self st') = search_history (self st) ++ srch
             /\ events st' = events st ++ calls
             /\ (sys = [] \/ exists c, sys = [Turn "system" c])
             /\ (srch = [] \/ exists v, srch = [v])
             /\ (calls = [] \/ exists name params, calls = [Ev_call name params]))
    as Hsame.
  { intros r. exists st, r, [], [], []. rewrite !app_nil_r. repeat split; auto. }
  destruct (truthy action) eqn:Ht.
  2:{ rewrite execute_action_skip by auto. apply Hsame. }
  destruct (hashable action) eqn:Hh.
  2:{ destruct (execute_action_unhashable (VDict d) _ st Ht Hh) as [msg ->]. apply Hsame. }
  destruct action as [| | | |name| |];
    try (rewrite execute_action_skip by (right; right; split; [done|congruence]);
         apply Hsame);
    try discriminate Hh.
  destruct (available_actions (self st) !! name) as [f|] eqn:Hf.
  2:{ rewrite execute_action_skip by eauto. apply Hsame. }
  rewrite (execute_action_call d name f st (proj1 (truthy_str name) Ht) Hf).
  destruct (f _) as [res|e].
  - destruct (truthy res).
    + destruct (String.eqb name "search").
      * eexists _, _, [], [res], [_]. split; [reflexivity|]. simpl.
        rewrite app_nil_r. repeat split; eauto.
      * eexists _, _, [_], [], [_]. split; [reflexivity|]. simpl.
        rewrite app_nil_r. repeat split; eauto.
    + eexists _, _, [], [], [_]. split; [reflexivity|]. simpl.
      rewrite !app_nil_r. repeat split; eauto.
  - eexists _, _, [], [], [_]. split; [reflexivity|]. simpl.
    rewrite !app_nil_r. repeat split; eauto.
Qed.

Lemma count_app p evs evs' : count p (evs ++ evs') = count p evs + count p evs'.
Proof. unfold count. by rewrite List.filter_app, length_app. Qed.

Lemma search_prints_diagnostic start history :
  forallb is_diagnostic (search_prints start history) = true.
Proof. revert start. induction history; intros start; simpl; auto. Qed.

Lemma count_diagnostic p evs :
  (forall ev, is_diagnostic ev = true -> p ev = false) ->
  forallb is_diagnostic evs = true -> count p evs = 0.
Proof.
  intros Hp. unfold count. induction evs as [|ev evs IH]; simpl; [done|].
  intros [Hev Hevs]%andb_true_iff. rewrite (Hp ev Hev). auto.
Qed.

Lemma count_search_history_events p history :
  (forall ev, is_diagnostic ev = true -> p ev = false) ->
  count p (search_history_events history) = 0.
Proof.
  intros Hp. apply count_diagnostic; [done|].
  destruct history; [done|]. simpl. apply search_prints_diagnostic.
Qed.

Lemma diagnostic_not_create ev : is_diagnostic ev = true -> is_create ev = false.
Proof. by destruct ev as [[]| | | |]. Qed.
Lemma diagnostic_not_agent_print ev : is_diagnostic ev = true -> is_agent_print ev = false.
Proof. by destruct ev as [[]| | | |]. Qed.
Lemma diagnostic_not_call ev : is_diagnostic ev = true -> is_call ev = false.
Proof. by destruct ev as [[]| | | |]. Qed.
Lemma diagnostic_not_set_state ev : is_diagnostic ev = true -> is_set_state ev = false.
Proof. by destruct ev as [[]| | | |]. Qed.
Lemma diagnostic_not_input ev : is_diagnostic ev = true -> is_input ev = false.
Proof. by destruct ev as [[]| | | |]. Qed.

Lemma py_eq_str_true v lit : py_eq_str v lit = true <-> v = VStr lit.
Proof.
  destruct v; simpl; try (split; [discriminate|congruence]).
  rewrite String.eqb_eq. split; congruence.
Qed.

Lemma dict_get_absent d key dflt : key ∉ map fst d -> dict_get d key dflt = dflt.
Proof.
  induction d as [|[k v] d IH]; simpl; [done|].
  intros [Hk Hd]%not_elem_of_cons.
  destruct (String.eqb_spec k key) as [->|_]; [done|by apply IH].
Qed.

(** ** A pass that gets a decision

    The current state is configured and has a prompt, and the reply of
    [_call_llm] is a JSON object [d]. *)

Section Pass.

Variables (st st1 : run_state) (sc : state_config) (state_prompt : string).
Variable d : list (string * value).

Hypothesis Hstate : states (config (self st)) !! current_state (self st) = Some sc.
Hypothesis Hprompt : prompt sc = Some state_prompt.
Hypothesis Hreply :
  _call_llm state_prompt (temperature_of sc) (model_of sc) st = (st1, Ok (VDict d)).

Lemma reply_frame :
  self st1 = self st /\ stdin st1 = stdin st
  /\ events st1
     = events st ++ search_history_events (search_history (self st))
         ++ [Ev_create (request_of (self st) state_prompt (temperature_of sc) (model_of sc))].
Proof.
  rewrite call_llm_eq in Hreply. injection Hreply as <- _. simpl.
  by rewrite <- app_assoc.
Qed.

(** The pass, phase by phase. *)
Lemma loop_body_phases :
  loop_body st
  = match execute_action (VDict d) (action_of d) (fst (record_reply (message_of d) st1)) with
    | (st3, Raise e) => (st3, Raise e)
    | (st3, Ok _) =>
        match transition sc (next_state_of d) st3 with
        | (st4, Raise e) => (st4, Raise e)
        | (st4, Ok _) =>
            if is_terminal (next_state_of d) then (st4, Ok Break)
            else
              match handle_input (require_input_of d) st4 with
              | (st5, Raise e) => (st5, Raise e)
              | (st5, Ok _) => (st5, Ok Continue)
              end
        end
    end.
Proof.
  rewrite (loop_body_reply _ _ _ _ _ Hstate Hprompt Hreply), process_response_dict.
  unfold bind at 1. rewrite record_reply_eq. simpl. unfold bind at 1.
  destruct (execute_action _ _ _) as [st3 [[]|e]]; [|reflexivity].
  unfold bind at 1. destruct (transition _ _ _) as [st4 [[]|e]]; [|reflexivity].
  destruct (is_terminal _); [reflexivity|]. unfold bind.
  destruct (handle_input _ _) as [st5 [[]|e]]; reflexivity.
Qed.

(** C1. When the decision's next_state is "exit" or the empty string the
    run ends with this pass, whatever its fuel: the pass never goes
    round again. If the dispatch returns, the pass reaches the terminal
    check and leaves the loop by [break], whether the transition was
    accepted or rejected; after a rejection the current state has been
    forced to "error" and the run still ends here. *)
Theorem C1_terminal_next_state_halts :
  is_terminal (next_state_of d) = true ->
  (forall fuel, main_loop (S fuel) st = main_loop 1 st)
  /\ snd (main_loop 1 st) <> Running
  /\ forall st3,
       execute_action (VDict d) (action_of d) (fst (record_reply (message_of d) st1))
       = (st3, Ok tt) ->
       exists s st4,
         next_state_of d = VStr s
         /\ transition sc (VStr s) st3 = (st4, Ok tt)
         /\ loop_body st = (st4, Ok Break)
         /\ (forall fuel, main_loop (S fuel) st = (st4, Returned))
         /\ current_state (self st4)
            = (if transition_ok (config (self st)) sc s then s else "error")
         /\ (transition_ok (config (self st)) sc s = false ->
             current_state (self st4) = "error"
             /\ events st4
                = events st3
                    ++ [Ev_print (P_error (invalid_transition_msg py_str
                                             (current_state (self st)) (VStr s)));
                        Ev_set_state "error"]).
Proof.
  intros Hterm.
  assert (exists s, next_state_of d = VStr s) as [s Hs]
    by (destruct (is_terminal_str _ Hterm) as [->| ->]; eauto).
  pose proof loop_body_phases as Hbody. rewrite Hterm, Hs in Hbody.
  pose proof (execute_action_frame (VDict d) (action_of d)
                (fst (record_reply (message_of d) st1))) as Hframe.
  destruct (execute_action _ _ _) as [st3 [[]|e]] eqn:Hexec; simpl in Hframe.
  - rewrite (transition_hashable sc (VStr s) st3 eq_refl) in Hbody.
    destruct reply_frame as [Hself _].
    destruct Hframe as [Hcfg [Hcur _]]. rewrite Hself in Hcfg, Hcur.
    assert (forall fuel, main_loop (S fuel) st = (fst (transition sc (VStr s) st3), Returned))
      as Hloop.
    { intros fuel. simpl. rewrite Hbody.
      rewrite (transition_hashable sc (VStr s) st3 eq_refl).
      destruct (transition_ok _ _ _); [rewrite set_current_state_eq|rewrite reject_transition_eq];
        reflexivity. }
    split; [intros fuel; by rewrite !Hloop|]. split; [by rewrite Hloop|].
    intros st3' [= <-]. exists s.
    rewrite (transition_hashable sc (VStr s) st3 eq_refl) in *. rewrite Hcfg in *.
    destruct (transition_ok _ _ _).
    + rewrite set_current_state_eq in *. eexists. repeat split; try done.
    + rewrite reject_transition_eq in *. eexists. repeat split; try done.
      simpl. by rewrite Hcur.
  - split; [|split].
    + intros fuel. simpl. by rewrite Hbody.
    + simpl. by rewrite Hbody.
    + intros st3' [=].
Qed.

(** After the dispatch: validation, terminal check and input only set
    the current state, print the rejection, and append at most the one
    line read as a user turn. *)
Lemma pass_tail st3 r3 :
  execute_action (VDict d) (action_of d) (fst (record_reply (message_of d) st1))
  = (st3, r3) ->
  exists st' r users new,
    loop_body st = (st', r)
    /\ search_history (self st') = search_history (self st3)
    /\ conversation_history (self st') = conversation_history (self st3) ++ users
    /\ events st' = events st3 ++ new
    /\ ((users = [] /\ stdin st' = stdin st3)
        \/ exists line, users = [Turn "user" (VStr line)] /\ stdin st3 = line :: stdin st')
    /\ count is_input new = length users
    /\ count is_create new = 0
    /\ count is_agent_print new = 0
    /\ count is_call new = 0
    /\ count is_set_state new <= 1
    /\ (forall e, r3 = Raise e -> r = Raise e /\ new = [] /\ users = [])
    /\ (forall s, r = Ok s -> r3 = Ok tt /\ count is_set_state new = 1)
    /\ (r = Ok Continue ->
        (py_eq_str (require_input_of d) "1" = true -> length users = 1)
        /\ (py_eq_str (require_input_of d) "1" = false -> length users = 0)).
Proof.
  intros Hexec. rewrite loop_body_phases, Hexec.
  destruct r3 as [[]|e].
  2:{ exists st3, (Raise e), [], []. rewrite !app_nil_r.
      repeat split; auto; try discriminate; try (left; split; congruence); intros; congruence. }
  assert (forall st4 new4,
            search_history (self st4) = search_history (self st3) ->
            conversation_history (self st4) = conversation_history (self st3) ->
            events st4 = events st3 ++ new4 ->
            stdin st4 = stdin st3 ->
            count is_input new4 = 0 -> count is_create new4 = 0 ->
            count is_agent_print new4 = 0 -> count is_call new4 = 0 ->
            count is_set_state new4 = 1 ->
            exists st' r users new,
              (if is_terminal (next_state_of d) then (st4, Ok Break)
               else match handle_input (require_input_of d) st4 with
                    | (st5, Raise e) => (st5, Raise e)
                    | (st5, Ok _) => (st5, Ok Continue)
                    end) = (st', r)
              /\ search_history (self st') = search_history (self st3)
              /\ conversation_history (self st') = conversation_history (self st3) ++ users
              /\ events st' = events st3 ++ new
              /\ ((users = [] /\ stdin st' = stdin st3)
                  \/ exists line, users = [Turn "user" (VStr line)]
                                  /\ stdin st3 = line :: stdin st')
              /\ count is_input new = length users
              /\ count is_create new = 0
              /\ count is_agent_print new = 0
              /\ count is_call new = 0
              /\ count is_set_state new <= 1
              /\ (forall e, @Ok unit tt = Raise e -> r = Raise e /\ new = [] /\ users = [])
              /\ (forall s, r = Ok s -> @Ok unit tt = Ok tt /\ count is_set_state new = 1)
              /\ (r = Ok Continue ->
                  (py_eq_str (require_input_of d) "1" = true -> length users = 1)
                  /\ (py_eq_str (require_input_of d) "1" = false -> length users = 0)))
    as Hrest.
  { intros st4 new4 Hs4 Hc4 He4 Hin4 Hi Hcr Hap Hca Hss.
    destruct (is_terminal _).
    - exists st4, (Ok Break), [], new4. rewrite app_nil_r.
      repeat split; auto; try discriminate; try lia; try (left; split; congruence).
    - rewrite handle_input_eq. destruct (py_eq_str _ _).
      + destruct (stdin st4) as [|line rest] eqn:Hst.
        * exists st4, (Raise EOFError), [], new4. rewrite app_nil_r.
          repeat split; auto; try discriminate; try lia; try (left; split; congruence).
        * eexists _, (Ok Continue), [Turn "user" (VStr line)],
            (new4 ++ [Ev_input "You: " line]).
          split; [reflexivity|]. simpl.
          rewrite Hs4, Hc4, He4, <- Hin4, <- app_assoc. unfold count in *.
          rewrite !List.filter_app, !length_app, Hi, Hcr, Hap, Hca, Hss. simpl.
          repeat split; eauto; try discriminate; try lia.
      + exists st4, (Ok Continue), [], new4. rewrite app_nil_r.
        repeat split; auto; try discriminate; try lia; try (left; split; congruence). }
  destruct (hashable (next_state_of d)) eqn:Hh.
  - destruct (transition_cases sc _ st3 Hh)
      as [st4 [-> [_ [Hc [Hs [_ [Hin Hcases]]]]]]].
    destruct Hcases as [[s [_ [_ [_ He]]]]|[_ [_ He]]]; eapply Hrest; eauto.
  - exists st3, (Raise (TypeError (match next_state_of d with
                                    | VList _ => "unhashable type: 'list'"
                                    | _ => "unhashable type: 'dict'"
                                    end))), [], [].
    rewrite !app_nil_r.
    destruct (next_state_of d); try discriminate Hh;
      repeat split; auto; try discriminate; try (left; split; congruence).
Qed.

(** C2. In a pass that reaches the validation with a hashable proposal
    (a string, as every state identifier is; or a number, a boolean,
    null), the validation does not raise, and the proposal is accepted
    exactly when the rule of the specification holds: it names a
    configured state and the transitions list of the current state is
    absent, empty or contains it. Accepted, it becomes the current state;
    rejected, the error line is printed and the current state is
    "error". A proposal that is not configured is rejected even when
    the list is empty. Either way the pass goes on: unless the proposal
    is terminal, it ends in [Continue] from the state just set (given a
    line of input when the decision asks for one). *)
Theorem C2_transition_validation st3 :
  execute_action (VDict d) (action_of d) (fst (record_reply (message_of d) st1))
  = (st3, Ok tt) ->
  hashable (next_state_of d) = true ->
  exists st4,
    transition sc (next_state_of d) st3 = (st4, Ok tt)
    /\ (spec_accepts (config (self st)) sc (next_state_of d) ->
        exists s,
          next_state_of d = VStr s
          /\ current_state (self st4) = s
          /\ events st4 = events st3 ++ [Ev_set_state s])
    /\ (~ spec_accepts (config (self st)) sc (next_state_of d) ->
        current_state (self st4) = "error"
        /\ events st4
           = events st3
               ++ [Ev_print (P_error (invalid_transition_msg py_str
                                        (current_state (self st)) (next_state_of d)));
                   Ev_set_state "error"])
    /\ ((forall s, next_state_of d = VStr s -> states (config (self st)) !! s = None) ->
        ~ spec_accepts (config (self st)) sc (next_state_of d)
        /\ current_state (self st4) = "error")
    /\ (is_terminal (next_state_of d) = false ->
        py_eq_str (require_input_of d) "1" = false \/ stdin st <> [] ->
        exists st5,
          loop_body st = (st5, Ok Continue)
          /\ current_state (self st5) = current_state (self st4)
          /\ forall fuel, main_loop (S fuel) st = main_loop fuel st5).
Proof.
  intros Hexec Hh.
  pose proof (execute_action_frame (VDict d) (action_of d)
                (fst (record_reply (message_of d) st1))) as Hframe.
  rewrite Hexec in Hframe. simpl in Hframe.
  destruct reply_frame as [Hself [Hin _]]. rewrite Hself, Hin in Hframe.
  destruct Hframe as [Hcfg [Hcur [_ Hstdin]]].
  destruct (transition_cases sc _ st3 Hh)
    as [st4 [Htr [_ [_ [_ [_ [Hstdin4 Hcases]]]]]]].
  rewrite Hcfg, Hcur in Hcases.
  assert (spec_accepts (config (self st)) sc (next_state_of d) ->
          exists s, next_state_of d = VStr s /\ current_state (self st4) = s
                    /\ events st4 = events st3 ++ [Ev_set_state s]) as Hacc.
  { intros Hspec. destruct Hcases as [[s [Hs [_ [? ?]]]]|[Hno _]]; [eauto|].
    destruct (spec_accepts_str _ _ _ Hspec) as [s Hs]. specialize (Hno s Hs).
    rewrite Hs in Hspec. apply transition_ok_spec in Hspec. congruence. }
  assert (~ spec_accepts (config (self st)) sc (next_state_of d) ->
          current_state (self st4) = "error"
          /\ events st4
             = events st3
                 ++ [Ev_print (P_error (invalid_transition_msg py_str
                                          (current_state (self st)) (next_state_of d)));
                     Ev_set_state "error"]) as Hrej.
  { intros Hspec. destruct Hcases as [[s [Hs [Hok _]]]|[_ ?]]; [|done].
    destruct Hspec. rewrite Hs. by apply transition_ok_spec. }
  exists st4. split; [done|]. split; [done|]. split; [done|]. split.
  - intros Hnone.
    assert (~ spec_accepts (config (self st)) sc (next_state_of d)) as Hspec.
    { intros [s [Hs [[x Hx] _]]]. rewrite (Hnone s Hs) in Hx. discriminate. }
    split; [done|]. by apply Hrej.
  - intros Hterm Hinput. pose proof loop_body_phases as Hbody.
    rewrite Hexec, Htr, Hterm, handle_input_eq in Hbody.
    assert (exists st5, loop_body st = (st5, Ok Continue)
                        /\ current_state (self st5) = current_state (self st4))
      as [st5 [Hb Hc]].
    { destruct (py_eq_str _ _); [|eauto].
      destruct Hinput as [?|Hne]; [done|]. rewrite Hstdin4, Hstdin in Hbody.
      destruct (stdin st); [done|]. eauto. }
    exists st5. repeat split; try done. intros fuel. simpl. by rewrite Hb.
Qed.

(** C4. A dispatched action that returns a non-empty result. Under the
    name "search" the result becomes the last entry of the search history,
    and the pass adds nothing to the conversation but the assistant turn
    (and the line read at its end, if any). Under any other registered
    name the search history is unchanged and the conversation receives,
    right after the assistant turn, exactly one system turn
    "Action result: <result>". *)
Theorem C4_result_routing name f action_result :
  action_of d = VStr name -> name <> "" ->
  available_actions (self st) !! name = Some f ->
  f (action_params_of d) = Returns action_result ->
  truthy action_result = true ->
  exists st' r users new,
    loop_body st = (st', r)
    /\ ((users = [] /\ stdin st' = stdin st)
        \/ exists line, users = [Turn "user" (VStr line)] /\ stdin st = line :: stdin st')
    /\ events st'
       = events st1 ++ [Ev_print (P_agent (message_of d));
                        Ev_call name (action_params_of d)] ++ new
    /\ count is_call new = 0
    /\ (name = "search" ->
        search_history (self st') = search_history (self st) ++ [action_result]
        /\ conversation_history (self st')
           = conversation_history (self st) ++ [Turn "assistant" (message_of d)] ++ users)
    /\ (name <> "search" ->
        search_history (self st') = search_history (self st)
        /\ conversation_history (self st')
           = conversation_history (self st)
               ++ [Turn "assistant" (message_of d);
                   Turn "system" (VStr ("Action result: " +:+ py_str action_result))]
               ++ users).
Proof.
  intros Ha Hne Hf Hret Htruthy. destruct reply_frame as [Hself [Hstdin _]].
  assert (available_actions (self (fst (record_reply (message_of d) st1))) !! name = Some f)
    as Hf2 by (simpl; by rewrite Hself).
  pose proof (execute_action_call d name f _ Hne Hf2) as Hcall.
  rewrite Hret, Htruthy, <- Ha in Hcall. cbv zeta in Hcall.
  destruct (String.eqb_spec name "search") as [Hsearch|Hother]; simpl in Hcall;
    destruct (pass_tail _ _ Hcall)
      as [st' [r [users [new [Hb [Hs [Hc [He [Hu [_ [_ [_ [Hcalls _]]]]]]]]]]]]];
    simpl in Hs, Hc, He, Hu; rewrite Hself in Hs, Hc; rewrite Hstdin in Hu;
    exists st', r, users, new; (split; [done|]); (split; [done|]);
    (split; [by rewrite He, <- !app_assoc|]); (split; [done|]); split; intros ?;
    try done; split; try done; by rewrite Hc, <- !app_assoc.
Qed.

Lemma loop_body_after_dispatch st3 :
  execute_action (VDict d) (action_of d) (fst (record_reply (message_of d) st1))
  = (st3, Ok tt) ->
  loop_body st
  = (let* _ := transition sc (next_state_of d) in
     if is_terminal (next_state_of d) then ret Break
     else let* _ := handle_input (require_input_of d) in ret Continue) st3.
Proof.
  intros Hexec.
  rewrite (loop_body_reply _ _ _ _ _ Hstate Hprompt Hreply), process_response_dict.
  unfold bind at 1. rewrite record_reply_eq. rewrite record_reply_eq in Hexec.
  simpl in *. unfold bind at 1. by rewrite Hexec.
Qed.

(** C5. A dispatched action that returns a falsy result (None, the empty
    string, 0, an empty list or dict, False). The dispatch changes
    nothing in the agent, so neither history; it prints nothing, its one
    effect being the call itself; and it does not raise: the pass goes on
    with the validation of the transition from that very state. Over the
    whole pass the search history is unchanged and the conversation has
    gained only the assistant turn (and the line read at its end). *)
Theorem C5_falsy_result_not_recorded name f action_result :
  action_of d = VStr name -> name <> "" ->
  available_actions (self st) !! name = Some f ->
  f (action_params_of d) = Returns action_result ->
  truthy action_result = false ->
  exists st2 st3,
    record_reply (message_of d) st1 = (st2, Ok tt)
    /\ execute_action (VDict d) (action_of d) st2 = (st3, Ok tt)
    /\ self st3 = self st2
    /\ stdin st3 = stdin st2
    /\ events st3 = events st2 ++ [Ev_call name (action_params_of d)]
    /\ loop_body st
       = (let* _ := transition sc (next_state_of d) in
          if is_terminal (next_state_of d) then ret Break
          else let* _ := handle_input (require_input_of d) in ret Continue) st3
    /\ exists st' r users,
         loop_body st = (st', r)
         /\ (users = [] \/ exists line, users = [Turn "user" (VStr line)])
         /\ search_history (self st') = search_history (self st)
         /\ conversation_history (self st')
            = conversation_history (self st) ++ [Turn "assistant" (message_of d)] ++ users.
Proof.
  intros Ha Hne Hf Hret Hfalsy. destruct reply_frame as [Hself [Hstdin _]].
  assert (available_actions (self (fst (record_reply (message_of d) st1))) !! name = Some f)
    as Hf2 by (simpl; by rewrite Hself).
  pose proof (execute_action_call d name f _ Hne Hf2) as Hcall.
  rewrite Hret, Hfalsy, <- Ha in Hcall. cbv zeta in Hcall.
  eexists _, _. split; [apply record_reply_eq|]. rewrite record_reply_eq in Hcall.
  split; [exact Hcall|]. do 3 (split; [reflexivity|]).
  rewrite <- record_reply_eq in Hcall.
  split; [by apply loop_body_after_dispatch|].
  destruct (pass_tail _ _ Hcall) as [st' [r [users [new [Hb [Hs [Hc [_ [Hu _]]]]]]]]].
  simpl in Hs, Hc. rewrite Hself in Hs, Hc.
  exists st', r, users. split; [done|]. split; [|split; [done|by rewrite Hc, <- app_assoc]].
  destruct Hu as [[-> _]|[line [-> _]]]; eauto.
Qed.

(** C9. A registered action whose callable raises. The exception is not
    caught: it ends the pass and leaves [run]. At that point the
    assistant turn has been appended and the message printed, the call
    is the last effect, no transition has been decided and the current
    state is what it was, as is the search history. *)
Theorem C9_action_exception_propagates name f e :
  action_of d = VStr name -> name <> "" ->
  available_actions (self st) !! name = Some f ->
  f (action_params_of d) = Raises e ->
  exists st',
    loop_body st = (st', Raise (ActionError e))
    /\ (forall fuel, main_loop (S fuel) st = (st', Raised (ActionError e)))
    /\ (forall fuel, run None (S fuel) st = (st', Raised (ActionError e)))
    /\ current_state (self st') = current_state (self st)
    /\ conversation_history (self st')
       = conversation_history (self st) ++ [Turn "assistant" (message_of d)]
    /\ search_history (self st') = search_history (self st)
    /\ events st'
       = events st1 ++ [Ev_print (P_agent (message_of d));
                        Ev_call name (action_params_of d)]
    /\ count is_set_state (events st') = count is_set_state (events st).
Proof.
  intros Ha Hne Hf Hraise. destruct reply_frame as [Hself [Hstdin Hev]].
  assert (available_actions (self (fst (record_reply (message_of d) st1))) !! name = Some f)
    as Hf2 by (simpl; by rewrite Hself).
  pose proof (execute_action_call d name f _ Hne Hf2) as Hcall.
  rewrite Hraise, <- Ha in Hcall. cbv zeta in Hcall.
  pose proof loop_body_phases as Hbody. rewrite Hcall in Hbody.
  eexists. split; [exact Hbody|].
  split; [intros fuel; simpl; by rewrite Hbody|].
  split; [intros fuel; simpl; by rewrite Hbody|].
  simpl. rewrite Hself. repeat split; try done.
  - by rewrite <- app_assoc.
  - rewrite Hev, !count_app.
    rewrite (count_search_history_events _ _ diagnostic_not_set_state).
    simpl. unfold count. simpl. lia.
Qed.

(** C10. In a pass that goes round again, one line is read from
    standard input, and appended as the last turn, a user turn, exactly
    when the decision's require_input is the string "1"; otherwise
    nothing is read and no user turn is added. An absent require_input
    reads as "1". JSON true, the string "true" and the number 1 are not
    the string "1". *)
Theorem C10_require_input st' :
  loop_body st = (st', Ok Continue) ->
  exists added new,
    conversation_history (self st') = conversation_history (self st) ++ added
    /\ events st' = events st ++ new
    /\ (require_input_of d = VStr "1" ->
        exists line,
          stdin st = line :: stdin st'
          /\ List.filter (has_role "user") added = [Turn "user" (VStr line)]
          /\ last added = Some (Turn "user" (VStr line))
          /\ count is_input new = 1)
    /\ (require_input_of d <> VStr "1" ->
        stdin st' = stdin st
        /\ List.filter (has_role "user") added = []
        /\ count is_input new = 0)
    /\ ("require_input" ∉ map fst d -> require_input_of d = VStr "1")
    /\ (require_input_of d = VBool true \/ require_input_of d = VStr "true"
        \/ require_input_of d = VInt 1 ->
        require_input_of d <> VStr "1").
Proof.
  intros Hcont. destruct reply_frame as [Hself [Hstdin Hev]].
  destruct (execute_action_delta d (action_of d) (fst (record_reply (message_of d) st1)))
    as [st3 [r3 [sys [srch [calls [Hexec [Hc3 [_ [He3 [Hsys [_ Hcalls]]]]]]]]]]].
  pose proof (execute_action_frame (VDict d) (action_of d)
                (fst (record_reply (message_of d) st1))) as Hframe.
  rewrite Hexec in Hframe. simpl in Hframe, Hc3, He3.
  destruct Hframe as [_ [_ [_ Hstdin3]]]. rewrite Hstdin in Hstdin3.
  destruct (pass_tail _ _ Hexec)
    as [st'' [r [users [new [Hb [_ [Hc [He [Hu [Hin [_ [_ [_ [_ [_ [_ Hreq]]]]]]]]]]]]]]]].
  rewrite Hcont in Hb. injection Hb as <- <-. destruct (Hreq eq_refl) as [Hyes Hno].
  exists ([Turn "assistant" (message_of d)] ++ sys ++ users),
    (search_history_events (search_history (self st))
       ++ [Ev_create (request_of (self st) state_prompt (temperature_of sc) (model_of sc))]
       ++ [Ev_print (P_agent (message_of d))] ++ calls ++ new).
  split; [by rewrite Hc, Hc3, Hself, <- !app_assoc|].
  split; [by rewrite He, He3, Hev, <- !app_assoc|].
  assert (List.filter (has_role "user") sys = []) as Hfsys
    by (destruct Hsys as [->|[c ->]]; reflexivity).
  assert (count is_input calls = 0) as Hicalls
    by (destruct Hcalls as [->|[n [ps ->]]]; reflexivity).
  assert (count is_input
            (search_history_events (search_history (self st))
               ++ [Ev_create (request_of (self st) state_prompt (temperature_of sc)
                                (model_of sc))]
               ++ [Ev_print (P_agent (message_of d))] ++ calls ++ new)
          = length users) as Hcount.
  { rewrite !count_app, (count_search_history_events _ _ diagnostic_not_input), Hicalls, Hin.
    reflexivity. }
  rewrite Hcount. simpl. rewrite List.filter_app, Hfsys. simpl.
  split; [|split; [|split]].
  - intros Hone. apply py_eq_str_true in Hone. specialize (Hyes Hone).
    destruct Hu as [[-> _]|[line [-> Hline]]]; [discriminate Hyes|].
    exists line. rewrite Hstdin3 in Hline. repeat split; try done.
    rewrite app_comm_cons. apply last_snoc.
  - intros Hnot. assert (py_eq_str (require_input_of d) "1" = false) as Hfalse.
    { destruct (py_eq_str _ _) eqn:Heq; [|done]. by apply py_eq_str_true in Heq. }
    specialize (Hno Hfalse). destruct Hu as [[-> Hsame]|[line [-> _]]]; [|discriminate Hno].
    rewrite Hsame, Hstdin3. done.
  - apply dict_get_absent.
  - intros [->|[->| ->]]; discriminate.
Qed.

(** What one pass with a decision does, in numbers. *)
Lemma pass_counts :
  exists st' r new added,
    loop_body st = (st', r)
    /\ events st' = events st ++ new
    /\ conversation_history (self st') = conversation_history (self st) ++ added
    /\ count is_create new = 1
    /\ count is_call new <= 1
    /\ count is_set_state new <= 1
    /\ List.filter is_agent_print new = [Ev_print (P_agent (message_of d))]
    /\ List.filter (has_role "assistant") added = [Turn "assistant" (message_of d)]
    /\ (forall s, r = Ok s -> count is_set_state new = 1).
Proof.
  destruct reply_frame as [Hself [Hstdin Hev]].
  destruct (execute_action_delta d (action_of d) (fst (record_reply (message_of d) st1)))
    as [st3 [r3 [sys [srch [calls [Hexec [Hc3 [_ [He3 [Hsys [_ Hcalls]]]]]]]]]]].
  simpl in Hc3, He3.
  destruct (pass_tail _ _ Hexec)
    as [st' [r [users [new [Hb [_ [Hc [He [Hu [_ [Hcr [Hap [Hca [Hss [_ [Hok _]]]]]]]]]]]]]]]].
  exists st', r,
    (search_history_events (search_history (self st))
       ++ [Ev_create (request_of (self st) state_prompt (temperature_of sc) (model_of sc))]
       ++ [Ev_print (P_agent (message_of d))] ++ calls ++ new),
    ([Turn "assistant" (message_of d)] ++ sys ++ users).
  split; [done|].
  split; [by rewrite He, He3, Hev, <- !app_assoc|].
  split; [by rewrite Hc, Hc3, Hself, <- !app_assoc|].
  assert (count is_create calls = 0 /\ count is_call calls <= 1
          /\ count is_set_state calls = 0 /\ List.filter is_agent_print calls = [])
    as [Hcalls1 [Hcalls2 [Hcalls3 Hcalls4]]]
    by (destruct Hcalls as [->|[n [ps ->]]]; unfold count; simpl; repeat split; lia).
  assert (List.filter (has_role "assistant") sys = []) as Hfsys
    by (destruct Hsys as [->|[c ->]]; reflexivity).
  assert (List.filter (has_role "assistant") users = []) as Hfusers
    by (destruct Hu as [[-> _]|[line [-> _]]]; reflexivity).
  assert (List.filter is_agent_print new = []) as Hfnew
    by (apply length_zero_iff_nil, Hap).
  assert (List.filter is_agent_print (search_history_events (search_history (self st))) = [])
    as Hfdiag
    by (apply length_zero_iff_nil,
          (count_search_history_events _ _ diagnostic_not_agent_print)).
  rewrite !count_app, !List.filter_app, Hfsys, Hfusers, Hfnew, Hfdiag, Hcalls4.
  rewrite (count_search_history_events _ _ diagnostic_not_create),
    (count_search_history_events _ _ diagnostic_not_call),
    (count_search_history_events _ _ diagnostic_not_set_state).
  rewrite Hcr, Hca, Hcalls1, Hcalls3. unfold count in *. simpl.
  repeat split; try lia; try done.
  intros s Hs. destruct (Hok s Hs) as [_ ->]. done.
Qed.

End Pass.

(** C6, as the code has it. A pass that finds its state, with a prompt,
    makes exactly one chat-completion call, at most one dispatch and at
    most one transition decision, and prints and records at most one
    assistant message. When the reply is a JSON object its message (the
    canned one after a failure) is appended as exactly one assistant
    turn and printed exactly once as "Agent: <message>". When the pass
    is not cut short by an exception, the reply was such an object and
    exactly one transition decision was made. *)
Theorem C6_one_of_each st sc state_prompt :
  states (config (self st)) !! current_state (self st) = Some sc ->
  prompt sc = Some state_prompt ->
  exists st1 response st' r new added,
    _call_llm state_prompt (temperature_of sc) (model_of sc) st = (st1, Ok response)
    /\ loop_body st = (st', r)
    /\ events st' = events st ++ new
    /\ conversation_history (self st') = conversation_history (self st) ++ added
    /\ count is_create new = 1
    /\ count is_call new <= 1
    /\ count is_set_state new <= 1
    /\ count is_agent_print new <= 1
    /\ length (List.filter (has_role "assistant") added) <= 1
    /\ (forall d, response = VDict d ->
        List.filter is_agent_print new = [Ev_print (P_agent (message_of d))]
        /\ render py_str (P_agent (message_of d)) = "Agent: " +:+ py_str (message_of d)
        /\ List.filter (has_role "assistant") added = [Turn "assistant" (message_of d)])
    /\ (forall s, r = Ok s ->
        (exists d, response = VDict d) /\ count is_set_state new = 1).
Proof.
  intros Hsc Hp.
  pose proof (call_llm_eq state_prompt (temperature_of sc) (model_of sc) st) as Hreply.
  cbv zeta in Hreply. set (response := response_of _) in Hreply.
  set (st1 := RunState _ _ _) in Hreply.
  assert ((exists d, response = VDict d) \/ forall d, response <> VDict d) as [[d Hd]|Hnd]
    by (destruct response; eauto; right; discriminate).
  - rewrite Hd in Hreply.
    destruct (pass_counts st st1 sc state_prompt d Hsc Hp Hreply)
      as [st' [r [new [added [Hb [He [Hc [Hcr [Hca [Hss [Hap [Has Hok]]]]]]]]]]]].
    exists st1, response, st', r, new, added. rewrite Hd.
    do 4 (split; [done|]). do 3 (split; [done|]).
    split; [unfold count; by rewrite Hap|]. split; [by rewrite Has|].
    split; [by intros d' [= <-]|]. intros s Hs. split; [eauto|by eapply Hok].
  - exists st1, response, st1, (Raise (AttributeError "get")),
      (search_history_events (search_history (self st))
         ++ [Ev_create (request_of (self st) state_prompt (temperature_of sc) (model_of sc))]),
      [].
    split; [done|].
    split; [rewrite (loop_body_reply _ _ _ _ _ Hsc Hp Hreply);
            by apply process_response_not_dict|].
    split; [subst st1; simpl; by rewrite <- app_assoc|].
    split; [subst st1; simpl; by rewrite app_nil_r|].
    rewrite !count_app.
    rewrite (count_search_history_events _ _ diagnostic_not_create),
      (count_search_history_events _ _ diagnostic_not_call),
      (count_search_history_events _ _ diagnostic_not_set_state),
      (count_search_history_events _ _ diagnostic_not_agent_print).
    unfold count. simpl. repeat split; try lia; try done;
      try (intros; exfalso; by eapply Hnd).
Qed.

(** ** Histories only grow *)

Lemma extends_refl st : extends st st.
Proof. by repeat split. Qed.

Lemma extends_trans st1 st2 st3 : extends st1 st2 -> extends st2 st3 -> extends st1 st3.
Proof.
  intros [Hc1 [Ha1 [Hh1 [Hs1 He1]]]] [Hc2 [Ha2 [Hh2 [Hs2 He2]]]].
  repeat split; try congruence; by etrans.
Qed.

Lemma ret_extends {A} (a : A) : M_extends (ret a).
Proof. intros st. apply extends_refl. Qed.

Lemma raise_extends {A} e : M_extends (@raise A e).
Proof. intros st. apply extends_refl. Qed.

Lemma get_self_extends : M_extends get_self.
Proof. intros st. apply extends_refl. Qed.

Lemma bind_extends {A B} (m : M A) (k : A -> M B) :
  M_extends m -> (forall a, M_extends (k a)) -> M_extends (bind m k).
Proof.
  intros Hm Hk st. unfold bind. specialize (Hm st).
  destruct (m st) as [st' [a|e]]; simpl in *; [|done].
  eapply extends_trans; [exact Hm|apply Hk].
Qed.

Lemma emit_extends ev : M_extends (emit ev).
Proof. intros st. repeat split; simpl; try done. by apply prefix_app_r. Qed.

Lemma set_current_state_extends s : M_extends (set_current_state s).
Proof. intros st. repeat split; simpl; try done. by apply prefix_app_r. Qed.

Lemma append_turn_extends r c : M_extends (append_turn r c).
Proof. intros st. repeat split; simpl; try done. by apply prefix_app_r. Qed.

Lemma append_search_extends v : M_extends (append_search v).
Proof. intros st. repeat split; simpl; try done. by apply prefix_app_r. Qed.

Lemma input_extends ask : M_extends (input ask).
Proof.
  intros st. unfold input. destruct (stdin st); [apply extends_refl|].
  repeat split; simpl; try done. by apply prefix_app_r.
Qed.

Lemma py_get_extends response key dflt : M_extends (py_get response key dflt).
Proof. destruct response; first [apply raise_extends|apply ret_extends]. Qed.

Lemma for_enumerate_extends {A} start (l : list A) body :
  (forall i x, M_extends (body i x)) -> M_extends (for_enumerate start l body).
Proof.
  intros Hbody. revert start. induction l as [|x l IH]; intros start; simpl.
  - apply ret_extends.
  - apply bind_extends; [apply Hbody|intros _; apply IH].
Qed.

(** Composite operations, by their structure. *)
Ltac extends_step :=
  first
    [ apply bind_extends; [|intros ?]
    | apply ret_extends | apply raise_extends | apply get_self_extends
    | apply emit_extends | apply set_current_state_extends
    | apply append_turn_extends | apply append_search_extends
    | apply input_extends | apply py_get_extends
    | apply for_enumerate_extends; intros ? ?
    | match goal with
      | |- M_extends (match ?x with _ => _ end) => destruct x
      end ].

Lemma call_llm_extends state_prompt temp mdl : M_extends (_call_llm state_prompt temp mdl).
Proof.
  unfold AIAgent._call_llm, print_search_history, print.
  repeat extends_step.
Qed.

Lemma record_reply_extends message : M_extends (record_reply message).
Proof. unfold record_reply, print. repeat extends_step. Qed.

Lemma execute_action_extends response action : M_extends (execute_action response action).
Proof.
  unfold AIAgent.execute_action, in_available_actions, call_action.
  repeat extends_step.
Qed.

Lemma transition_extends sc next_state : M_extends (transition sc next_state).
Proof.
  unfold AIAgent.transition, reject_transition, print. repeat extends_step.
Qed.

Lemma handle_input_extends require_input : M_extends (handle_input require_input).
Proof. unfold handle_input. repeat extends_step. Qed.

Lemma process_response_extends sc response : M_extends (process_response sc response).
Proof.
  unfold AIAgent.process_response.
  repeat first [ apply record_reply_extends | apply execute_action_extends
               | apply transition_extends | apply handle_input_extends
               | extends_step ].
Qed.

Lemma loop_body_extends : M_extends loop_body.
Proof.
  unfold AIAgent.loop_body, print.
  repeat first [ apply call_llm_extends | apply process_response_extends | extends_step ].
Qed.

Lemma main_loop_extends fuel st : extends st (fst (main_loop fuel st)).
Proof.
  revert st. induction fuel as [|fuel IH]; intros st; simpl; [apply extends_refl|].
  pose proof (loop_body_extends st) as Hbody.
  destruct (loop_body st) as [st' [[]|e]]; simpl in *; try done.
  eapply extends_trans; [exact Hbody|apply IH].
Qed.

Lemma run_extends user_input fuel st : extends st (fst (run user_input fuel st)).
Proof.
  unfold AIAgent.run. destruct user_input as [text|]; [|apply main_loop_extends].
  destruct (negb _); [|apply main_loop_extends].
  eapply extends_trans; [apply (append_turn_extends "user" (VStr text) st)|].
  apply main_loop_extends.
Qed.

(** More fuel only continues a run that was still going. *)
Lemma main_loop_add n k st :
  main_loop (n + k) st
  = match main_loop n st with
    | (st', Running) => main_loop k st'
    | finished => finished
    end.
Proof.
  revert st. induction n as [|n IH]; intros st; simpl; [done|].
  destruct (loop_body st) as [st' [[]|e]]; try done.
Qed.

Lemma main_loop_later n k st :
  extends (fst (main_loop n st)) (fst (main_loop (n + k) st)).
Proof.
  rewrite main_loop_add. destruct (main_loop n st) as [st' []]; simpl;
    first [apply extends_refl|apply main_loop_extends].
Qed.

(** C7. Both histories are append-only. Every operation of the agent
    (the model invocation, which in fact leaves them untouched; the
    recording of the reply; the dispatch; the validation; the handling
    of input; a whole pass; a whole run with its initial input) ends,
    normally or by an exception, in a state whose conversation and
    search histories have the earlier ones as prefixes; and the
    histories a run has after some passes are prefixes of those it has
    after more passes. *)
Theorem C7_histories_append_only :
  (forall state_prompt temp mdl st,
      let st' := fst (_call_llm state_prompt temp mdl st) in
      conversation_history (self st') = conversation_history (self st)
      /\ search_history (self st') = search_history (self st))
  /\ (forall message, M_extends (record_reply message))
  /\ (forall response action, M_extends (execute_action response action))
  /\ (forall sc next_state, M_extends (transition sc next_state))
  /\ (forall require_input, M_extends (handle_input require_input))
  /\ M_extends loop_body
  /\ (forall user_input fuel st,
        let st' := fst (run user_input fuel st) in
        conversation_history (self st) `prefix_of` conversation_history (self st')
        /\ search_history (self st) `prefix_of` search_history (self st'))
  /\ (forall user_input n k st,
        let earlier := fst (run user_input n st) in
        let later := fst (run user_input (n + k) st) in
        conversation_history (self earlier) `prefix_of` conversation_history (self later)
        /\ search_history (self earlier) `prefix_of` search_history (self later)).
Proof.
  split; [intros sp temp mdl st; rewrite call_llm_eq; by simpl|].
  split; [apply record_reply_extends|]. split; [apply execute_action_extends|].
  split; [apply transition_extends|]. split; [apply handle_input_extends|].
  split; [apply loop_body_extends|]. split.
  - intros ui fuel st. destruct (run_extends ui fuel st) as [_ [_ [? [? _]]]]. done.
  - intros ui n k st. cbv zeta. unfold AIAgent.run.
    assert (forall st0,
               conversation_history (self (fst (main_loop n st0)))
                 `prefix_of` conversation_history (self (fst (main_loop (n + k) st0)))
               /\ search_history (self (fst (main_loop n st0)))
                    `prefix_of` search_history (self (fst (main_loop (n + k) st0))))
      as Hlater
      by (intros st0; destruct (main_loop_later n k st0) as [_ [_ [? [? _]]]]; done).
    destruct ui as [text|]; [destruct (negb _)|]; apply Hlater.
Qed.

End Properties.

(** * The theorems at work on the scenarios of the specification *)

Section Examples.

Abbreviation loads := (Sample.loads Sample.known).
Abbreviation _call_llm := (AIAgent._call_llm Sample.str loads).
Abbreviation loop_body := (AIAgent.loop_body Sample.str loads).
Abbreviation main_loop := (AIAgent.main_loop Sample.str loads).
Abbreviation execute_action := (AIAgent.execute_action Sample.str).

(** From [start], whose transitions are [middle] only, the model
    proposes "exit": rejected, and the run ends all the same. *)
Lemma C1_witness :
  states (config (self (Sample.fresh []))) !! current_state (self (Sample.fresh []))
  = Some Sample.start_spec
  /\ prompt Sample.start_spec = Some "Greet the user."
  /\ _call_llm (Sample.says Sample.exit_reply) "Greet the user."
       (temperature_of Sample.start_spec) (model_of Sample.start_spec) (Sample.fresh [])
     = (Sample.replied (Sample.fresh []) Sample.exit_reply Sample.start_spec
          "Greet the user.",
        Ok (VDict (Sample.decision Sample.exit_reply)))
  /\ is_terminal (dict_get (Sample.decision Sample.exit_reply) "next_state" (VStr "")) = true
  /\ transition_ok Sample.cfg Sample.start_spec "exit" = false
  /\ exists st4,
       loop_body (Sample.says Sample.exit_reply) (Sample.fresh []) = (st4, Ok Break)
       /\ (forall fuel,
             main_loop (Sample.says Sample.exit_reply) (S fuel) (Sample.fresh [])
             = (st4, Returned))
       /\ current_state (self st4) = "error".
Proof.
  assert (states (config (self (Sample.fresh []))) !! current_state (self (Sample.fresh []))
          = Some Sample.start_spec) as H1 by (vm_compute; reflexivity).
  assert (prompt Sample.start_spec = Some "Greet the user.") as H2 by reflexivity.
  assert (_call_llm (Sample.says Sample.exit_reply) "Greet the user."
            (temperature_of Sample.start_spec) (model_of Sample.start_spec)
            (Sample.fresh [])
          = (Sample.replied (Sample.fresh []) Sample.exit_reply Sample.start_spec
               "Greet the user.",
             Ok (VDict (Sample.decision Sample.exit_reply))))
    as H3 by (vm_compute; reflexivity).
  assert (is_terminal (dict_get (Sample.decision Sample.exit_reply) "next_state" (VStr ""))
          = true) as H4 by (vm_compute; reflexivity).
  do 4 (split; [assumption|]). split; [vm_compute; reflexivity|].
  destruct (C1_terminal_next_state_halts _ _ _ _ _ _ _ _ H1 H2 H3 H4) as [_ [_ Hbreak]].
  destruct (Hbreak _ ltac:(vm_compute; reflexivity)) as [s [st4 [Hs [_ [Hb [Hl [Hc _]]]]]]].
  vm_compute in Hs. injection Hs as <-. vm_compute in Hc.
  exists st4. repeat split; assumption.
Defined.

(** From [middle], whose transitions are unrestricted, the model
    proposes "other", which is not configured: rejected, and the
    loop goes on in "error". *)
Lemma C2_witness :
  states (config (self (Sample.in_middle []))) !! current_state (self (Sample.in_middle []))
  = Some Sample.middle_spec
  /\ prompt Sample.middle_spec = Some "Work on the request."
  /\ hashable (dict_get (Sample.decision Sample.silent_reply) "next_state" (VStr "")) = true
  /\ transitions Sample.middle_spec = Some []
  /\ ~ spec_accepts Sample.cfg Sample.middle_spec
        (dict_get (Sample.decision Sample.silent_reply) "next_state" (VStr ""))
  /\ exists st5,
       loop_body (Sample.says Sample.silent_reply) (Sample.in_middle [])
       = (st5, Ok Continue)
       /\ current_state (self st5) = "error".
Proof.
  assert (states (config (self (Sample.in_middle [])))
            !! current_state (self (Sample.in_middle []))
          = Some Sample.middle_spec) as H1 by (vm_compute; reflexivity).
  assert (prompt Sample.middle_spec = Some "Work on the request.") as H2 by reflexivity.
  assert (_call_llm (Sample.says Sample.silent_reply) "Work on the request."
            (temperature_of Sample.middle_spec) (model_of Sample.middle_spec)
            (Sample.in_middle [])
          = (Sample.replied (Sample.in_middle []) Sample.silent_reply Sample.middle_spec
               "Work on the request.",
             Ok (VDict (Sample.decision Sample.silent_reply))))
    as H3 by (vm_compute; reflexivity).
  assert (hashable (dict_get (Sample.decision Sample.silent_reply) "next_state" (VStr ""))
          = true) as H5 by reflexivity.
  do 2 (split; [assumption|]). split; [assumption|]. split; [reflexivity|].
  destruct (C2_transition_validation _ _ _ _ _ _ _ _ H1 H2 H3 _
              ltac:(vm_compute; reflexivity) H5)
    as [st4 [_ [_ [_ [Hunconf Hcont]]]]].
  destruct Hunconf as [Hno Herr].
  { intros s Hs. vm_compute in Hs. injection Hs as <-. vm_compute. reflexivity. }
  split; [exact Hno|].
  destruct Hcont as [st5 [Hb [Hc _]]];
    [vm_compute; reflexivity|left; vm_compute; reflexivity|].
  exists st5. split; [exact Hb|]. by rewrite Hc.
Defined.

(** A failed call: the canned decision carries the text of the
    exception, not the apology. *)
Lemma C3_counterexample :
  (forall rq, Sample.scripted [ApiError "Request timed out."] [] rq
              = ApiError "Request timed out.")
  /\ exists st' d,
       _call_llm (Sample.scripted [ApiError "Request timed out."]) "Greet the user."
         (temperature_of Sample.start_spec) (model_of Sample.start_spec) (Sample.fresh [])
       = (st', Ok (VDict d))
       /\ dict_get d "message" (VStr "") = VStr "Error occurred: Request timed out."
       /\ dict_get d "message" (VStr "") <> VStr apology.
Proof.
  split; [reflexivity|]. eexists _, _. split; [vm_compute; reflexivity|].
  split; [reflexivity|]. discriminate.
Qed.

(** From [start] the model asks for "calculate" and proposes [middle]:
    the result goes to the conversation as one system turn. *)
Lemma C4_witness :
  states (config (self (Sample.fresh ["hi"]))) !! current_state (self (Sample.fresh ["hi"]))
  = Some Sample.start_spec
  /\ prompt Sample.start_spec = Some "Greet the user."
  /\ dict_get (Sample.decision Sample.calculate_reply) "action" (VStr "") = VStr "calculate"
  /\ available_actions (self (Sample.fresh ["hi"])) !! "calculate"
     = Some (Sample.answers (VStr "Result: 4"))
  /\ truthy (VStr "Result: 4") = true
  /\ exists st' r users,
       loop_body (Sample.says Sample.calculate_reply) (Sample.fresh ["hi"]) = (st', r)
       /\ search_history (self st') = []
       /\ conversation_history (self st')
          = [Turn "assistant" (VStr "m2");
             Turn "system" (VStr "Action result: Result: 4")] ++ users.
Proof.
  assert (states (config (self (Sample.fresh ["hi"])))
            !! current_state (self (Sample.fresh ["hi"]))
          = Some Sample.start_spec) as H1 by (vm_compute; reflexivity).
  assert (prompt Sample.start_spec = Some "Greet the user.") as H2 by reflexivity.
  assert (_call_llm (Sample.says Sample.calculate_reply) "Greet the user."
            (temperature_of Sample.start_spec) (model_of Sample.start_spec)
            (Sample.fresh ["hi"])
          = (Sample.replied (Sample.fresh ["hi"]) Sample.calculate_reply Sample.start_spec
               "Greet the user.",
             Ok (VDict (Sample.decision Sample.calculate_reply))))
    as H3 by (vm_compute; reflexivity).
  assert (dict_get (Sample.decision Sample.calculate_reply) "action" (VStr "")
          = VStr "calculate") as H4 by reflexivity.
  assert ("calculate" <> "") as H5 by discriminate.
  assert (available_actions (self (Sample.fresh ["hi"])) !! "calculate"
          = Some (Sample.answers (VStr "Result: 4"))) as H6 by (vm_compute; reflexivity).
  assert (Sample.answers (VStr "Result: 4")
            (dict_get (Sample.decision Sample.calculate_reply) "action_params" (VDict []))
          = Returns (VStr "Result: 4")) as H7 by reflexivity.
  assert (truthy (VStr "Result: 4") = true) as H8 by reflexivity.
  do 2 (split; [assumption|]). split; [assumption|]. split; [assumption|].
  split; [assumption|].
  destruct (C4_result_routing _ _ _ _ _ _ _ _ H1 H2 H3 _ _ _ H4 H5 H6 H7 H8)
    as [st' [r [users [new [Hb [_ [_ [_ [_ Hother]]]]]]]]].
  destruct Hother as [Hs Hc]; [discriminate|].
  exists st', r, users. split; [exact Hb|]. split; [exact Hs|exact Hc].
Defined.

(** From [middle] the model asks for "silent", which answers None:
    nothing is recorded. *)
Lemma C5_witness :
  states (config (self (Sample.in_middle []))) !! current_state (self (Sample.in_middle []))
  = Some Sample.middle_spec
  /\ prompt Sample.middle_spec = Some "Work on the request."
  /\ dict_get (Sample.decision Sample.silent_reply) "action" (VStr "") = VStr "silent"
  /\ available_actions (self (Sample.in_middle [])) !! "silent" = Some (Sample.answers VNone)
  /\ truthy VNone = false
  /\ exists st2 st3,
       record_reply (dict_get (Sample.decision Sample.silent_reply) "message" (VStr ""))
         (Sample.replied (Sample.in_middle []) Sample.silent_reply Sample.middle_spec
            "Work on the request.")
       = (st2, Ok tt)
       /\ execute_action (VDict (Sample.decision Sample.silent_reply))
            (dict_get (Sample.decision Sample.silent_reply) "action" (VStr "")) st2
          = (st3, Ok tt)
       /\ self st3 = self st2.
Proof.
  assert (states (config (self (Sample.in_middle [])))
            !! current_state (self (Sample.in_middle []))
          = Some Sample.middle_spec) as H1 by (vm_compute; reflexivity).
  assert (prompt Sample.middle_spec = Some "Work on the request.") as H2 by reflexivity.
  assert (_call_llm (Sample.says Sample.silent_reply) "Work on the request."
            (temperature_of Sample.middle_spec) (model_of Sample.middle_spec)
            (Sample.in_middle [])
          = (Sample.replied (Sample.in_middle []) Sample.silent_reply Sample.middle_spec
               "Work on the request.",
             Ok (VDict (Sample.decision Sample.silent_reply))))
    as H3 by (vm_compute; reflexivity).
  assert (dict_get (Sample.decision Sample.silent_reply) "action" (VStr "")
          = VStr "silent") as H4 by reflexivity.
  assert ("silent" <> "") as H5 by discriminate.
  assert (available_actions (self (Sample.in_middle [])) !! "silent"
          = Some (Sample.answers VNone)) as H6 by (vm_compute; reflexivity).
  assert (Sample.answers VNone
            (dict_get (Sample.decision Sample.silent_reply) "action_params" (VDict []))
          = Returns VNone) as H7 by reflexivity.
  assert (truthy VNone = false) as H8 by reflexivity.
  do 2 (split; [assumption|]). split; [assumption|]. split; [assumption|].
  split; [assumption|].
  destruct (C5_falsy_result_not_recorded _ _ _ _ _ _ _ _ H1 H2 H3 _ _ _ H4 H5 H6 H7 H8)
    as [st2 [st3 [Hr [Hx [Hself _]]]]].
  exists st2, st3. split; [exact Hr|]. split; [exact Hx|exact Hself].
Defined.

(** A pass that finds its state and whose dispatched action raises
    decides no transition: "broken" is registered and fails. *)
Lemma C6_counterexample :
  states (config (self (Sample.in_middle []))) !! current_state (self (Sample.in_middle []))
  = Some Sample.middle_spec
  /\ events (Sample.in_middle []) = []
  /\ exists st',
       loop_body (Sample.says Sample.broken_reply) (Sample.in_middle [])
       = (st', Raise (ActionError "boom"))
       /\ count is_create (events st') = 1
       /\ count is_call (events st') = 1
       /\ count is_set_state (events st') = 0
       /\ current_state (self st') = "middle".
Proof.
  split; [vm_compute; reflexivity|]. split; [reflexivity|].
  eexists. split; [vm_compute; reflexivity|]. repeat split.
Qed.

(** The first pass of the scenario: one call, and the pass completes. *)
Lemma C6_witness :
  states (config (self (Sample.fresh []))) !! current_state (self (Sample.fresh []))
  = Some Sample.start_spec
  /\ prompt Sample.start_spec = Some "Greet the user."
  /\ exists st' new,
       loop_body (Sample.says Sample.exit_reply) (Sample.fresh []) = (st', Ok Break)
       /\ events st' = events (Sample.fresh []) ++ new
       /\ count is_create new = 1
       /\ count is_set_state new = 1.
Proof.
  assert (states (config (self (Sample.fresh []))) !! current_state (self (Sample.fresh []))
          = Some Sample.start_spec) as H1 by (vm_compute; reflexivity).
  assert (prompt Sample.start_spec = Some "Greet the user.") as H2 by reflexivity.
  do 2 (split; [assumption|]).
  destruct (C6_one_of_each Sample.str loads (Sample.says Sample.exit_reply) _ _ _ H1 H2)
    as [st1 [response [st' [r [new [added
         [_ [Hb [He [_ [Hcr [_ [_ [_ [_ [_ Hok]]]]]]]]]]]]]]]].
  assert (loop_body (Sample.says Sample.exit_reply) (Sample.fresh [])
          = (fst (loop_body (Sample.says Sample.exit_reply) (Sample.fresh [])), Ok Break))
    as Hrun by (vm_compute; reflexivity).
  rewrite Hb in Hrun. injection Hrun as Hr.
  exists st', new. rewrite Hb, Hr. repeat split; try assumption.
  by destruct (Hok Break Hr).
Defined.

(** A current state that is not configured. *)
Lemma C8_witness :
  states (config (self Sample.lost)) !! current_state (self Sample.lost) = None
  /\ exists st',
       loop_body (Sample.says Sample.exit_reply) Sample.lost = (st', Ok Break)
       /\ (forall fuel,
             main_loop (Sample.says Sample.exit_reply) (S fuel) Sample.lost
             = (st', Returned))
       /\ events st'
          = events Sample.lost
              ++ [Ev_print (P_error (state_not_found_msg (current_state (self Sample.lost))))]
       /\ count is_create (events st') = count is_create (events Sample.lost)
       /\ self st' = self Sample.lost
       /\ current_state (self st') = current_state (self Sample.lost).
Proof.
  assert (states (config (self Sample.lost)) !! current_state (self Sample.lost) = None)
    as H1 by (vm_compute; reflexivity).
  split; [assumption|].
  apply (C8_missing_state_halts Sample.str loads (Sample.says Sample.exit_reply) _ H1).
Defined.

(** From [middle] the model asks for "broken", which raises. *)
Lemma C9_witness :
  states (config (self (Sample.in_middle []))) !! current_state (self (Sample.in_middle []))
  = Some Sample.middle_spec
  /\ prompt Sample.middle_spec = Some "Work on the request."
  /\ dict_get (Sample.decision Sample.broken_reply) "action" (VStr "") = VStr "broken"
  /\ available_actions (self (Sample.in_middle [])) !! "broken"
     = Some (Sample.fails "boom")
  /\ exists st',
       loop_body (Sample.says Sample.broken_reply) (Sample.in_middle [])
       = (st', Raise (ActionError "boom"))
       /\ (forall fuel,
             AIAgent.run Sample.str loads (Sample.says Sample.broken_reply) None (S fuel)
               (Sample.in_middle [])
             = (st', Raised (ActionError "boom")))
       /\ current_state (self st') = current_state (self (Sample.in_middle []))
       /\ conversation_history (self st') = [Turn "assistant" (VStr "m4")].
Proof.
  assert (states (config (self (Sample.in_middle [])))
            !! current_state (self (Sample.in_middle []))
          = Some Sample.middle_spec) as H1 by (vm_compute; reflexivity).
  assert (prompt Sample.middle_spec = Some "Work on the request.") as H2 by reflexivity.
  assert (_call_llm (Sample.says Sample.broken_reply) "Work on the request."
            (temperature_of Sample.middle_spec) (model_of Sample.middle_spec)
            (Sample.in_middle [])
          = (Sample.replied (Sample.in_middle []) Sample.broken_reply Sample.middle_spec
               "Work on the request.",
             Ok (VDict (Sample.decision Sample.broken_reply))))
    as H3 by (vm_compute; reflexivity).
  assert (dict_get (Sample.decision Sample.broken_reply) "action" (VStr "")
          = VStr "broken") as H4 by reflexivity.
  assert ("broken" <> "") as H5 by discriminate.
  assert (available_actions (self (Sample.in_middle [])) !! "broken"
          = Some (Sample.fails "boom")) as H6 by (vm_compute; reflexivity).
  assert (Sample.fails "boom"
            (dict_get (Sample.decision Sample.broken_reply) "action_params" (VDict []))
          = Raises "boom") as H7 by reflexivity.
  do 2 (split; [assumption|]). split; [assumption|]. split; [assumption|].
  destruct (C9_action_exception_propagates _ _ _ _ _ _ _ _ H1 H2 H3 _ _ _ H4 H5 H6 H7)
    as [st' [Hb [_ [Hrun [Hcur [Hconv _]]]]]].
  exists st'. split; [exact Hb|]. split; [exact Hrun|]. split; [exact Hcur|exact Hconv].
Defined.

(** The decision asks for input with the string "1": the line "hi" is
    read and becomes the last turn. *)
Lemma C10_witness :
  states (config (self (Sample.fresh ["hi"]))) !! current_state (self (Sample.fresh ["hi"]))
  = Some Sample.start_spec
  /\ prompt Sample.start_spec = Some "Greet the user."
  /\ snd (loop_body (Sample.says Sample.calculate_reply) (Sample.fresh ["hi"]))
     = Ok Continue
  /\ dict_get (Sample.decision Sample.calculate_reply) "require_input" (VStr "1")
     = VStr "1"
  /\ exists added new line,
       conversation_history
         (self (fst (loop_body (Sample.says Sample.calculate_reply) (Sample.fresh ["hi"]))))
       = conversation_history (self (Sample.fresh ["hi"])) ++ added
       /\ events (fst (loop_body (Sample.says Sample.calculate_reply) (Sample.fresh ["hi"])))
          = events (Sample.fresh ["hi"]) ++ new
       /\ stdin (Sample.fresh ["hi"])
          = line
              :: stdin (fst (loop_body (Sample.says Sample.calculate_reply)
                               (Sample.fresh ["hi"])))
       /\ last added = Some (Turn "user" (VStr line))
       /\ count is_input new = 1.
Proof.
  assert (states (config (self (Sample.fresh ["hi"])))
            !! current_state (self (Sample.fresh ["hi"]))
          = Some Sample.start_spec) as H1 by (vm_compute; reflexivity).
  assert (prompt Sample.start_spec = Some "Greet the user.") as H2 by reflexivity.
  assert (_call_llm (Sample.says Sample.calculate_reply) "Greet the user."
            (temperature_of Sample.start_spec) (model_of Sample.start_spec)
            (Sample.fresh ["hi"])
          = (Sample.replied (Sample.fresh ["hi"]) Sample.calculate_reply Sample.start_spec
               "Greet the user.",
             Ok (VDict (Sample.decision Sample.calculate_reply))))
    as H3 by (vm_compute; reflexivity).
  assert (loop_body (Sample.says Sample.calculate_reply) (Sample.fresh ["hi"])
          = (fst (loop_body (Sample.says Sample.calculate_reply) (Sample.fresh ["hi"])),
             Ok Continue)) as H4 by (vm_compute; reflexivity).
  do 2 (split; [assumption|]). split; [vm_compute; reflexivity|]. split; [reflexivity|].
  destruct (C10_require_input _ _ _ _ _ _ _ _ H1 H2 H3 _ H4)
    as [added [new [Hc [He [Hyes _]]]]].
  destruct (Hyes eq_refl) as [line [Hl [_ [Hlast Hcount]]]].
  exists added, new, line. repeat split; assumption.
Defined.

End Examples.

(** * What a run keeps true *)

Section Invariants.

Variable py_str : value -> string.
Variable json_loads : string -> option value.
Variable create : list event -> request -> completion.

Abbreviation _call_llm := (AIAgent._call_llm py_str json_loads create).
Abbreviation execute_action := (AIAgent.execute_action py_str).
Abbreviation transition := (AIAgent.transition py_str).
Abbreviation process_response := (AIAgent.process_response py_str).
Abbreviation loop_body := (AIAgent.loop_body py_str json_loads create).
Abbreviation main_loop := (AIAgent.main_loop py_str json_loads create).
Abbreviation run := (AIAgent.run py_str json_loads create).

Lemma ret_keeps {A} P (a : A) : M_keeps P (ret a).
Proof. by intros st. Qed.

Lemma raise_keeps {A} P e : M_keeps P (@raise A e).
Proof. by intros st. Qed.

Lemma get_self_keeps P : M_keeps P get_self.
Proof. by intros st. Qed.

Lemma bind_keeps {A B} P (m : M A) (k : A -> M B) :
  M_keeps P m -> (forall a, M_keeps P (k a)) -> M_keeps P (bind m k).
Proof.
  intros Hm Hk st HP. unfold bind. specialize (Hm st HP).
  destruct (m st) as [st' [a|e]]; simpl in *; [by apply Hk|done].
Qed.

Lemma py_get_keeps P response key dflt : M_keeps P (py_get response key dflt).
Proof. destruct response; first [apply raise_keeps|apply ret_keeps]. Qed.

Lemma for_enumerate_keeps {A} P start (l : list A) body :
  (forall i x, M_keeps P (body i x)) -> M_keeps P (for_enumerate start l body).
Proof.
  intros Hbody. revert start. induction l as [|x l IH]; intros start; simpl.
  - apply ret_keeps.
  - apply bind_keeps; [apply Hbody|intros _; apply IH].
Qed.

Lemma run_log_start st0 : run_log [] st0 st0.
Proof.
  exists [], [], []. rewrite !app_nil_r. repeat split; auto.
Qed.

(** An effect that is neither an "Agent: ..." line nor a read. *)
Lemma emit_keeps_log initial st0 ev :
  is_agent_print ev = false -> is_input ev = false ->
  M_keeps (run_log initial st0) (emit ev).
Proof.
  intros Hap Hin st [new [added [lines [He [Hc [Hl [Hr [Hb [Hu [Hi [Hcfg [Ha Hs]]]]]]]]]]]].
  exists (new ++ [ev]), added, lines. simpl. rewrite He, <- app_assoc.
  rewrite count_app, List.filter_app. unfold count at 2. simpl. rewrite Hap, Hin. simpl.
  rewrite app_nil_r. repeat split; auto. lia.
Qed.

Lemma set_current_state_keeps_log initial st0 s :
  s = "error" \/ is_Some (states (config (self st0)) !! s) ->
  M_keeps (run_log initial st0) (set_current_state s).
Proof.
  intros Hok st [new [added [lines [He [Hc [Hl [Hr [Hb [Hu [Hi [Hcfg [Ha Hs]]]]]]]]]]]].
  exists (new ++ [Ev_set_state s]), added, lines. simpl. rewrite He, <- app_assoc.
  rewrite count_app, List.filter_app. unfold count at 2. simpl.
  rewrite ?app_nil_r. repeat split; auto; try lia.
Qed.

(** A turn appended with a role other than assistant and user. *)
Lemma append_system_keeps_log initial st0 c :
  M_keeps (run_log initial st0) (append_turn "system" c).
Proof.
  intros st [new [added [lines [He [Hc [Hl [Hr [Hb [Hu [Hi [Hcfg [Ha Hs]]]]]]]]]]]].
  exists new, (added ++ [Turn "system" c]), lines. simpl. rewrite Hc, <- app_assoc.
  rewrite forallb_app, !List.filter_app, Hr. simpl. rewrite !app_nil_r.
  repeat split; auto.
Qed.

Lemma append_search_keeps_log initial st0 v :
  M_keeps (run_log initial st0) (append_search v).
Proof.
  intros st [new [added [lines [He [Hc [Hl [Hr [Hb [Hu [Hi [Hcfg [Ha Hs]]]]]]]]]]]].
  exists new, added, lines. simpl. repeat split; auto.
Qed.

Lemma record_reply_keeps_log initial st0 message :
  M_keeps (run_log initial st0) (record_reply message).
Proof.
  intros st [new [added [lines [He [Hc [Hl [Hr [Hb [Hu [Hi [Hcfg [Ha Hs]]]]]]]]]]]].
  rewrite record_reply_eq. simpl.
  exists (new ++ [Ev_print (P_agent message)]), (added ++ [Turn "assistant" message]), lines.
  rewrite He, Hc, <- !app_assoc.
  rewrite forallb_app, count_app, !List.filter_app, !length_app, Hr, Hb. simpl.
  rewrite !app_nil_r. repeat split; auto.
Qed.

Lemma handle_input_keeps_log initial st0 require_input :
  M_keeps (run_log initial st0) (handle_input require_input).
Proof.
  intros st HP. rewrite handle_input_eq. destruct (py_eq_str _ _); [|done].
  destruct (stdin st) as [|line rest] eqn:Hst; [done|].
  destruct HP as [new [added [lines [He [Hc [Hl [Hr [Hb [Hu [Hi [Hcfg [Ha Hs]]]]]]]]]]]].
  exists (new ++ [Ev_input "You: " line]), (added ++ [Turn "user" (VStr line)]),
    (lines ++ [line]).
  simpl. rewrite He, Hc, Hl, Hst, <- !app_assoc.
  rewrite forallb_app, count_app, !List.filter_app, Hr, Hu, Hi. simpl.
  unfold user_turns, input_events. rewrite !map_app, <- !app_assoc. simpl.
  unfold count at 2. simpl. rewrite ?app_nil_r. repeat split; auto; try lia.
Qed.

Lemma transition_keeps_log initial st0 sc next_state :
  M_keeps (run_log initial st0) (transition sc next_state).
Proof.
  assert (M_keeps (run_log initial st0) (reject_transition py_str next_state)) as Hreject.
  { unfold reject_transition, print.
    apply bind_keeps; [apply get_self_keeps|intros a].
    apply bind_keeps; [by apply emit_keeps_log|intros _].
    apply set_current_state_keeps_log. by left. }
  intros st HP. unfold AIAgent.transition, bind at 1, get_self.
  destruct next_state; try (by apply Hreject); try done.
  destruct (transition_ok _ _ _) eqn:Hok; [|by apply Hreject].
  apply set_current_state_keeps_log; [|done]. right.
  apply andb_true_iff in Hok as [Hok _]. apply bool_decide_eq_true in Hok.
  destruct HP as [new [added [lines [He [Hc [Hl [Hr [Hb [Hu [Hi [Hcfg _]]]]]]]]]]].
  by rewrite <- Hcfg.
Qed.

Ltac keeps_log_step :=
  first
    [ apply record_reply_keeps_log | apply handle_input_keeps_log
    | apply transition_keeps_log
    | apply bind_keeps; [|intros ?]
    | apply ret_keeps | apply raise_keeps | apply get_self_keeps | apply py_get_keeps
    | apply append_system_keeps_log | apply append_search_keeps_log
    | apply emit_keeps_log; reflexivity
    | apply for_enumerate_keeps; intros ? ?
    | match goal with
      | |- M_keeps _ (match ?x with _ => _ end) => destruct x
      end ].

Lemma call_llm_keeps_log initial st0 state_prompt temp mdl :
  M_keeps (run_log initial st0) (_call_llm state_prompt temp mdl).
Proof.
  unfold AIAgent._call_llm, print_search_history, print. repeat keeps_log_step.
Qed.

Lemma execute_action_keeps_log initial st0 response action :
  M_keeps (run_log initial st0) (execute_action response action).
Proof.
  unfold AIAgent.execute_action, in_available_actions, call_action.
  repeat keeps_log_step.
Qed.

Lemma loop_body_keeps_log initial st0 : M_keeps (run_log initial st0) loop_body.
Proof.
  unfold AIAgent.loop_body, AIAgent.process_response, print.
  repeat first [ apply call_llm_keeps_log | apply execute_action_keeps_log
               | apply record_reply_keeps_log | apply handle_input_keeps_log
               | apply transition_keeps_log | keeps_log_step ].
Qed.

Lemma main_loop_keeps_log initial st0 fuel st :
  run_log initial st0 st -> run_log initial st0 (fst (main_loop fuel st)).
Proof.
  revert st. induction fuel as [|fuel IH]; intros st HP; simpl; [done|].
  pose proof (loop_body_keeps_log initial st0 st HP) as Hbody.
  destruct (loop_body st) as [st' [[]|e]]; simpl in *; auto.
Qed.

Lemma run_keeps_log user_input fuel st :
  run_log (initial_turns user_input) st (fst (run user_input fuel st)).
Proof.
  unfold AIAgent.run, initial_turns. destruct user_input as [text|].
  - destruct (negb _).
    + apply main_loop_keeps_log. exists [], [Turn "user" (VStr text)], []. simpl.
      rewrite app_nil_r. repeat split; auto.
    + apply main_loop_keeps_log, run_log_start.
  - apply main_loop_keeps_log, run_log_start.
Qed.

(** X1. Every turn a run appends to the conversation has one of the
    roles user, assistant, system. *)
Theorem X1_appended_roles user_input fuel st :
  exists added,
    conversation_history (self (fst (run user_input fuel st)))
    = conversation_history (self st) ++ added
    /\ forallb valid_role added = true.
Proof.
  destruct (run_keeps_log user_input fuel st)
    as [new [added [lines [_ [Hc [_ [Hr _]]]]]]].
  by exists added.
Qed.

(** X2. A run never changes the configuration or the registered
    actions, and whatever it does, the current state it ends in is the
    one it started in, "error", or a state of the configuration. *)
Theorem X2_current_state_configured_or_error user_input fuel st :
  let st' := fst (run user_input fuel st) in
  config (self st') = config (self st)
  /\ available_actions (self st') = available_actions (self st)
  /\ (current_state (self st') = current_state (self st)
      \/ current_state (self st') = "error"
      \/ is_Some (states (config (self st)) !! current_state (self st'))).
Proof.
  destruct (run_keeps_log user_input fuel st)
    as [new [added [lines [_ [_ [_ [_ [_ [_ [_ [Hcfg [Ha Hs]]]]]]]]]]]].
  done.
Qed.

(** X3. Over a run, the "Agent: ..." lines printed are as many as the
    assistant turns recorded: no reply is recorded without being shown,
    or shown without being recorded. *)
Theorem X3_agent_lines_match_assistant_turns user_input fuel st :
  exists new added,
    events (fst (run user_input fuel st)) = events st ++ new
    /\ conversation_history (self (fst (run user_input fuel st)))
       = conversation_history (self st) ++ added
    /\ count is_agent_print new = length (List.filter (has_role "assistant") added).
Proof.
  destruct (run_keeps_log user_input fuel st)
    as [new [added [lines [He [Hc [_ [_ [Hb _]]]]]]]].
  by exists new, added.
Qed.

(** X4. Standard input is only consumed from the front, and the lines
    a run has read are, in order, its calls of [input("You: ")] and the
    user turns it appended, after the turn of the initial input. An
    initial input that is absent or empty gives no turn. *)
Theorem X4_lines_read_are_user_turns user_input fuel st :
  exists new added lines,
    events (fst (run user_input fuel st)) = events st ++ new
    /\ conversation_history (self (fst (run user_input fuel st)))
       = conversation_history (self st) ++ added
    /\ stdin st = lines ++ stdin (fst (run user_input fuel st))
    /\ List.filter (has_role "user") added = initial_turns user_input ++ user_turns lines
    /\ List.filter is_input new = input_events lines
    /\ initial_turns None = [] /\ initial_turns (Some "") = [].
Proof.
  destruct (run_keeps_log user_input fuel st)
    as [new [added [lines [He [Hc [Hl [_ [_ [Hu [Hi _]]]]]]]]]].
  exists new, added, lines. repeat split; auto.
Qed.

(** ** What the calls of a run account for *)

Lemma call_log_start st0 : call_log py_str st0 st0.
Proof. exists [], [], []. rewrite !app_nil_r. repeat split; auto. Qed.

Lemma emit_keeps_calls st0 ev :
  is_call ev = false -> M_keeps (call_log py_str st0) (emit ev).
Proof.
  intros Hev st [new [added [found [He [Hc [Hs [Ha [Hr [Hf Ht]]]]]]]]].
  exists (new ++ [ev]), added, found. simpl. rewrite He, <- app_assoc.
  unfold search_results, result_turns in *. rewrite forallb_app, !omap_app, Hr.
  destruct ev; try discriminate Hev; simpl; rewrite !app_nil_r; repeat split; auto.
Qed.

Lemma set_current_state_keeps_calls st0 s :
  M_keeps (call_log py_str st0) (set_current_state s).
Proof.
  intros st [new [added [found [He [Hc [Hs [Ha [Hr [Hf Ht]]]]]]]]].
  exists (new ++ [Ev_set_state s]), added, found. simpl. rewrite He, <- app_assoc.
  unfold search_results, result_turns in *. rewrite forallb_app, !omap_app, Hr.
  simpl. rewrite !app_nil_r. repeat split; auto.
Qed.

Lemma record_reply_keeps_calls st0 message :
  M_keeps (call_log py_str st0) (record_reply message).
Proof.
  intros st [new [added [found [He [Hc [Hs [Ha [Hr [Hf Ht]]]]]]]]].
  rewrite record_reply_eq. simpl.
  exists (new ++ [Ev_print (P_agent message)]), (added ++ [Turn "assistant" message]), found.
  rewrite He, Hc, <- !app_assoc.
  unfold search_results, result_turns in *.
  rewrite forallb_app, !omap_app, List.filter_app, Hr, Ht. simpl.
  rewrite !app_nil_r. repeat split; auto.
Qed.

Lemma handle_input_keeps_calls st0 require_input :
  M_keeps (call_log py_str st0) (handle_input require_input).
Proof.
  intros st HP. rewrite handle_input_eq. destruct (py_eq_str _ _); [|done].
  destruct (stdin st) as [|line rest] eqn:Hst; [done|].
  destruct HP as [new [added [found [He [Hc [Hs [Ha [Hr [Hf Ht]]]]]]]]].
  exists (new ++ [Ev_input "You: " line]), (added ++ [Turn "user" (VStr line)]), found.
  simpl. rewrite He, Hc, <- !app_assoc.
  unfold search_results, result_turns in *.
  rewrite forallb_app, !omap_app, List.filter_app, Hr, Ht. simpl.
  rewrite !app_nil_r. repeat split; auto.
Qed.

Lemma execute_action_keeps_calls st0 response action :
  M_keeps (call_log py_str st0) (execute_action response action).
Proof.
  intros st HP.
  destruct (truthy action) eqn:Htr.
  2:{ by rewrite execute_action_skip by auto. }
  destruct (hashable action) eqn:Hh.
  2:{ by destruct (execute_action_unhashable py_str response _ st Htr Hh) as [msg ->]. }
  destruct action as [| | | |name| |];
    try (by rewrite execute_action_skip by (right; right; split; [done|congruence]));
    try discriminate Hh.
  destruct (available_actions (self st) !! name) as [f|] eqn:Hreg.
  2:{ by rewrite execute_action_skip by eauto. }
  destruct response as [| | | | | |d].
  7:{ rewrite (execute_action_call py_str d name f st (proj1 (truthy_str name) Htr) Hreg).
      destruct HP as [new [added [found [He [Hc [Hs [Ha [Hr [Hf Ht]]]]]]]]].
      rewrite Ha in Hreg. pose proof Hs as Hs'. rewrite Hf in Hs'.
      assert (forallb (registered_call (available_actions (self st0)))
                (new ++ [Ev_call name (dict_get d "action_params" (VDict []))]) = true)
        as Hr'.
      { rewrite forallb_app, Hr. simpl. rewrite Hreg.
        rewrite bool_decide_eq_true_2 by eauto. reflexivity. }
      destruct (f _) as [res|e] eqn:Hres; [destruct (truthy res) eqn:Hres';
        [destruct (String.eqb name "search") eqn:Hname|]|]; simpl.
      - exists (new ++ [Ev_call name (dict_get d "action_params" (VDict []))]), added,
          (found ++ [res]).
        rewrite He, Hs, <- !app_assoc. unfold search_results, result_turns in *.
        rewrite !omap_app, Ht, Hf. simpl. rewrite Hreg, Hres, Hres', Hname. simpl.
        rewrite !app_nil_r. repeat split; auto.
      - exists (new ++ [Ev_call name (dict_get d "action_params" (VDict []))]),
          (added ++ [Turn "system" (VStr ("Action result: " +:+ py_str res))]), found.
        rewrite He, Hc, <- !app_assoc. unfold search_results, result_turns in *.
        rewrite !omap_app, List.filter_app, Ht, Hf. simpl.
        rewrite Hreg, Hres, Hres', Hname. simpl.
        rewrite !app_nil_r. repeat split; auto.
      - exists (new ++ [Ev_call name (dict_get d "action_params" (VDict []))]), added, found.
        rewrite He, <- !app_assoc. unfold search_results, result_turns in *.
        rewrite !omap_app, Ht, Hf. simpl. rewrite Hreg, Hres, Hres'. simpl.
        rewrite !app_nil_r. repeat split; auto.
      - exists (new ++ [Ev_call name (dict_get d "action_params" (VDict []))]), added, found.
        rewrite He, <- !app_assoc. unfold search_results, result_turns in *.
        rewrite !omap_app, Ht, Hf. simpl. rewrite Hreg, Hres. simpl.
        rewrite !app_nil_r. repeat split; auto. }
  all: unfold AIAgent.execute_action, in_available_actions, bind, get_self, ret;
    rewrite Htr, bool_decide_eq_true_2 by (rewrite Hreg; eauto); done.
Qed.

Ltac keeps_calls_step :=
  first
    [ apply record_reply_keeps_calls | apply handle_input_keeps_calls
    | apply execute_action_keeps_calls | apply set_current_state_keeps_calls
    | apply bind_keeps; [|intros ?]
    | apply ret_keeps | apply raise_keeps | apply get_self_keeps | apply py_get_keeps
    | apply emit_keeps_calls; reflexivity
    | apply for_enumerate_keeps; intros ? ?
    | match goal with
      | |- M_keeps _ (match ?x with _ => _ end) => destruct x
      | |- M_keeps _ (if ?x then _ else _) => destruct x
      end ].

Lemma call_llm_keeps_calls st0 state_prompt temp mdl :
  M_keeps (call_log py_str st0) (_call_llm state_prompt temp mdl).
Proof.
  unfold AIAgent._call_llm, print_search_history, print.
  apply bind_keeps; [apply get_self_keeps|intros a].
  apply bind_keeps; [repeat keeps_calls_step|intros _].
  intros st HP. by apply (emit_keeps_calls st0 (Ev_create _)).
Qed.

Lemma loop_body_keeps_calls st0 : M_keeps (call_log py_str st0) loop_body.
Proof.
  unfold AIAgent.loop_body, AIAgent.process_response, AIAgent.transition,
    AIAgent.reject_transition, print.
  repeat first [ apply call_llm_keeps_calls | keeps_calls_step ].
Qed.

Lemma run_keeps_calls user_input fuel st :
  call_log py_str st (fst (run user_input fuel st)).
Proof.
  assert (forall st1, call_log py_str st st1 ->
                      call_log py_str st (fst (main_loop fuel st1))) as Hloop.
  { induction fuel as [|n IH]; intros st1 HP; simpl; [done|].
    pose proof (loop_body_keeps_calls st st1 HP) as Hbody.
    destruct (loop_body st1) as [st' [[]|e]]; simpl in *; auto. }
  unfold AIAgent.run. destruct user_input as [text|]; [destruct (negb _)|];
    apply Hloop; try apply call_log_start.
  exists [], [Turn "user" (VStr text)], []. simpl. rewrite !app_nil_r.
  repeat split; auto.
Qed.

(** X16. A run only ever calls actions that are registered; an agent
    fresh from [init], which has none, makes no call at all, whatever the
    model answers. *)
Theorem X16_only_registered_actions_called user_input fuel st :
  exists new,
    events (fst (run user_input fuel st)) = events st ++ new
    /\ forallb (registered_call (available_actions (self st))) new = true
    /\ (forall cfg, self st = init cfg -> count is_call new = 0).
Proof.
  destruct (run_keeps_calls user_input fuel st)
    as [new [added [found [He [_ [_ [_ [Hr _]]]]]]]].
  exists new. split; [done|]. split; [done|].
  intros cfg Hinit. rewrite Hinit in Hr. simpl in Hr. clear He.
  unfold count. induction new as [|ev new IH]; [done|].
  simpl in Hr. apply andb_true_iff in Hr as [Hev Hr].
  destruct ev; simpl; auto.
  simpl in Hev. apply bool_decide_eq_true in Hev as [f Hf].
  by rewrite lookup_empty in Hf.
Qed.

(** X17. Over a run the search history grows by exactly the truthy
    results that the calls of "search" returned, in the order of the
    calls: it is a function of the calls made. *)
Theorem X17_search_history_is_search_results user_input fuel st :
  exists new,
    events (fst (run user_input fuel st)) = events st ++ new
    /\ search_history (self (fst (run user_input fuel st)))
       = search_history (self st) ++ search_results (available_actions (self st)) new.
Proof.
  destruct (run_keeps_calls user_input fuel st)
    as [new [added [found [He [_ [Hs [_ [_ [Hf _]]]]]]]]].
  exists new. by rewrite Hs, Hf.
Qed.

(** X18. Over a run the system turns appended to the conversation are
    exactly "Action result: <result>" for the truthy results that the
    calls of actions other than "search" returned, in the order of the
    calls. *)
Theorem X18_system_turns_are_action_results user_input fuel st :
  exists new added,
    events (fst (run user_input fuel st)) = events st ++ new
    /\ conversation_history (self (fst (run user_input fuel st)))
       = conversation_history (self st) ++ added
    /\ List.filter (has_role "system") added
       = result_turns py_str (available_actions (self st)) new.
Proof.
  destruct (run_keeps_calls user_input fuel st)
    as [new [added [found [He [Hc [_ [_ [_ [_ Ht]]]]]]]]].
  by exists new, added.
Qed.

End Invariants.

(** * Edge cases of a pass *)

Section Edges.

Variable py_str : value -> string.
Variable json_loads : string -> option value.
Variable create : list event -> request -> completion.

Abbreviation _call_llm := (AIAgent._call_llm py_str json_loads create).
Abbreviation execute_action := (AIAgent.execute_action py_str).
Abbreviation transition := (AIAgent.transition py_str).
Abbreviation loop_body := (AIAgent.loop_body py_str json_loads create).
Abbreviation main_loop := (AIAgent.main_loop py_str json_loads create).
Abbreviation run := (AIAgent.run py_str json_loads create).
Abbreviation request_of := (AIAgent.request_of py_str).
Abbreviation response_of := (AIAgent.response_of json_loads).
Abbreviation process_response := (AIAgent.process_response py_str).

Abbreviation action_of d := (dict_get d "action" (VStr "")).
Abbreviation message_of d := (dict_get d "message" (VStr "")).
Abbreviation next_state_of d := (dict_get d "next_state" (VStr "")).
Abbreviation require_input_of d := (dict_get d "require_input" (VStr "1")).
Abbreviation action_params_of d := (dict_get d "action_params" (VDict [])).

(** A pass that ends by [break] or by an exception ends the run. *)
Lemma main_loop_ends st st' :
  (loop_body st = (st', Ok Break) -> forall fuel, main_loop (S fuel) st = (st', Returned))
  /\ (forall e, loop_body st = (st', Raise e) ->
      forall fuel, main_loop (S fuel) st = (st', Raised e)).
Proof. split; [intros Hb fuel|intros e Hb fuel]; simpl; by rewrite Hb. Qed.

Section PassEdges.

Variables (st st1 : run_state) (sc : state_config) (state_prompt : string).
Variable d : list (string * value).

Hypothesis Hstate : states (config (self st)) !! current_state (self st) = Some sc.
Hypothesis Hprompt : prompt sc = Some state_prompt.
Hypothesis Hreply :
  _call_llm state_prompt (temperature_of sc) (model_of sc) st = (st1, Ok (VDict d)).

(** X5. An action that is not dispatched: the decision's action is
    empty (or otherwise falsy), names nothing that is registered, or is
    a number, a boolean or null. The pass calls no action, and apart
    from the assistant turn (and the line read at its end) both
    histories stay as they were: an unregistered action is no error. *)
Theorem X5_unregistered_action_skipped :
  truthy (action_of d) = false
  \/ (exists name, action_of d = VStr name /\ available_actions (self st) !! name = None)
  \/ (hashable (action_of d) = true /\ forall name, action_of d <> VStr name) ->
  exists st' r users new,
    loop_body st = (st', r)
    /\ events st' = events st1 ++ [Ev_print (P_agent (message_of d))] ++ new
    /\ count is_call new = 0
    /\ search_history (self st') = search_history (self st)
    /\ conversation_history (self st')
       = conversation_history (self st) ++ [Turn "assistant" (message_of d)] ++ users
    /\ (users = [] \/ exists line, users = [Turn "user" (VStr line)]).
Proof.
  intros Hskip.
  destruct (reply_frame _ _ _ _ _ _ _ _ Hreply) as [Hself [Hstdin _]].
  assert (execute_action (VDict d) (action_of d) (fst (record_reply (message_of d) st1))
          = (fst (record_reply (message_of d) st1), Ok tt)) as Hexec.
  { apply execute_action_skip. simpl. by rewrite Hself. }
  destruct (pass_tail _ _ _ _ _ _ _ _ Hstate Hprompt Hreply _ _ Hexec)
    as [st' [r [users [new [Hb [Hs [Hc [He [Hu [_ [_ [_ [Hcalls _]]]]]]]]]]]]].
  simpl in Hs, Hc, He. rewrite Hself in Hs, Hc.
  exists st', r, users, new. split; [done|].
  split; [by rewrite He, <- app_assoc|]. split; [done|]. split; [done|].
  split; [by rewrite Hc, <- app_assoc|].
  destruct Hu as [[-> _]|[line [-> _]]]; eauto.
Qed.

(** X6. An action that cannot be hashed: a non-empty JSON array or
    object as the decision's action makes [action in
    self.available_actions] raise TypeError. The exception leaves [run]
    when the reply has been recorded and printed and nothing else has
    been done: no call, no transition, the current state as it was. *)
Theorem X6_unhashable_action_raises :
  truthy (action_of d) = true -> hashable (action_of d) = false ->
  exists msg st',
    loop_body st = (st', Raise (TypeError msg))
    /\ (forall fuel, main_loop (S fuel) st = (st', Raised (TypeError msg)))
    /\ events st' = events st1 ++ [Ev_print (P_agent (message_of d))]
    /\ conversation_history (self st')
       = conversation_history (self st) ++ [Turn "assistant" (message_of d)]
    /\ search_history (self st') = search_history (self st)
    /\ current_state (self st') = current_state (self st).
Proof.
  intros Ht Hh.
  destruct (reply_frame _ _ _ _ _ _ _ _ Hreply) as [Hself _].
  destruct (execute_action_unhashable py_str (VDict d) _
              (fst (record_reply (message_of d) st1)) Ht Hh) as [msg Hexec].
  pose proof (loop_body_phases _ _ _ _ _ _ _ _ Hstate Hprompt Hreply) as Hbody.
  rewrite Hexec in Hbody.
  exists msg, (fst (record_reply (message_of d) st1)). split; [done|].
  split; [by apply main_loop_ends|]. simpl. rewrite Hself. done.
Qed.

(** X7. A next_state that cannot be hashed: a JSON array or object, empty
    or not, makes [next_state in self.config["states"]] raise TypeError
    once the dispatch has returned. The exception leaves [run]; no
    transition has been decided and the current state is as it was. *)
Theorem X7_unhashable_next_state_raises st3 :
  execute_action (VDict d) (action_of d) (fst (record_reply (message_of d) st1))
  = (st3, Ok tt) ->
  hashable (next_state_of d) = false ->
  exists msg,
    loop_body st = (st3, Raise (TypeError msg))
    /\ (forall fuel, main_loop (S fuel) st = (st3, Raised (TypeError msg)))
    /\ current_state (self st3) = current_state (self st)
    /\ count is_set_state (events st3) = count is_set_state (events st).
Proof.
  intros Hexec Hh.
  destruct (reply_frame _ _ _ _ _ _ _ _ Hreply) as [Hself [_ Hev]].
  pose proof (loop_body_phases _ _ _ _ _ _ _ _ Hstate Hprompt Hreply) as Hbody.
  rewrite Hexec in Hbody.
  pose proof (execute_action_frame py_str (VDict d) (action_of d)
                (fst (record_reply (message_of d) st1))) as Hframe.
  rewrite Hexec in Hframe. simpl in Hframe. rewrite Hself in Hframe.
  destruct Hframe as [_ [Hcur _]].
  destruct (execute_action_delta py_str d (action_of d)
              (fst (record_reply (message_of d) st1)))
    as [st3' [r3 [sys [srch [calls [Hexec' [_ [_ [He3 [_ [_ Hcalls]]]]]]]]]]].
  rewrite Hexec in Hexec'. injection Hexec' as <- <-. simpl in He3.
  assert (count is_set_state (events st3) = count is_set_state (events st)) as Hcount.
  { rewrite He3, Hev, !count_app.
    rewrite (count_search_history_events _ _ diagnostic_not_set_state).
    destruct Hcalls as [->|[n [ps ->]]]; unfold count; simpl; lia. }
  destruct (next_state_of d) eqn:Hns; try discriminate Hh;
    eexists; (split; [exact Hbody|]); (split; [by apply main_loop_ends|]); done.
Qed.

(** X10. End of input: when the decision asks for input and standard
    input is exhausted, [input] raises EOFError and the exception leaves
    [run]. By then the transition has been decided and applied, and no
    user turn is added. *)
Theorem X10_end_of_input st3 :
  execute_action (VDict d) (action_of d) (fst (record_reply (message_of d) st1))
  = (st3, Ok tt) ->
  hashable (next_state_of d) = true ->
  is_terminal (next_state_of d) = false ->
  py_eq_str (require_input_of d) "1" = true ->
  stdin st = [] ->
  exists st4,
    transition sc (next_state_of d) st3 = (st4, Ok tt)
    /\ loop_body st = (st4, Raise EOFError)
    /\ (forall fuel, main_loop (S fuel) st = (st4, Raised EOFError))
    /\ count is_set_state (events st4) = S (count is_set_state (events st3))
    /\ conversation_history (self st4) = conversation_history (self st3).
Proof.
  intros Hexec Hh Hterm Hreq Heof.
  destruct (reply_frame _ _ _ _ _ _ _ _ Hreply) as [_ [Hstdin _]].
  pose proof (loop_body_phases _ _ _ _ _ _ _ _ Hstate Hprompt Hreply) as Hbody.
  pose proof (execute_action_frame py_str (VDict d) (action_of d)
                (fst (record_reply (message_of d) st1))) as Hframe.
  rewrite Hexec in Hframe. simpl in Hframe. destruct Hframe as [_ [_ [_ Hstdin3]]].
  destruct (transition_cases py_str sc _ st3 Hh)
    as [st4 [Htr [_ [Hc [_ [_ [Hstdin4 Hcases]]]]]]].
  rewrite Hexec, Htr, Hterm, handle_input_eq, Hreq in Hbody.
  rewrite Hstdin4, Hstdin3, Hstdin, Heof in Hbody.
  exists st4. split; [done|]. split; [done|]. split; [by apply main_loop_ends|].
  split; [|done].
  destruct Hcases as [[s [_ [_ [_ ->]]]]|[_ [_ ->]]];
    rewrite count_app; unfold count; simpl; lia.
Qed.

(** X11. A pass whose decision is terminal never reads standard
    input, whatever its require_input says and however the pass ends. *)
Theorem X11_terminal_pass_reads_nothing :
  is_terminal (next_state_of d) = true ->
  exists st' r new,
    loop_body st = (st', r)
    /\ stdin st' = stdin st
    /\ events st' = events st ++ new
    /\ count is_input new = 0.
Proof.
  intros Hterm.
  destruct (reply_frame _ _ _ _ _ _ _ _ Hreply) as [_ [Hstdin Hev]].
  pose proof (loop_body_phases _ _ _ _ _ _ _ _ Hstate Hprompt Hreply) as Hbody.
  pose proof (execute_action_frame py_str (VDict d) (action_of d)
                (fst (record_reply (message_of d) st1))) as Hframe.
  destruct (execute_action_delta py_str d (action_of d)
              (fst (record_reply (message_of d) st1)))
    as [st3 [r3 [sys [srch [calls [Hexec [_ [_ [He3 [_ [_ Hcalls]]]]]]]]]]].
  rewrite Hexec in Hbody, Hframe. simpl in Hframe, He3.
  destruct Hframe as [_ [_ [_ Hstdin3]]]. rewrite Hstdin in Hstdin3.
  assert (count is_input
            (search_history_events (search_history (self st))
               ++ [Ev_create (request_of (self st) state_prompt (temperature_of sc)
                                (model_of sc))]
               ++ [Ev_print (P_agent (message_of d))] ++ calls) = 0) as Hcount.
  { rewrite !count_app, (count_search_history_events _ _ diagnostic_not_input).
    destruct Hcalls as [->|[n [ps ->]]]; reflexivity. }
  assert (events st3
          = events st
              ++ (search_history_events (search_history (self st))
                    ++ [Ev_create (request_of (self st) state_prompt (temperature_of sc)
                                     (model_of sc))]
                    ++ [Ev_print (P_agent (message_of d))] ++ calls)) as He.
  { by rewrite He3, Hev, <- !app_assoc. }
  destruct r3 as [[]|e].
  - assert (hashable (next_state_of d) = true) as Hh
      by (destruct (is_terminal_str _ Hterm) as [->| ->]; reflexivity).
    destruct (transition_cases py_str sc _ st3 Hh)
      as [st4 [Htr [_ [_ [_ [_ [Hstdin4 Hcases]]]]]]].
    rewrite Htr, Hterm in Hbody.
    destruct Hcases as [[s [_ [_ [_ He4]]]]|[_ [_ He4]]];
      eexists st4, _, _; (split; [exact Hbody|]);
      (split; [by rewrite Hstdin4|]); rewrite He4, He, <- app_assoc;
      (split; [reflexivity|]); rewrite count_app, Hcount; reflexivity.
  - eexists st3, _, _. split; [exact Hbody|]. split; [done|]. split; [exact He|done].
Qed.

(** Where the result of a dispatch goes: nowhere, to the search history,
    or to the conversation. *)
Lemma execute_action_routes action st0 :
  exists st' r sys srch,
    execute_action (VDict d) action st0 = (st', r)
    /\ conversation_history (self st') = conversation_history (self st0) ++ sys
    /\ search_history (self st') = search_history (self st0) ++ srch
    /\ ((sys = [] /\ srch = [])
        \/ (exists v, action = VStr "search" /\ r = Ok tt /\ truthy v = true
                      /\ sys = [] /\ srch = [v])
        \/ (exists v, action <> VStr "search" /\ r = Ok tt /\ truthy v = true
                      /\ sys = [Turn "system" (VStr ("Action result: " +:+ py_str v))]
                      /\ srch = [])).
Proof.
  assert (forall r : result unit, exists st' r' sys srch,
             (st0, r) = (st', r')
             /\ conversation_history (self st') = conversation_history (self st0) ++ sys
             /\ search_history (self st') = search_history (self st0) ++ srch
             /\ ((sys = [] /\ srch = [])
                 \/ (exists v, action = VStr "search" /\ r' = Ok tt /\ truthy v = true
                               /\ sys = [] /\ srch = [v])
                 \/ (exists v, action <> VStr "search" /\ r' = Ok tt /\ truthy v = true
                               /\ sys = [Turn "system"
                                           (VStr ("Action result: " +:+ py_str v))]
                               /\ srch = [])))
    as Hsame.
  { intros r. exists st0, r, [], []. rewrite !app_nil_r. repeat split; auto. }
  destruct (truthy action) eqn:Ht.
  2:{ rewrite execute_action_skip by auto. apply Hsame. }
  destruct (hashable action) eqn:Hh.
  2:{ destruct (execute_action_unhashable py_str (VDict d) _ st0 Ht Hh) as [msg ->].
      apply Hsame. }
  destruct action as [| | | |name| |];
    try (rewrite execute_action_skip by (right; right; split; [done|congruence]);
         apply Hsame);
    try discriminate Hh.
  destruct (available_actions (self st0) !! name) as [f|] eqn:Hf.
  2:{ rewrite execute_action_skip by eauto. apply Hsame. }
  rewrite (execute_action_call py_str d name f st0 (proj1 (truthy_str name) Ht) Hf).
  destruct (f _) as [res|e].
  - destruct (truthy res) eqn:Hres.
    + destruct (String.eqb_spec name "search") as [->|Hne].
      * eexists _, _, [], [res]. split; [reflexivity|]. simpl.
        rewrite app_nil_r. repeat split; auto. right. left. by exists res.
      * eexists _, _, [_], []. split; [reflexivity|]. simpl.
        rewrite app_nil_r. repeat split; auto. right. right. exists res.
        repeat split; auto. congruence.
    + eexists _, _, [], []. split; [reflexivity|]. simpl.
      rewrite !app_nil_r. repeat split; auto.
  - eexists _, _, [], []. split; [reflexivity|]. simpl.
    rewrite !app_nil_r. repeat split; auto.
Qed.

(** X14. What one pass adds to the two histories, in order: the
    assistant turn; then at most one action result, which goes either
    to the search history (the action being "search") or to the
    conversation as the system turn "Action result: ..." (any other
    action), never to both; then at most the one line read, as a user
    turn. *)
Theorem X14_one_result_one_history :
  exists st' r sys srch users,
    loop_body st = (st', r)
    /\ conversation_history (self st')
       = conversation_history (self st)
           ++ [Turn "assistant" (message_of d)] ++ sys ++ users
    /\ search_history (self st') = search_history (self st) ++ srch
    /\ (users = [] \/ exists line, users = [Turn "user" (VStr line)])
    /\ ((sys = [] /\ srch = [])
        \/ (exists v, action_of d = VStr "search" /\ truthy v = true
                      /\ sys = [] /\ srch = [v])
        \/ (exists v, action_of d <> VStr "search" /\ truthy v = true
                      /\ sys = [Turn "system" (VStr ("Action result: " +:+ py_str v))]
                      /\ srch = [])).
Proof.
  destruct (reply_frame _ _ _ _ _ _ _ _ Hreply) as [Hself _].
  destruct (execute_action_routes (action_of d) (fst (record_reply (message_of d) st1)))
    as [st3 [r3 [sys [srch [Hexec [Hc3 [Hs3 Hroute]]]]]]].
  destruct (pass_tail _ _ _ _ _ _ _ _ Hstate Hprompt Hreply _ _ Hexec)
    as [st' [r [users [new [Hb [Hs [Hc [_ [Hu _]]]]]]]]].
  simpl in Hc3, Hs3. rewrite Hself in Hc3, Hs3.
  exists st', r, sys, srch, users. split; [done|].
  split; [by rewrite Hc, Hc3, <- !app_assoc|]. split; [by rewrite Hs, Hs3|].
  split; [destruct Hu as [[-> _]|[line [-> _]]]; eauto|].
  destruct Hroute as [?|[[v [? [_ ?]]]|[v [? [_ ?]]]]]; eauto.
Qed.

End PassEdges.

(** X8. A reply that is valid JSON but not an object (an array, a string,
    a number, true, false, null): [response.get] raises AttributeError
    and the exception leaves [run]. The model has been called once;
    nothing has been recorded or shown, and the agent is as it was. *)
Theorem X8_reply_not_an_object st sc state_prompt st1 response :
  states (config (self st)) !! current_state (self st) = Some sc ->
  prompt sc = Some state_prompt ->
  _call_llm state_prompt (temperature_of sc) (model_of sc) st = (st1, Ok response) ->
  (forall d, response <> VDict d) ->
  loop_body st = (st1, Raise (AttributeError "get"))
  /\ (forall fuel, main_loop (S fuel) st = (st1, Raised (AttributeError "get")))
  /\ self st1 = self st
  /\ stdin st1 = stdin st
  /\ count is_create (events st1) = S (count is_create (events st))
  /\ count is_agent_print (events st1) = count is_agent_print (events st).
Proof.
  intros Hsc Hp Hreply Hnd.
  assert (loop_body st = (st1, Raise (AttributeError "get"))) as Hbody.
  { rewrite (loop_body_reply _ _ _ _ _ _ _ _ Hsc Hp Hreply).
    by apply process_response_not_dict. }
  split; [done|]. split; [by apply main_loop_ends|].
  rewrite call_llm_eq in Hreply. injection Hreply as <- _. simpl.
  split; [done|]. split; [done|].
  rewrite !count_app.
  rewrite (count_search_history_events _ _ diagnostic_not_create),
    (count_search_history_events _ _ diagnostic_not_agent_print).
  unfold count. simpl. lia.
Qed.

(** X9. A configured state without a prompt: [state_config["prompt"]]
    raises KeyError and the exception leaves [run] before anything has
    been done: no model call, no output, no change to the agent. *)
Theorem X9_state_without_prompt st sc :
  states (config (self st)) !! current_state (self st) = Some sc ->
  table_truthy sc = true ->
  prompt sc = None ->
  loop_body st = (st, Raise (KeyError "prompt"))
  /\ forall user_input fuel,
       run user_input (S fuel) st
       = (fst (run user_input 0 st), Raised (KeyError "prompt")).
Proof.
  intros Hsc Ht Hp.
  assert (forall st0, config (self st0) = config (self st) ->
                      current_state (self st0) = current_state (self st) ->
                      loop_body st0 = (st0, Raise (KeyError "prompt"))) as Hbody.
  { intros st0 Hcfg Hcur. unfold AIAgent.loop_body, bind, get_self.
    rewrite Hcfg, Hcur, Hsc, Ht, Hp. reflexivity. }
  split; [by apply Hbody|].
  intros ui fuel. unfold AIAgent.run.
  destruct ui as [text|]; [destruct (negb _)|]; cbn [AIAgent.main_loop fst];
    rewrite Hbody; try done.
Qed.

Lemma loop_body_empty_table st sc :
  states (config (self st)) !! current_state (self st) = Some sc ->
  table_truthy sc = false ->
  loop_body st
  = (RunState (self st) (stdin st)
       (events st ++ [Ev_print (P_error (state_not_found_msg (current_state (self st))))]),
     Ok Break).
Proof.
  intros Hsc Ht. unfold AIAgent.loop_body, bind, get_self. rewrite Hsc, Ht. reflexivity.
Qed.

Lemma loop_body_no_prompt st sc :
  states (config (self st)) !! current_state (self st) = Some sc ->
  table_truthy sc = true -> prompt sc = None ->
  loop_body st = (st, Raise (KeyError "prompt")).
Proof.
  intros Hsc Ht Hp. unfold AIAgent.loop_body, bind, get_self. rewrite Hsc, Ht, Hp.
  reflexivity.
Qed.

(** X12. A configured state whose table is empty is treated like a
    state that is not configured ([if not state_config]): the pass prints
    the not-found error and the run returns, without a model call and
    without touching the agent. *)
Theorem X12_empty_table_is_missing st sc :
  states (config (self st)) !! current_state (self st) = Some sc ->
  table_truthy sc = false ->
  exists st',
    loop_body st = (st', Ok Break)
    /\ (forall fuel, main_loop (S fuel) st = (st', Returned))
    /\ events st'
       = events st ++ [Ev_print (P_error (state_not_found_msg (current_state (self st))))]
    /\ self st' = self st
    /\ stdin st' = stdin st.
Proof.
  intros Hsc Ht. pose proof (loop_body_empty_table st sc Hsc Ht) as Hb.
  eexists. split; [exact Hb|]. split; [by apply main_loop_ends|]. done.
Qed.

(** What any pass does, in numbers. *)
Lemma pass_bounds st :
  exists st' r new,
    loop_body st = (st', r)
    /\ events st' = events st ++ new
    /\ count is_create new <= 1
    /\ count is_call new <= count is_create new
    /\ (r = Ok Continue ->
        count is_create new = 1 /\ count is_agent_print new = 1
        /\ count is_set_state new = 1).
Proof.
  destruct (states (config (self st)) !! current_state (self st)) as [sc|] eqn:Hsc.
  2:{ eexists _, _, [_]. split; [by apply loop_body_not_found|].
      split; [reflexivity|]. split; [unfold count; simpl; lia|].
      split; [unfold count; simpl; lia|discriminate]. }
  destruct (table_truthy sc) eqn:Ht.
  2:{ eexists _, _, [_]. split; [by apply (loop_body_empty_table st sc)|].
      split; [reflexivity|]. split; [unfold count; simpl; lia|].
      split; [unfold count; simpl; lia|discriminate]. }
  destruct (prompt sc) as [state_prompt|] eqn:Hp.
  2:{ exists st, (Raise (KeyError "prompt")), []. split; [by apply (loop_body_no_prompt st sc)|].
      split; [by rewrite app_nil_r|]. split; [unfold count; simpl; lia|].
      split; [unfold count; simpl; lia|discriminate]. }
  pose proof (call_llm_eq py_str json_loads create state_prompt (temperature_of sc)
                (model_of sc) st) as Hreply.
  cbv zeta in Hreply. set (response := response_of _) in Hreply.
  set (st1 := RunState _ _ _) in Hreply.
  assert ((exists d, response = VDict d) \/ forall d, response <> VDict d) as [[d Hd]|Hnd]
    by (destruct response; eauto; right; discriminate).
  - rewrite Hd in Hreply.
    destruct (pass_counts _ _ _ _ _ _ _ _ Hsc Hp Hreply)
      as [st' [r [new [added [Hb [He [_ [Hcr [Hca [_ [Hap [_ Hok]]]]]]]]]]]].
    exists st', r, new. split; [done|]. split; [done|]. split; [lia|]. split; [lia|].
    intros Hr. split; [done|]. split; [unfold count; by rewrite Hap|by eapply Hok].
  - exists st1, (Raise (AttributeError "get")),
      (search_history_events (search_history (self st))
         ++ [Ev_create (request_of (self st) state_prompt (temperature_of sc) (model_of sc))]).
    split; [rewrite (loop_body_reply _ _ _ _ _ _ _ _ Hsc Hp Hreply);
            by apply process_response_not_dict|].
    split; [subst st1; simpl; by rewrite <- app_assoc|].
    rewrite !count_app, (count_search_history_events _ _ diagnostic_not_create),
      (count_search_history_events _ _ diagnostic_not_call).
    split; [unfold count; simpl; lia|]. split; [unfold count; simpl; lia|discriminate].
Qed.

(** X15. One model call per pass. A run allowed [fuel] passes makes at
    most [fuel] chat-completion calls and never more action calls than
    chat-completion calls; and when it is still going after them, it has
    made exactly [fuel] chat-completion calls, printed exactly [fuel]
    replies and decided exactly [fuel] transitions. *)
Theorem X15_one_call_per_pass fuel st :
  exists st' o new,
    main_loop fuel st = (st', o)
    /\ events st' = events st ++ new
    /\ count is_create new <= fuel
    /\ count is_call new <= count is_create new
    /\ (o = Running ->
        count is_create new = fuel /\ count is_agent_print new = fuel
        /\ count is_set_state new = fuel).
Proof.
  revert st. induction fuel as [|fuel IH]; intros st.
  - exists st, Running, []. rewrite app_nil_r. repeat split; auto.
  - destruct (pass_bounds st) as [st1 [r [new1 [Hb [He [Hle [Hca Hcont]]]]]]].
    simpl. rewrite Hb. destruct r as [[]|e].
    + destruct (IH st1) as [st' [o [new [Hloop [He' [Hle' [Hca' Hrun]]]]]]].
      destruct (Hcont eq_refl) as [Hc1 [Ha1 Hs1]].
      exists st', o, (new1 ++ new). split; [done|].
      split; [by rewrite He', He, <- app_assoc|]. rewrite !count_app.
      split; [lia|]. split; [lia|]. intros Ho. destruct (Hrun Ho) as [? [? ?]]. lia.
    + exists st1, Returned, new1. repeat split; auto; try lia; discriminate.
    + exists st1, (Raised e), new1. repeat split; auto; try lia; discriminate.
Qed.

(** A pass on one of the canned decisions of [_call_llm]. *)
Lemma canned_decision_pass sc m st1 :
  available_actions (self st1) !! "error" = None ->
  exists st' r new,
    process_response sc
      (VDict [("action", VStr "error"); ("message", VStr m);
              ("next_state", VStr "error"); ("require_input", VStr "1")]) st1
    = (st', r)
    /\ events st' = events st1 ++ new
    /\ count is_create new = 0
    /\ count is_call new = 0
    /\ current_state (self st') = "error"
    /\ search_history (self st') = search_history (self st1)
    /\ match stdin st1 with
       | [] =>
           r = Raise EOFError
           /\ conversation_history (self st')
              = conversation_history (self st1) ++ [Turn "assistant" (VStr m)]
       | line :: rest =>
           r = Ok Continue
           /\ stdin st' = rest
           /\ conversation_history (self st')
              = conversation_history (self st1)
                  ++ [Turn "assistant" (VStr m); Turn "user" (VStr line)]
       end.
Proof.
  intros Hreg. destruct st1 as [a lines evs]. simpl in Hreg.
  unfold AIAgent.process_response, AIAgent.execute_action, AIAgent.in_available_actions,
    AIAgent.transition, AIAgent.reject_transition, AIAgent.handle_input, AIAgent.record_reply,
    AIAgent.is_terminal, py_get, bind, get_self, ret, print, emit, append_turn,
    set_current_state, input.
  simpl. rewrite Hreg. rewrite bool_decide_eq_false_2 by (intros [? ?]; discriminate).
  destruct (transition_ok _ _ _); destruct lines as [|line rest]; simpl;
    eexists _, _, _; (split; [reflexivity|]); simpl;
    (split; [rewrite <- ?app_assoc; reflexivity|]);
    (split; [reflexivity|]); (split; [reflexivity|]); rewrite <- ?app_assoc; auto.
Qed.

(** X13. A pass whose model call fails (transport error, no content, or
    text that is not JSON) and for which no action named "error" is
    registered: nothing is dispatched, the message recorded as the
    assistant turn is the apology or "Error occurred: ...", the current
    state becomes "error" whether or not the configuration allows that
    transition, and a line is asked for; at the end of input the pass
    ends in [EOFError], with the state already changed. *)
Theorem X13_failed_call_enters_error st sc state_prompt :
  states (config (self st)) !! current_state (self st) = Some sc ->
  prompt sc = Some state_prompt ->
  (let answer :=
     create (events st ++ search_history_events (search_history (self st)))
            (request_of (self st) state_prompt (temperature_of sc) (model_of sc)) in
   (exists e, answer = ApiError e) \/ answer = ApiContent None
   \/ (exists text, answer = ApiContent (Some text) /\ json_loads text = None)) ->
  available_actions (self st) !! "error" = None ->
  exists st' r new m,
    loop_body st = (st', r)
    /\ events st' = events st ++ new
    /\ count is_create new = 1
    /\ count is_call new = 0
    /\ (m = apology \/ exists e, m = "Error occurred: " +:+ e)
    /\ current_state (self st') = "error"
    /\ search_history (self st') = search_history (self st)
    /\ match stdin st with
       | [] =>
           r = Raise EOFError
           /\ conversation_history (self st')
              = conversation_history (self st) ++ [Turn "assistant" (VStr m)]
       | line :: rest =>
           r = Ok Continue
           /\ stdin st' = rest
           /\ conversation_history (self st')
              = conversation_history (self st)
                  ++ [Turn "assistant" (VStr m); Turn "user" (VStr line)]
       end.
Proof.
  intros Hsc Hp Hfail Hreg. cbv zeta in Hfail.
  pose proof (call_llm_eq py_str json_loads create state_prompt (temperature_of sc)
                (model_of sc) st) as Hreply.
  cbv zeta in Hreply. set (st1 := RunState _ _ _) in Hreply.
  assert (exists m, response_of
            (create (events st ++ search_history_events (search_history (self st)))
               (request_of (self st) state_prompt (temperature_of sc) (model_of sc)))
          = VDict [("action", VStr "error"); ("message", VStr m);
                   ("next_state", VStr "error"); ("require_input", VStr "1")]
          /\ (m = apology \/ exists e, m = "Error occurred: " +:+ e)) as [m [Hm Hshape]].
  { destruct Hfail as [[e Ha]|[Ha|[text [Ha Hl]]]]; unfold AIAgent.response_of;
      rewrite Ha; [|simpl|rewrite Hl]; eexists; (split; [reflexivity|]); eauto. }
  rewrite Hm in Hreply.
  destruct (canned_decision_pass sc m st1 Hreg)
    as [st' [r [new [Hpr [He [Hcre [Hcall [Hcur [Hsh Hin]]]]]]]]].
  exists st', r,
    (search_history_events (search_history (self st))
       ++ [Ev_create (request_of (self st) state_prompt (temperature_of sc) (model_of sc))]
       ++ new), m.
  split; [by rewrite (loop_body_reply _ _ _ _ _ _ _ _ Hsc Hp Hreply)|].
  split; [rewrite He; subst st1; simpl; by rewrite <- !app_assoc|].
  rewrite !count_app, (count_search_history_events _ _ diagnostic_not_create),
    (count_search_history_events _ _ diagnostic_not_call).
  split; [rewrite Hcre; reflexivity|done].
Qed.

(** X19. [register_action] overwrites: registering a name again
    replaces the callable and leaves every other name alone, and a
    dispatch of that name calls the callable registered last, once. *)
Theorem X19_last_registration_wins name f g a lines evs d :
  name <> "" ->
  register_action name g (register_action name f a) = register_action name g a
  /\ (forall other, other <> name ->
      available_actions (register_action name g a) !! other = available_actions a !! other)
  /\ exists st' r,
      execute_action (VDict d) (VStr name)
        (RunState (register_action name g (register_action name f a)) lines evs)
      = (st', r)
      /\ events st' = evs ++ [Ev_call name (action_params_of d)]
      /\ r = match g (action_params_of d) with
             | Raises e => Raise (ActionError e)
             | Returns _ => Ok tt
             end.
Proof.
  intros Hne. split; [|split].
  - unfold register_action. simpl. by rewrite insert_insert_eq.
  - intros other Hother. simpl. by rewrite lookup_insert_ne.
  - rewrite (execute_action_call py_str d name g) by (done || apply lookup_insert_eq).
    destruct (g _) as [res|e]; [destruct (truthy res); [destruct (String.eqb _ _)|]|];
      eexists _, _; (split; [reflexivity|]); done.
Qed.


End Edges.

(** * The actions of [run_agent.py] *)

Section ActionProperties.

Variable py_str : value -> string.
Variable py_strip : string -> string.
Variable exception_text : RunAgent.failure -> string.
Variable post : string -> list (string * value) -> RunAgent.fetched.
Variable eval : value -> RunAgent.evaluated.
Variable json_loads : string -> option value.
Variable create : list event -> request -> completion.

Abbreviation format_entry := (RunAgent.format_entry py_str py_strip).
Abbreviation format_results := (RunAgent.format_results py_str py_strip).
Abbreviation search_body := (RunAgent.search_body py_str py_strip).
Abbreviation search_function :=
  (RunAgent.search_function py_str py_strip exception_text post).
Abbreviation calculate_function :=
  (RunAgent.calculate_function py_str exception_text eval).
Abbreviation main_agent :=
  (RunAgent.main_agent py_str py_strip exception_text post eval).
Abbreviation main :=
  (RunAgent.main py_str py_strip exception_text post eval json_loads create).
Abbreviation execute_action := (AIAgent.execute_action py_str).

Lemma append_nonempty (s : string) c t : s +:+ String c t <> "".
Proof. by destruct s. Qed.

Lemma search_body_nonempty query response text :
  search_body query response = inr text -> text <> "".
Proof.
  unfold RunAgent.search_body. destruct response as [e|status_code [e|search_results]];
    try discriminate; destruct (status_code =? 200)%Z; try discriminate;
    try (intros [= <-]; discriminate).
  destruct (RunAgent.contains_results search_results) as [e|found]; [discriminate|]. simpl.
  destruct found; [|simpl; intros [= <-]; discriminate].
  destruct (RunAgent.subscript_results search_results) as [e|results] eqn:Hsub;
    [discriminate|]. simpl.
  destruct (truthy results); [|intros [= <-]; discriminate].
  rewrite ?Hsub. simpl.
  destruct (RunAgent.top_five _) as [e|top]; [discriminate|]. simpl.
  destruct (RunAgent.format_results _ _ _ _ _) as [e|formatted]; [discriminate|]. simpl.
  rewrite ?Hsub. simpl.
  destruct (RunAgent.py_len _) as [e|total]; [discriminate|]. simpl.
  intros [= <-]. apply append_nonempty.
Qed.

(** What either function returns, when it returns, is a string that is
    not empty. *)
Lemma search_function_returns params v :
  snd (search_function params) = Returns v -> exists text, v = VStr text /\ text <> "".
Proof.
  unfold RunAgent.search_function. destruct params; try discriminate.
  destruct (negb _); simpl.
  - intros [= <-]. by eexists.
  - destruct (search_body _ _) as [e|text] eqn:Hbody; intros [= <-]; eexists;
      (split; [reflexivity|]); [discriminate|]. by eapply search_body_nonempty.
Qed.

Lemma calculate_function_returns params v :
  snd (calculate_function params) = Returns v -> exists text, v = VStr text /\ text <> "".
Proof.
  unfold RunAgent.calculate_function. destruct params; try discriminate. simpl.
  destruct (eval _); intros [= <-]; by eexists.
Qed.

(** X21. [search_function] on an object never raises and always
    returns a string that is not empty, an error text included; it posts
    one request when the query is truthy, and none at all when the query
    is absent or falsy. *)
Theorem X21_search_function_on_object p :
  let query := dict_get p "query" (VStr "") in
  (exists text, snd (search_function (VDict p)) = Returns (VStr text) /\ text <> "")
  /\ (truthy query = false ->
      search_function (VDict p) = ([], Returns (VStr "Error: No search query provided.")))
  /\ (truthy query = true ->
      fst (search_function (VDict p))
      = [RunAgent.Posted RunAgent.base_url [("q", query); ("format", VStr "json")]]).
Proof.
  cbv zeta. split; [|split].
  - destruct (snd (search_function (VDict p))) as [v|e] eqn:Hres.
    + destruct (search_function_returns _ _ Hres) as [text [-> Hne]]. by exists text.
    + exfalso. revert Hres. unfold RunAgent.search_function.
      destruct (negb _); simpl; [discriminate|]. by destruct (search_body _ _).
  - intros Hq. unfold RunAgent.search_function. by rewrite Hq.
  - intros Hq. unfold RunAgent.search_function. by rewrite Hq.
Qed.

(** X22. [calculate_function] on an object prints the expression once,
    and returns a string that is not empty ("Result: ..." or "Could not
    calculate expression: ...") unless the evaluation raises what is no
    [Exception], which it lets through. *)
Theorem X22_calculate_function_on_object p :
  let expression := dict_get p "expression" (VStr "") in
  fst (calculate_function (VDict p))
  = [RunAgent.Printed ("Calculating: " +:+ py_str expression)]
  /\ match eval expression with
     | RunAgent.EvalExits e => snd (calculate_function (VDict p)) = Raises e
     | _ =>
         exists text,
           snd (calculate_function (VDict p)) = Returns (VStr text) /\ text <> ""
     end.
Proof.
  cbv zeta. split; [reflexivity|]. unfold RunAgent.calculate_function. simpl.
  destruct (eval _); try reflexivity; by eexists.
Qed.


(** X24. Parameters that are not an object (a JSON string, number,
    list or null as [action_params]) make both functions raise at their
    first line, before any request or print; dispatched, the exception
    ends the pass with nothing recorded. *)
Theorem X24_parameters_not_an_object params d st f :
  (forall p, params <> VDict p) ->
  dict_get d "action_params" (VDict []) = params ->
  (f = search_function \/ f = calculate_function) ->
  available_actions (self st) !! "search" = Some (RunAgent.as_action f) ->
  let e := exception_text (RunAgent.NoAttribute (RunAgent.type_name params) "get") in
  f params = ([], Raises e)
  /\ execute_action (VDict d) (VStr "search") st
     = (RunState (self st) (stdin st) (events st ++ [Ev_call "search" params]),
        Raise (ActionError e)).
Proof.
  intros Hnd Hp Hf Hreg. cbv zeta.
  assert (f params
          = ([], Raises (exception_text
                           (RunAgent.NoAttribute (RunAgent.type_name params) "get"))))
    as Hraise.
  { destruct Hf as [-> | ->]; destruct params; try reflexivity; by destruct (Hnd d0). }
  split; [done|].
  rewrite (execute_action_call py_str d "search" _ st ltac:(discriminate) Hreg).
  cbv zeta. rewrite Hp. unfold RunAgent.as_action. by rewrite Hraise.
Qed.

Lemma format_results_entry_fails i results formatted_results k result :
  results !! k = Some result -> (forall r, result <> VDict r) ->
  exists e, format_results i results formatted_results = inl e.
Proof.
  revert i formatted_results k.
  induction results as [|first rest IH]; intros i formatted_results k Hk Hnd; [done|].
  simpl. destruct k as [|k]; simpl in Hk.
  - injection Hk as ->. destruct result; try (by eexists); by destruct (Hnd d).
  - destruct (format_entry i first formatted_results) as [e|text]; [by eexists|].
    simpl. by eapply IH.
Qed.

(** X25. When the instance answers 200 with an object whose "results"
    is a list that is not empty, only its first five entries are
    formatted, numbered from 1, while the total reported is the length of
    the whole list; one entry among the first five that is not an object
    fails the whole search, and an entry after the fifth is never looked
    at. *)
Theorem X25_first_five_results query d results :
  RunAgent.dict_lookup d "results" = Some (VList results) ->
  results <> [] ->
  search_body query (RunAgent.Responded 200 (inr (VDict d)))
  = match format_results 1 (take 5 results) ("Search Results:" +:+ nl +:+ nl) with
    | inr formatted_results =>
        inr (formatted_results +:+ ("Total results found: " +:+ pretty (length results)))
    | inl e => inl e
    end
  /\ (forall k result,
        k < 5 -> results !! k = Some result -> (forall r, result <> VDict r) ->
        exists e, search_body query (RunAgent.Responded 200 (inr (VDict d))) = inl e)
  /\ (forall others,
        length others = length (drop 5 results) ->
        search_body query (RunAgent.Responded 200 (inr (VDict d)))
        = search_body query
            (RunAgent.Responded 200 (inr (VDict [("results", VList (take 5 results ++ others))])))).
Proof.
  intros Hd Hne.
  assert (forall d' results',
            RunAgent.dict_lookup d' "results" = Some (VList results') -> results' <> [] ->
            search_body query (RunAgent.Responded 200 (inr (VDict d')))
            = match format_results 1 (take 5 results') ("Search Results:" +:+ nl +:+ nl) with
              | inr formatted_results =>
                  inr (formatted_results
                       +:+ ("Total results found: " +:+ pretty (length results')))
              | inl e => inl e
              end) as Hbody.
  { intros d' results' Hd' Hne'.
    unfold RunAgent.search_body, RunAgent.contains_results, RunAgent.subscript_results.
    rewrite !Hd'. rewrite bool_decide_eq_true_2 by eauto.
    destruct results' as [|first rest]; [done|]. simpl.
    destruct (format_entry _ _ _) as [e|text]; [done|]. simpl.
    by destruct (format_results _ _ _). }
  split; [by apply Hbody|]. split.
  - intros k result Hk Hres Hnd. rewrite (Hbody d results Hd Hne).
    destruct (format_results_entry_fails 1 (take 5 results)
                ("Search Results:" +:+ nl +:+ nl) k result) as [e ->]; eauto.
    by rewrite lookup_take_lt.
  - intros others Hlen. rewrite (Hbody d results Hd Hne).
    rewrite (Hbody [("results", VList (take 5 results ++ others))] (take 5 results ++ others))
      by (done || (destruct results; [done|discriminate])).
    assert (length (take 5 results ++ others) = length results) as ->
      by (rewrite length_app, Hlen, length_take, length_drop; lia).
    assert (take 5 (take 5 results ++ others) = take 5 results) as ->; [|done].
    destruct (decide (5 <= length results)) as [Hlong|Hshort].
    + rewrite take_app_le by (rewrite length_take; lia). by rewrite take_take.
    + rewrite length_drop in Hlen. destruct others; [|simpl in Hlen; lia].
      by rewrite app_nil_r, take_take.
Qed.

(** X26. A response whose status is not 200 is never parsed: whatever
    its body holds, valid or not, the answer is the status line. *)
Theorem X26_status_not_200 query status_code json :
  status_code <> 200%Z ->
  search_body query (RunAgent.Responded status_code json)
  = inr ("Error: Could not complete search. Status code: " +:+ pretty status_code).
Proof.
  intros Hs. unfold RunAgent.search_body.
  by rewrite (proj2 (Z.eqb_neq status_code 200) Hs).
Qed.


End ActionProperties.

(** * The edge cases on concrete runs *)

Section EdgeExamples.

Abbreviation loads := Corner.loads.
Abbreviation _call_llm := (AIAgent._call_llm Sample.str loads).
Abbreviation loop_body := (AIAgent.loop_body Sample.str loads).
Abbreviation main_loop := (AIAgent.main_loop Sample.str loads).
Abbreviation run := (AIAgent.run Sample.str loads).
Abbreviation execute_action := (AIAgent.execute_action Sample.str).
Abbreviation greet := "Greet the user.".

(** The model asks for "dance", which nobody registered. *)
Lemma X5_witness :
  dict_get (Sample.decision Corner.dance_reply) "action" (VStr "") = VStr "dance"
  /\ available_actions (self (Sample.fresh ["hi"])) !! "dance" = None
  /\ exists st' r,
       loop_body (Sample.says Corner.dance_reply) (Sample.fresh ["hi"]) = (st', r)
       /\ search_history (self st') = []
       /\ conversation_history (self st') = [Turn "assistant" (VStr "m7")].
Proof.
  assert (states (config (self (Sample.fresh ["hi"])))
            !! current_state (self (Sample.fresh ["hi"]))
          = Some Sample.start_spec) as H1 by (vm_compute; reflexivity).
  assert (prompt Sample.start_spec = Some greet) as H2 by reflexivity.
  assert (_call_llm (Sample.says Corner.dance_reply) greet
            (temperature_of Sample.start_spec) (model_of Sample.start_spec)
            (Sample.fresh ["hi"])
          = (Corner.replied (Sample.says Corner.dance_reply) (Sample.fresh ["hi"])
               Sample.start_spec greet,
             Ok (VDict (Sample.decision Corner.dance_reply))))
    as H3 by (vm_compute; reflexivity).
  assert (available_actions (self (Sample.fresh ["hi"])) !! "dance" = None) as H4
    by (vm_compute; reflexivity).
  split; [reflexivity|]. split; [exact H4|].
  destruct (X5_unregistered_action_skipped _ _ _ _ _ _ _ _ H1 H2 H3)
    as [st' [r [users [new [Hb [_ [_ [Hs [Hc Hu]]]]]]]]].
  { right. left. exists "dance". split; [reflexivity|exact H4]. }
  exists st', r. split; [exact Hb|]. split; [exact Hs|].
  vm_compute in Hb. injection Hb as <- _. reflexivity.
Defined.

(** The model gives a list as the action. *)
Lemma X6_witness :
  truthy (dict_get Corner.list_action "action" (VStr "")) = true
  /\ hashable (dict_get Corner.list_action "action" (VStr "")) = false
  /\ exists msg st',
       (forall fuel,
          main_loop (Corner.says_text Corner.list_action_text) (S fuel) (Sample.fresh [])
          = (st', Raised (TypeError msg)))
       /\ current_state (self st') = "start".
Proof.
  assert (states (config (self (Sample.fresh []))) !! current_state (self (Sample.fresh []))
          = Some Sample.start_spec) as H1 by (vm_compute; reflexivity).
  assert (prompt Sample.start_spec = Some greet) as H2 by reflexivity.
  assert (_call_llm (Corner.says_text Corner.list_action_text) greet
            (temperature_of Sample.start_spec) (model_of Sample.start_spec)
            (Sample.fresh [])
          = (Corner.replied (Corner.says_text Corner.list_action_text) (Sample.fresh [])
               Sample.start_spec greet,
             Ok (VDict Corner.list_action)))
    as H3 by (vm_compute; reflexivity).
  split; [reflexivity|]. split; [reflexivity|].
  destruct (X6_unhashable_action_raises _ _ _ _ _ _ _ _ H1 H2 H3 eq_refl eq_refl)
    as [msg [st' [_ [Hl [_ [_ [_ Hc]]]]]]].
  exists msg, st'. split; [exact Hl|exact Hc].
Defined.

(** The model gives a list as the next state. *)
Lemma X7_witness :
  hashable (dict_get Corner.list_state "next_state" (VStr "")) = false
  /\ exists msg st3,
       (forall fuel,
          main_loop (Corner.says_text Corner.list_state_text) (S fuel) (Sample.fresh [])
          = (st3, Raised (TypeError msg)))
       /\ current_state (self st3) = "start".
Proof.
  assert (states (config (self (Sample.fresh []))) !! current_state (self (Sample.fresh []))
          = Some Sample.start_spec) as H1 by (vm_compute; reflexivity).
  assert (prompt Sample.start_spec = Some greet) as H2 by reflexivity.
  assert (_call_llm (Corner.says_text Corner.list_state_text) greet
            (temperature_of Sample.start_spec) (model_of Sample.start_spec)
            (Sample.fresh [])
          = (Corner.replied (Corner.says_text Corner.list_state_text) (Sample.fresh [])
               Sample.start_spec greet,
             Ok (VDict Corner.list_state)))
    as H3 by (vm_compute; reflexivity).
  assert (execute_action (VDict Corner.list_state)
            (dict_get Corner.list_state "action" (VStr ""))
            (fst (record_reply (dict_get Corner.list_state "message" (VStr ""))
                    (Corner.replied (Corner.says_text Corner.list_state_text)
                       (Sample.fresh []) Sample.start_spec greet)))
          = (fst (record_reply (dict_get Corner.list_state "message" (VStr ""))
                    (Corner.replied (Corner.says_text Corner.list_state_text)
                       (Sample.fresh []) Sample.start_spec greet)),
             Ok tt)) as H4 by (vm_compute; reflexivity).
  split; [reflexivity|].
  destruct (X7_unhashable_next_state_raises _ _ _ _ _ _ _ _ H1 H2 H3 _ H4 eq_refl)
    as [msg [_ [Hl [Hc _]]]].
  exists msg. eexists. split; [exact Hl|exact Hc].
Defined.

(** The model answers with an empty JSON array. *)
Lemma X8_witness :
  Corner.loads "[]" = Some (VList [])
  /\ exists st1,
       (forall fuel,
          main_loop (Corner.says_text "[]") (S fuel) (Sample.fresh ["hi"])
          = (st1, Raised (AttributeError "get")))
       /\ self st1 = self (Sample.fresh ["hi"]).
Proof.
  assert (states (config (self (Sample.fresh ["hi"])))
            !! current_state (self (Sample.fresh ["hi"]))
          = Some Sample.start_spec) as H1 by (vm_compute; reflexivity).
  assert (prompt Sample.start_spec = Some greet) as H2 by reflexivity.
  assert (_call_llm (Corner.says_text "[]") greet
            (temperature_of Sample.start_spec) (model_of Sample.start_spec)
            (Sample.fresh ["hi"])
          = (Corner.replied (Corner.says_text "[]") (Sample.fresh ["hi"])
               Sample.start_spec greet,
             Ok (VList [])))
    as H3 by (vm_compute; reflexivity).
  split; [reflexivity|].
  destruct (X8_reply_not_an_object _ _ _ _ _ _ _ _ H1 H2 H3 ltac:(discriminate))
    as [_ [Hl [Hs _]]].
  eexists. split; [exact Hl|exact Hs].
Defined.

(** The state [draft] has a temperature and no prompt. *)
Lemma X9_witness :
  states (config (self Corner.in_draft)) !! current_state (self Corner.in_draft)
  = Some Corner.draft_spec
  /\ table_truthy Corner.draft_spec = true
  /\ prompt Corner.draft_spec = None
  /\ run (Sample.says Sample.exit_reply) (Some "hello") 3 Corner.in_draft
     = (fst (run (Sample.says Sample.exit_reply) (Some "hello") 0 Corner.in_draft),
        Raised (KeyError "prompt")).
Proof.
  assert (states (config (self Corner.in_draft)) !! current_state (self Corner.in_draft)
          = Some Corner.draft_spec) as H1 by (vm_compute; reflexivity).
  split; [exact H1|]. split; [reflexivity|]. split; [reflexivity|].
  apply (X9_state_without_prompt Sample.str loads (Sample.says Sample.exit_reply)
           _ _ H1 eq_refl eq_refl).
Defined.

(** "calculate" is asked for with input required, and standard input
    is empty. *)
Lemma X10_witness :
  stdin (Sample.fresh []) = []
  /\ py_eq_str (dict_get (Sample.decision Sample.calculate_reply) "require_input" (VStr "1"))
       "1" = true
  /\ exists st4,
       (forall fuel,
          main_loop (Sample.says Sample.calculate_reply) (S fuel) (Sample.fresh [])
          = (st4, Raised EOFError))
       /\ current_state (self st4) = "middle".
Proof.
  assert (states (config (self (Sample.fresh []))) !! current_state (self (Sample.fresh []))
          = Some Sample.start_spec) as H1 by (vm_compute; reflexivity).
  assert (prompt Sample.start_spec = Some greet) as H2 by reflexivity.
  assert (_call_llm (Sample.says Sample.calculate_reply) greet
            (temperature_of Sample.start_spec) (model_of Sample.start_spec)
            (Sample.fresh [])
          = (Corner.replied (Sample.says Sample.calculate_reply) (Sample.fresh [])
               Sample.start_spec greet,
             Ok (VDict (Sample.decision Sample.calculate_reply))))
    as H3 by (vm_compute; reflexivity).
  split; [reflexivity|]. split; [reflexivity|].
  destruct (X10_end_of_input _ _ _ _ _ _ _ _ H1 H2 H3
              (fst (execute_action (VDict (Sample.decision Sample.calculate_reply))
                      (VStr "calculate")
                      (fst (record_reply (VStr "m2")
                              (Corner.replied (Sample.says Sample.calculate_reply)
                                 (Sample.fresh []) Sample.start_spec greet)))))
              ltac:(vm_compute; reflexivity) eq_refl eq_refl eq_refl eq_refl)
    as [st4 [Htr [_ [Hl _]]]].
  exists st4. split; [exact Hl|].
  vm_compute in Htr. injection Htr as <-. reflexivity.
Defined.

(** The model proposes "exit" while asking for no input. *)
Lemma X11_witness :
  is_terminal (dict_get (Sample.decision Sample.exit_reply) "next_state" (VStr "")) = true
  /\ exists st' r,
       loop_body (Sample.says Sample.exit_reply) (Sample.fresh ["unread"]) = (st', r)
       /\ stdin st' = ["unread"].
Proof.
  assert (states (config (self (Sample.fresh ["unread"])))
            !! current_state (self (Sample.fresh ["unread"]))
          = Some Sample.start_spec) as H1 by (vm_compute; reflexivity).
  assert (prompt Sample.start_spec = Some greet) as H2 by reflexivity.
  assert (_call_llm (Sample.says Sample.exit_reply) greet
            (temperature_of Sample.start_spec) (model_of Sample.start_spec)
            (Sample.fresh ["unread"])
          = (Corner.replied (Sample.says Sample.exit_reply) (Sample.fresh ["unread"])
               Sample.start_spec greet,
             Ok (VDict (Sample.decision Sample.exit_reply))))
    as H3 by (vm_compute; reflexivity).
  split; [reflexivity|].
  destruct (X11_terminal_pass_reads_nothing _ _ _ _ _ _ _ _ H1 H2 H3 eq_refl)
    as [st' [r [new [Hb [Hs _]]]]].
  exists st', r. split; [exact Hb|exact Hs].
Defined.

(** The state [blank] is an empty table. *)
Lemma X12_witness :
  states (config (self Corner.in_blank)) !! current_state (self Corner.in_blank)
  = Some Corner.blank_spec
  /\ table_truthy Corner.blank_spec = false
  /\ exists st',
       (forall fuel, main_loop (Sample.says Sample.exit_reply) (S fuel) Corner.in_blank
                     = (st', Returned))
       /\ events st'
          = [Ev_print (P_error "Error: State 'blank' not found in configuration")].
Proof.
  assert (states (config (self Corner.in_blank)) !! current_state (self Corner.in_blank)
          = Some Corner.blank_spec) as H1 by (vm_compute; reflexivity).
  split; [exact H1|]. split; [reflexivity|].
  destruct (X12_empty_table_is_missing Sample.str loads (Sample.says Sample.exit_reply)
              _ _ H1 eq_refl) as [st' [_ [Hl [He _]]]].
  exists st'. split; [exact Hl|exact He].
Defined.

(** The endpoint cannot be reached, and a line is waiting. *)
Lemma X13_witness :
  Corner.down (events (Sample.fresh ["again"]))
    (request_of Sample.str (self (Sample.fresh ["again"])) greet
       (temperature_of Sample.start_spec) (model_of Sample.start_spec))
  = ApiError "Connection error."
  /\ available_actions (self (Sample.fresh ["again"])) !! "error" = None
  /\ exists st',
       loop_body Corner.down (Sample.fresh ["again"]) = (st', Ok Continue)
       /\ current_state (self st') = "error"
       /\ conversation_history (self st')
          = [Turn "assistant" (VStr "Error occurred: Connection error.");
             Turn "user" (VStr "again")].
Proof.
  assert (states (config (self (Sample.fresh ["again"])))
            !! current_state (self (Sample.fresh ["again"]))
          = Some Sample.start_spec) as H1 by (vm_compute; reflexivity).
  assert (prompt Sample.start_spec = Some greet) as H2 by reflexivity.
  assert (available_actions (self (Sample.fresh ["again"])) !! "error" = None) as H4
    by (vm_compute; reflexivity).
  split; [reflexivity|]. split; [exact H4|].
  destruct (X13_failed_call_enters_error Sample.str loads Corner.down _ _ _ H1 H2) 
    as [st' [r [new [m [Hb [_ [_ [_ [_ [Hc [_ Hin]]]]]]]]]]].
  { left. exists "Connection error.". reflexivity. }
  { exact H4. }
  simpl in Hin. destruct Hin as [-> [_ _]].
  exists st'. split; [exact Hb|]. split; [exact Hc|].
  vm_compute in Hb. injection Hb as <-. reflexivity.
Defined.

(** "calculate" answers "Result: 4": one system turn, no search result. *)
Lemma X14_witness :
  exists st' r,
    loop_body (Sample.says Sample.calculate_reply) (Sample.fresh ["hi"]) = (st', r)
    /\ search_history (self st') = []
    /\ conversation_history (self st')
       = [Turn "assistant" (VStr "m2"); Turn "system" (VStr "Action result: Result: 4");
          Turn "user" (VStr "hi")].
Proof.
  assert (states (config (self (Sample.fresh ["hi"])))
            !! current_state (self (Sample.fresh ["hi"]))
          = Some Sample.start_spec) as H1 by (vm_compute; reflexivity).
  assert (prompt Sample.start_spec = Some greet) as H2 by reflexivity.
  assert (_call_llm (Sample.says Sample.calculate_reply) greet
            (temperature_of Sample.start_spec) (model_of Sample.start_spec)
            (Sample.fresh ["hi"])
          = (Corner.replied (Sample.says Sample.calculate_reply) (Sample.fresh ["hi"])
               Sample.start_spec greet,
             Ok (VDict (Sample.decision Sample.calculate_reply))))
    as H3 by (vm_compute; reflexivity).
  destruct (X14_one_result_one_history _ _ _ _ _ _ _ _ H1 H2 H3)
    as [st' [r [sys [srch [users [Hb _]]]]]].
  exists st', r. split; [exact Hb|].
  vm_compute in Hb. injection Hb as <- _. split; reflexivity.
Defined.

(** "search" registered twice: the second callable answers. *)
Lemma X19_witness :
  "search" <> ""
  /\ exists st',
       execute_action (VDict []) (VStr "search")
         (RunState
            (register_action "search" (Sample.answers (VStr "second"))
               (register_action "search" (Sample.answers (VStr "first")) (init Sample.cfg)))
            [] [])
       = (st', Ok tt)
       /\ events st' = [Ev_call "search" (VDict [])].
Proof.
  assert ("search" <> "") as H1 by discriminate.
  split; [exact H1|].
  destruct (X19_last_registration_wins Sample.str "search"
              (Sample.answers (VStr "first")) (Sample.answers (VStr "second"))
              (init Sample.cfg) [] [] [] H1)
    as [_ [_ [st' [r [Hb [He Hr]]]]]].
  exists st'. simpl in Hr. rewrite Hr in Hb. split; [exact Hb|exact He].
Defined.



(** The model passes the query as a bare string. *)
Lemma X24_witness :
  dict_get Corner.search_text "action_params" (VDict []) = VStr "rocq"
  /\ Corner.search_function (VStr "rocq")
     = ([], Raises "'str' object has no attribute 'get'")
  /\ execute_action (VDict Corner.search_text) (VStr "search") Corner.helper
     = (RunState (self Corner.helper) [] [Ev_call "search" (VStr "rocq")],
        Raise (ActionError "'str' object has no attribute 'get'")).
Proof.
  assert (available_actions (self Corner.helper) !! "search"
          = Some (RunAgent.as_action Corner.search_function)) as H1
    by (vm_compute; reflexivity).
  split; [reflexivity|].
  apply (X24_parameters_not_an_object Sample.str Corner.strip Corner.exception_text
           Corner.post Corner.eval (VStr "rocq") Corner.search_text Corner.helper
           Corner.search_function ltac:(discriminate) eq_refl (or_introl eq_refl) H1).
Defined.

(** Seven results of which the sixth is null: five are shown, seven are
    counted. *)
Lemma X25_witness :
  RunAgent.dict_lookup Corner.found "results" = Some (VList Corner.hits)
  /\ Corner.hits <> []
  /\ exists shown,
       RunAgent.search_body Sample.str Corner.strip (VStr "rocq")
         (RunAgent.Responded 200 (inr (VDict Corner.found)))
       = inr (shown +:+ "Total results found: 7").
Proof.
  assert (RunAgent.dict_lookup Corner.found "results" = Some (VList Corner.hits)) as H1
    by reflexivity.
  assert (Corner.hits <> []) as H2 by discriminate.
  split; [exact H1|]. split; [exact H2|].
  destruct (X25_first_five_results Sample.str Corner.strip (VStr "rocq") Corner.found
              Corner.hits H1 H2) as [Hbody _].
  exists (match RunAgent.format_results Sample.str Corner.strip 1 (take 5 Corner.hits)
                  ("Search Results:" +:+ nl +:+ nl) with
          | inr formatted_results => formatted_results
          | inl _ => ""
          end).
  rewrite Hbody. vm_compute. reflexivity.
Defined.

(** The instance is out of order: its body is not even JSON. *)
Lemma X26_witness :
  503%Z <> 200%Z
  /\ RunAgent.search_body Sample.str Corner.strip (VStr "down")
       (RunAgent.Responded 503 (inl "Expecting value"))
     = inr "Error: Could not complete search. Status code: 503".
Proof.
  assert (503%Z <> 200%Z) as H1 by discriminate.
  split; [exact H1|].
  apply (X26_status_not_200 Sample.str Corner.strip (VStr "down") 503
           (inl "Expecting value") H1).
Defined.

End EdgeExamples.
